(** * whatapi: the request pipeline of the What.CD JSON API client

    A shallow embedding of [whatapi.go]: the response cache
    ([updateCache], [cachedResponse]), the dispatcher ([GetJSON]), the
    cookie persistence ([getCookies], [saveCookies], [clearCookies]) and
    the session operations ([Login], [Logout], [GetAccount]).

    Go values are represented as follows.
    - [string] and [[]byte] are byte sequences: Rocq [string].  A nil
      slice and an empty slice are both [EmptyString] (the code only
      ever tests [len]).
    - [error] is [option error], [None] being Go's [nil].
    - [time.Time] and [time.Duration] are [Z], in nanoseconds.
    - a method with receiver [w *ClientStruct] is a state transformer
      over the client value and the world outside it (database tables,
      cookie jar, server, clock). *)

From Stdlib Require Import String Ascii List ZArith NArith Bool Lia DecimalString.
From Stdlib Require Import Permutation.
Import ListNotations.
Open Scope string_scope.
Set Warnings "-register-all".

(** ** Byte strings *)

Module Bytes.

(** The double quote character, and a string between double quotes. *)
Definition dquote : string := String "034"%char EmptyString.
Definition quoted (s : string) : string := dquote ++ s ++ dquote.

Definition byte_val (c : ascii) : N := N_of_ascii c.

Definition is_empty (s : string) : bool :=
  match s with EmptyString => true | _ => false end.

Fixpoint drop (n : nat) (s : string) : string :=
  match n, s with
  | S k, String _ t => drop k t
  | _, _ => s
  end.

(** [strings.Contains] *)
Fixpoint Contains (s substr : string) : bool :=
  String.prefix substr s ||
  match s with
  | EmptyString => false
  | String _ t => Contains t substr
  end.

(** [bytes.ReplaceAll s old new] for a non-empty [old]: the
    non-overlapping occurrences of [old], found left to right, are
    replaced by [new].  [skip] counts the bytes of a matched occurrence
    still to be passed over. *)
Fixpoint replace_from (old new s : string) (skip : nat) : string :=
  match s with
  | EmptyString => EmptyString
  | String c t =>
      match skip with
      | S k => replace_from old new t k
      | O =>
          if String.prefix old s
          then new ++ replace_from old new t (String.length old - 1)
          else String c (replace_from old new t 0)
      end
  end.

Definition ReplaceAll (s old new : string) : string :=
  replace_from old new s 0.

End Bytes.

(** ** Errors

    The error values the pipeline produces.  [errRequestFailedLogin],
    [errLoginFailed] and [errRequestFailedReason] are package variables
    declared outside [whatapi.go]; they are kept as opaque constructors.
    [APIError] is the error [checkResponseStatus] yields. *)

Inductive error : Type :=
| errRequestFailedLogin
| errLoginFailed
| errRequestFailedReason (reason : string)
| APIError (message : string)
| sql_ErrNoRows
| StoreError (message : string)
| TransportError (message : string)
| ReadError (message : string)
| URLError (message : string)
| json_SyntaxError
| json_UnmarshalTypeError (value field : string)
| json_Error (message : string)
| fmt_Errorf (message : string)
| PanicNilRequest.

Definition is_ErrNoRows (e : option error) : bool :=
  match e with Some sql_ErrNoRows => true | _ => false end.

(** ** encoding/json, as far as [GenericResponse] needs it *)

Module JSON.

Inductive value : Type :=
| JNull
| JBool (b : bool)
| JNumber (literal : string)
| JString (s : string)
| JArray (elements : list value)
| JObject (members : list (string * value)).

Definition is_ws (c : ascii) : bool :=
  let n := Bytes.byte_val c in
  ((n =? 32) || (n =? 9) || (n =? 10) || (n =? 13))%N.

Fixpoint skip_ws (s : string) : string :=
  match s with
  | String c t => if is_ws c then skip_ws t else s
  | EmptyString => s
  end.

Definition is_digit (c : ascii) : bool :=
  let n := Bytes.byte_val c in ((48 <=? n) && (n <=? 57))%N.

Definition hexval (c : ascii) : option N :=
  let n := Bytes.byte_val c in
  if ((48 <=? n) && (n <=? 57))%N then Some (n - 48)%N
  else if ((97 <=? n) && (n <=? 102))%N then Some (n - 87)%N
  else if ((65 <=? n) && (n <=? 70))%N then Some (n - 55)%N
  else None.

(** The four hexadecimal digits after [\u]. *)
Definition hex4 (s : string) : option N :=
  match s with
  | String a (String b (String c (String d _))) =>
      match hexval a, hexval b, hexval c, hexval d with
      | Some x, Some y, Some z, Some w =>
          Some (((x * 16 + y) * 16 + z) * 16 + w)%N
      | _, _, _, _ => None
      end
  | _ => None
  end.

(** [getu4]: a complete [\uXXXX] escape at the head of [s]. *)
Definition getu4 (s : string) : option N :=
  match s with
  | String "\" (String "u" t) => hex4 t
  | _ => None
  end.

Definition simple_escape (c : ascii) : option ascii :=
  match c with
  | "034"%char => Some "034"%char
  | "\"%char => Some "\"%char
  | "/"%char => Some "/"%char
  | "b"%char => Some "008"%char
  | "f"%char => Some "012"%char
  | "n"%char => Some "010"%char
  | "r"%char => Some "013"%char
  | "t"%char => Some "009"%char
  | _ => None
  end.

(** The scanner's view of a string literal, after its opening quote:
    the raw text up to the closing quote, and what follows it.  Control
    bytes and unknown escapes are syntax errors. *)
Fixpoint scan_string (s : string) : option (string * string) :=
  match s with
  | EmptyString => None
  | String c t =>
      if Ascii.eqb c "034" then Some (EmptyString, t)
      else if Ascii.eqb c "\" then
        match t with
        | EmptyString => None
        | String e t' =>
            let ok :=
              if Ascii.eqb e "u"
              then match hex4 t' with Some _ => true | None => false end
              else match simple_escape e with Some _ => true | None => false end in
            if ok then
              match scan_string t' with
              | Some (raw, rest) => Some (String c (String e raw), rest)
              | None => None
              end
            else None
        end
      else if (Bytes.byte_val c <? 32)%N then None
      else
        match scan_string t with
        | Some (raw, rest) => Some (String c raw, rest)
        | None => None
        end
  end.

Definition byte_of (n : N) : ascii := ascii_of_N (n mod 256).

(** [utf8.EncodeRune] for a rune that is not a surrogate. *)
Definition encode_rune (r : N) : string :=
  if (r <? 128)%N then String (byte_of r) EmptyString
  else if (r <? 2048)%N then
    String (byte_of (192 + r / 64))
      (String (byte_of (128 + r mod 64)) EmptyString)
  else if (r <? 65536)%N then
    String (byte_of (224 + r / 4096))
      (String (byte_of (128 + (r / 64) mod 64))
         (String (byte_of (128 + r mod 64)) EmptyString))
  else
    String (byte_of (240 + r / 262144))
      (String (byte_of (128 + (r / 4096) mod 64))
         (String (byte_of (128 + (r / 64) mod 64))
            (String (byte_of (128 + r mod 64)) EmptyString))).

(** U+FFFD, the replacement character. *)
Definition replacement : string := encode_rune 65533.

Definition in_range (lo hi : N) (c : ascii) : bool :=
  let n := Bytes.byte_val c in ((lo <=? n) && (n <=? hi))%N.

(** [utf8.DecodeRune]: the length of the well-formed sequence at the
    head of [s], or [0] when the first byte starts none. *)
Definition utf8_len (s : string) : nat :=
  match s with
  | String a t =>
      let n := Bytes.byte_val a in
      if (n <? 128)%N then 1%nat
      else if in_range 194 223 a then
        match t with
        | String b _ => if in_range 128 191 b then 2%nat else 0%nat
        | _ => 0%nat
        end
      else if in_range 224 239 a then
        match t with
        | String b (String c _) =>
            let lo := if (n =? 224)%N then 160%N else 128%N in
            let hi := if (n =? 237)%N then 159%N else 191%N in
            if in_range lo hi b && in_range 128 191 c then 3%nat else 0%nat
        | _ => 0%nat
        end
      else if in_range 240 244 a then
        match t with
        | String b (String c (String d _)) =>
            let lo := if (n =? 240)%N then 144%N else 128%N in
            let hi := if (n =? 244)%N then 143%N else 191%N in
            if in_range lo hi b && in_range 128 191 c && in_range 128 191 d
            then 4%nat else 0%nat
        | _ => 0%nat
        end
      else 0%nat
  | EmptyString => 0%nat
  end.

Fixpoint take (n : nat) (s : string) : string :=
  match n, s with
  | S k, String c t => String c (take k t)
  | _, _ => EmptyString
  end.

Definition is_surrogate (r : N) : bool := ((55296 <=? r) && (r <? 57344))%N.

(** [utf16.DecodeRune] on a pair of code units. *)
Definition decode_pair (r1 r2 : N) : option N :=
  if ((55296 <=? r1) && (r1 <? 56320) && (56320 <=? r2) && (r2 <? 57344))%N
  then Some ((r1 - 55296) * 1024 + (r2 - 56320) + 65536)%N
  else None.

(** [unquote]: the bytes a scanned string literal denotes.  Escapes are
    decoded, an unpaired surrogate escape and every ill-formed UTF-8
    byte become U+FFFD. *)
Fixpoint unquote (fuel : nat) (raw : string) : string :=
  match fuel with
  | O => EmptyString
  | S f =>
      match raw with
      | EmptyString => EmptyString
      | String c t =>
          if Ascii.eqb c "\" then
            match t with
            | EmptyString => EmptyString
            | String e t' =>
                if Ascii.eqb e "u" then
                  match hex4 t' with
                  | None => EmptyString
                  | Some rr =>
                      let t4 := Bytes.drop 4 t' in
                      if is_surrogate rr then
                        match getu4 t4 with
                        | Some rr1 =>
                            match decode_pair rr rr1 with
                            | Some dec =>
                                encode_rune dec ++ unquote f (Bytes.drop 6 t4)
                            | None => replacement ++ unquote f t4
                            end
                        | None => replacement ++ unquote f t4
                        end
                      else encode_rune rr ++ unquote f t4
                  end
                else
                  match simple_escape e with
                  | Some x => String x (unquote f t')
                  | None => EmptyString
                  end
            end
          else if (Bytes.byte_val c <? 128)%N then String c (unquote f t)
          else
            match utf8_len raw with
            | O => replacement ++ unquote f t
            | n => take n raw ++ unquote f (Bytes.drop n raw)
            end
      end
  end.

Fixpoint span_digits (s : string) : string * string :=
  match s with
  | String c t =>
      if is_digit c
      then let (d, r) := span_digits t in (String c d, r)
      else (EmptyString, s)
  | EmptyString => (EmptyString, EmptyString)
  end.

(** One or more digits. *)
Definition digits1 (s : string) : option (string * string) :=
  match span_digits s with
  | (EmptyString, _) => None
  | (d, r) => Some (d, r)
  end.

Definition scan_int (s : string) : option (string * string) :=
  match s with
  | String "0" t => Some ("0", t)
  | _ => digits1 s
  end.

Definition scan_frac (s : string) : option (string * string) :=
  match s with
  | String "." t =>
      match digits1 t with
      | Some (d, r) => Some (String "." d, r)
      | None => None
      end
  | _ => Some (EmptyString, s)
  end.

Definition scan_exp (s : string) : option (string * string) :=
  match s with
  | String e t =>
      if Ascii.eqb e "e" || Ascii.eqb e "E" then
        let (sign, t') :=
          match t with
          | String g u =>
              if Ascii.eqb g "+" || Ascii.eqb g "-"
              then (String g EmptyString, u) else (EmptyString, t)
          | EmptyString => (EmptyString, t)
          end in
        match digits1 t' with
        | Some (d, r) => Some (String e (sign ++ d), r)
        | None => None
        end
      else Some (EmptyString, s)
  | EmptyString => Some (EmptyString, s)
  end.

Definition scan_number (s : string) : option (string * string) :=
  let (sign, s1) :=
    match s with
    | String "-" t => ("-", t)
    | _ => (EmptyString, s)
    end in
  match scan_int s1 with
  | None => None
  | Some (i, s2) =>
      match scan_frac s2 with
      | None => None
      | Some (fr, s3) =>
          match scan_exp s3 with
          | None => None
          | Some (ex, s4) => Some (sign ++ i ++ fr ++ ex, s4)
          end
      end
  end.

Definition strip_prefix (p s : string) : option string :=
  if String.prefix p s then Some (Bytes.drop (String.length p) s) else None.

(** The scanner refuses more than [maxNestingDepth] open containers. *)
Definition maxNestingDepth : N := 10000.

Definition literal_string (s : string) : option (string * string) :=
  match scan_string s with
  | Some (raw, rest) => Some (unquote (S (String.length raw)) raw, rest)
  | None => None
  end.

(** A recursive-descent reading of one JSON text.  Every call either
    consumes a byte or is followed by one that does, so
    [2 * length + 2] units of fuel are never exhausted. *)
Fixpoint parse_value (fuel : nat) (depth : N) (s : string)
  : option (value * string) :=
  match fuel with
  | O => None
  | S f =>
      match skip_ws s with
      | EmptyString => None
      | String c t =>
          if Ascii.eqb c "{" then
            if (maxNestingDepth <=? depth)%N then None
            else
              match skip_ws t with
              | String "}" r => Some (JObject [], r)
              | _ =>
                  match parse_members f (depth + 1) t with
                  | Some (ms, r) => Some (JObject ms, r)
                  | None => None
                  end
              end
          else if Ascii.eqb c "[" then
            if (maxNestingDepth <=? depth)%N then None
            else
              match skip_ws t with
              | String "]" r => Some (JArray [], r)
              | _ =>
                  match parse_elements f (depth + 1) t with
                  | Some (vs, r) => Some (JArray vs, r)
                  | None => None
                  end
              end
          else if Ascii.eqb c "034" then
            match literal_string t with
            | Some (str, r) => Some (JString str, r)
            | None => None
            end
          else if Ascii.eqb c "-" || is_digit c then
            match scan_number (String c t) with
            | Some (lit, r) => Some (JNumber lit, r)
            | None => None
            end
          else
            match strip_prefix "true" (String c t) with
            | Some r => Some (JBool true, r)
            | None =>
                match strip_prefix "false" (String c t) with
                | Some r => Some (JBool false, r)
                | None =>
                    match strip_prefix "null" (String c t) with
                    | Some r => Some (JNull, r)
                    | None => None
                    end
                end
            end
      end
  end

with parse_elements (fuel : nat) (depth : N) (s : string)
  : option (list value * string) :=
  match fuel with
  | O => None
  | S f =>
      match parse_value f depth s with
      | None => None
      | Some (v, r) =>
          match skip_ws r with
          | String "," r' =>
              match parse_elements f depth r' with
              | Some (vs, r'') => Some (v :: vs, r'')
              | None => None
              end
          | String "]" r' => Some ([v], r')
          | _ => None
          end
      end
  end

with parse_members (fuel : nat) (depth : N) (s : string)
  : option (list (string * value) * string) :=
  match fuel with
  | O => None
  | S f =>
      match skip_ws s with
      | String "034" t =>
          match literal_string t with
          | None => None
          | Some (key, r) =>
              match skip_ws r with
              | String ":" r1 =>
                  match parse_value f depth r1 with
                  | None => None
                  | Some (v, r2) =>
                      match skip_ws r2 with
                      | String "," r3 =>
                          match parse_members f depth r3 with
                          | Some (ms, r4) => Some ((key, v) :: ms, r4)
                          | None => None
                          end
                      | String "}" r3 => Some ([(key, v)], r3)
                      | _ => None
                      end
                  end
              | _ => None
              end
          end
      | _ => None
      end
  end.

(** [checkValid] and the decoding scan together: one value, surrounded
    by optional white space, and nothing else. *)
Definition parse (data : string) : option value :=
  match parse_value (2 * String.length data + 2) 0 data with
  | Some (v, rest) =>
      if Bytes.is_empty (skip_ws rest) then Some v else None
  | None => None
  end.

End JSON.

(** ** The response envelope *)

(** [type GenericResponse struct], with its [json] tags [status] and
    [error]. *)
Record GenericResponse : Type := {
  Status : string;
  Error : string
}.

Module Envelope.

Definition upper (c : ascii) : ascii :=
  if JSON.in_range 97 122 c then ascii_of_N (Bytes.byte_val c - 32) else c.

(** Case folding of an object key as the decoder does it: ASCII letters
    to upper case, U+017F (long s) to [S], U+212A (Kelvin sign) to [K]. *)
Fixpoint fold_name (s : string) : string :=
  match s with
  | EmptyString => EmptyString
  | String a t =>
      match t with
      | EmptyString => String (upper a) EmptyString
      | String b t2 =>
          if ((Bytes.byte_val a =? 197) && (Bytes.byte_val b =? 191))%N
          then String "S" (fold_name t2)
          else
            match t2 with
            | String c t3 =>
                if ((Bytes.byte_val a =? 226) && (Bytes.byte_val b =? 132)
                    && (Bytes.byte_val c =? 170))%N
                then String "K" (fold_name t3)
                else String (upper a) (fold_name t)
            | EmptyString => String (upper a) (fold_name t)
            end
      end
  end.

(** A key selects a field by its exact name, else by its folded name. *)
Definition name_matches (field key : string) : bool :=
  String.eqb key field || String.eqb (fold_name key) (fold_name field).

Definition kind (v : JSON.value) : string :=
  match v with
  | JSON.JNull => "null"
  | JSON.JBool _ => "bool"
  | JSON.JNumber _ => "number"
  | JSON.JString _ => "string"
  | JSON.JArray _ => "array"
  | JSON.JObject _ => "object"
  end.

(** Only the first error of a decode is kept. *)
Definition save_error (saved : option error) (e : error) : option error :=
  match saved with
  | Some _ => saved
  | None => Some e
  end.

(** Storing a JSON value into a [string] field: a string is stored,
    [null] leaves the field alone, anything else is a type error and
    the decode goes on. *)
Definition store_string (field : string) (v : JSON.value) (cur : string)
    (saved : option error) : string * option error :=
  match v with
  | JSON.JString s => (s, saved)
  | JSON.JNull => (cur, saved)
  | _ => (cur, save_error saved (json_UnmarshalTypeError (kind v) field))
  end.

Fixpoint decode_members (ms : list (string * JSON.value))
    (st : GenericResponse) (saved : option error)
  : GenericResponse * option error :=
  match ms with
  | [] => (st, saved)
  | (key, v) :: rest =>
      if name_matches "status" key then
        let (s, e) := store_string "status" v (Status st) saved in
        decode_members rest {| Status := s; Error := Error st |} e
      else if name_matches "error" key then
        let (s, e) := store_string "error" v (Error st) saved in
        decode_members rest {| Status := Status st; Error := s |} e
      else decode_members rest st saved
  end.

Definition zero : GenericResponse := {| Status := EmptyString; Error := EmptyString |}.

(** [json.Unmarshal(body, &st)] for a fresh [st GenericResponse]. *)
Definition Unmarshal (data : string) : GenericResponse * option error :=
  match JSON.parse data with
  | None => (zero, Some json_SyntaxError)
  | Some (JSON.JObject ms) => decode_members ms zero None
  | Some JSON.JNull => (zero, None)
  | Some v => (zero, Some (json_UnmarshalTypeError (kind v) EmptyString))
  end.

End Envelope.

(** Modelled from the spec: [checkResponseStatus] is declared outside
    [whatapi.go].  The spec (4.3 step 3, and the APIError entry of 7)
    says: if the envelope's [status] signals failure, the result is an
    APIError carrying the envelope's [error] message; its example of a
    failing envelope has status [failure]. *)
Definition checkResponseStatus (status errorStr : string) : option error :=
  if String.eqb status "failure" then Some (APIError errorStr) else None.

(** ** Collaborators declared outside [whatapi.go] *)

(** The dynamic type of the [responseObj] handed to [GetJSON]. *)
Inductive Shape : Type :=
| ArtistResponse
| TopTenTorrentsResponse
| AccountResponse
| OtherResponse (name : string).

(** The fields of [AccountResponse] that [GetAccount] reads:
    [Status], [Error], [Response.AuthKey], [Response.PassKey]. *)
Record AccountFields : Type := {
  acc_Status : string;
  acc_Error : string;
  acc_AuthKey : string;
  acc_PassKey : string
}.

(** [http.Cookie], as far as the jar keeps it for one URL. *)
Record Cookie : Type := {
  Name : string;
  Value : string
}.

(** [url.Values] *)
Definition Values : Type := list (string * list string).

(** What the pipeline calls but [whatapi.go] does not define: the
    endpoint response structs and their decoding, [buildURL], request
    construction, and the JSON form of a cookie list.  A [url.URL] is
    represented by its [String()] rendering. *)
Record Externals : Type := {
  Payload : Type;
  zero_value : Shape -> Payload;
  (** [json.Unmarshal(body, responseObj)]: decodes into the object the
      pointer designates, and may leave it partly filled on error. *)
  json_Unmarshal : Shape -> string -> Payload -> Payload * option error;
  account_fields : Payload -> AccountFields;
  buildURL : string -> string -> string -> Values -> string * option error;
  (** the error of [http.NewRequest(method, url, _)] *)
  http_NewRequest : string -> string -> option error;
  json_Marshal_cookies : list Cookie -> string * option error;
  json_Unmarshal_cookies : string -> list Cookie * option error
}.

(** ** The world outside the client *)

Record Request : Type := {
  Method : string;
  URL : string;
  Header : list (string * string);
  (** the form values whose encoding is the request body *)
  Form : list (string * string)
}.

Record Response : Type := {
  StatusCode : Z;
  StatusText : string;
  (** the result of [ioutil.ReadAll(resp.Body)] *)
  ReadAll : string * option string;
  (** [resp.Request.URL.String()], the URL reached after redirects *)
  RequestURL : string;
  SetCookie : list Cookie
}.

Inductive RoundTrip : Type :=
| Failed (message : string)
| Answered (resp : Response).

(** What the database driver does with a statement: it fails, or it runs
    it and, for [Exec], reports a row count through
    [Result.RowsAffected]. *)
Inductive Verdict : Type :=
| Fails (message : string)
| Executes (rows : Z) (rowsErr : option string).

Inductive Target : Type :=
| TGenericResponse
| TResponse (shape : Shape)
| TCookies.

Inductive Event : Type :=
| HTTP (req : Request)
| SQLExec (stmt : string) (args : list string)
| SQLQuery (stmt : string) (args : list string)
| Unmarshal (target : Target) (data : string).

(** A row of [urlcache (requesturl PRIMARY KEY, body, timestamp)]. *)
Record CacheRow : Type := {
  requesturl : string;
  body : string;
  timestamp : Z
}.

(** A row of [cookies (url PRIMARY KEY, cookie)]. *)
Record CookieRow : Type := {
  url : string;
  cookie : string
}.

(** The tables are lists of rows, so that the number of rows under a key
    can be counted.  [Jar] is the cookie jar of the shared
    [*http.Client].  [trace] lists what has been done so far, oldest
    first.  [server], [driver] and [clock] say how the surroundings
    behave: the answer to the n-th HTTP request (given the jar it is
    sent with), the verdict on the n-th SQL statement, and the time
    after n events. *)
Record World : Type := {
  urlcache : list CacheRow;
  cookies : list CookieRow;
  Jar : list Cookie;
  trace : list Event;
  server : nat -> Request -> list Cookie -> RoundTrip;
  driver : nat -> Verdict;
  clock : nat -> Z
}.

Inductive sql_DB : Type := Database.

(** [type ClientStruct struct]; the [client] field is the pointer whose
    jar is [Jar] above. *)
Record ClientStruct : Type := {
  baseURL : string;
  userAgent : string;
  authkey : string;
  passkey : string;
  loggedIn : bool;
  db : option sql_DB;
  cacheFor : Z
}.

Definition is_http (e : Event) : bool :=
  match e with HTTP _ => true | _ => false end.

Definition is_sql (e : Event) : bool :=
  match e with SQLExec _ _ | SQLQuery _ _ => true | _ => false end.

Definition is_unmarshal (t : Target -> bool) (e : Event) : bool :=
  match e with Unmarshal t' _ => t t' | _ => false end.

Definition http_count (env : World) : nat :=
  List.length (filter is_http (trace env)).

Definition sql_count (env : World) : nat :=
  List.length (filter is_sql (trace env)).

Definition with_trace (tr : list Event) (env : World) : World :=
  {| urlcache := urlcache env; cookies := cookies env; Jar := Jar env;
     trace := tr;
     server := server env; driver := driver env; clock := clock env |}.

Definition with_Jar (j : list Cookie) (env : World) : World :=
  {| urlcache := urlcache env; cookies := cookies env; Jar := j;
     trace := trace env;
     server := server env; driver := driver env; clock := clock env |}.

Definition with_urlcache (t : list CacheRow) (env : World) : World :=
  {| urlcache := t; cookies := cookies env; Jar := Jar env;
     trace := trace env;
     server := server env; driver := driver env; clock := clock env |}.

Definition with_cookies (t : list CookieRow) (env : World) : World :=
  {| urlcache := urlcache env; cookies := t; Jar := Jar env;
     trace := trace env;
     server := server env; driver := driver env; clock := clock env |}.

Definition record (e : Event) (env : World) : World :=
  with_trace (trace env ++ [e]) env.

(** *** Time *)

Definition second : Z := 1000000000.

(** [time.Now()] *)
Definition time_Now (env : World) : Z := clock env (List.length (trace env)).

(** SQLite's [datetime('now')]: the current time in whole seconds. *)
Definition datetime_now (env : World) : Z := (time_Now env / second) * second.

Definition minDuration : Z := - 2 ^ 63.
Definition maxDuration : Z := 2 ^ 63 - 1.

(** [time.Since(t)]: a [Duration] is an int64, and the difference
    saturates at its bounds. *)
Definition time_Since (t : Z) (env : World) : Z :=
  Z.max minDuration (Z.min maxDuration (time_Now env - t)).

(** *** The cookie jar *)

Fixpoint SetCookie1 (jar : list Cookie) (c : Cookie) : list Cookie :=
  match jar with
  | [] => [c]
  | d :: rest =>
      if String.eqb (Name d) (Name c) then c :: rest
      else d :: SetCookie1 rest c
  end.

(** [Jar.SetCookies(u, cs)] *)
Definition SetCookies (jar cs : list Cookie) : list Cookie :=
  fold_left SetCookie1 cs jar.

(** *** The HTTP client *)

(** [client.Do(req)]: the request goes out with the jar's cookies, and
    the cookies of the answer are put into the jar. *)
Definition client_Do (req : Request) (env : World) : RoundTrip * World :=
  let out := server env (http_count env) req (Jar env) in
  let env1 := record (HTTP req) env in
  match out with
  | Failed _ => (out, env1)
  | Answered resp => (out, with_Jar (SetCookies (Jar env1) (SetCookie resp)) env1)
  end.

Fixpoint Header_Set (h : list (string * string)) (k v : string)
  : list (string * string) :=
  match h with
  | [] => [(k, v)]
  | (k', v') :: rest =>
      if String.eqb k' k then (k, v) :: rest
      else (k', v') :: Header_Set rest k v
  end.

Definition set_header (k v : string) (req : Request) : Request :=
  {| Method := Method req; URL := URL req;
     Header := Header_Set (Header req) k v; Form := Form req |}.

(** *** The database *)

Definition stmt_replace_urlcache : string :=
  "REPLACE INTO urlcache (requesturl, body, timestamp) VALUES(?,?, datetime('now'))".
Definition stmt_select_urlcache : string :=
  "SELECT body, timestamp FROM urlcache WHERE requesturl = ?".
Definition stmt_select_cookie : string :=
  "SELECT cookie FROM cookies WHERE url=?".
Definition stmt_replace_cookies : string :=
  "REPLACE INTO cookies VALUES(?,?)".

(** [REPLACE INTO] a table whose key column is its primary key: the rows
    under the key are deleted and the new row is inserted. *)
Definition replace_cache_row (r : CacheRow) (t : list CacheRow) : list CacheRow :=
  filter (fun x => negb (String.eqb (requesturl x) (requesturl r))) t ++ [r].

Definition replace_cookie_row (r : CookieRow) (t : list CookieRow) : list CookieRow :=
  filter (fun x => negb (String.eqb (url x) (url r))) t ++ [r].

(** The rows a [SELECT ... WHERE key = ?] returns; [QueryRow] scans the
    first. *)
Definition select_cache (key : string) (t : list CacheRow) : option CacheRow :=
  find (fun x => String.eqb (requesturl x) key) t.

Definition select_cookie (key : string) (t : list CookieRow) : option CookieRow :=
  find (fun x => String.eqb (url x) key) t.

(** [sql.Result], by what [RowsAffected] returns. *)
Definition sql_Result : Type := (Z * option string)%type.

Definition no_Result : sql_Result := (0%Z, None).

(** [db.Exec(stmt_replace_urlcache, requestURL, body)] *)
Definition Exec_replace_urlcache (requestURL data : string) (env : World)
  : (sql_Result * option error) * World :=
  let env1 := record (SQLExec stmt_replace_urlcache [requestURL; data]) env in
  match driver env (sql_count env) with
  | Fails m => ((no_Result, Some (StoreError m)), env1)
  | Executes rows rowsErr =>
      let r := {| requesturl := requestURL; body := data;
                  timestamp := datetime_now env |} in
      (((rows, rowsErr), None), with_urlcache (replace_cache_row r (urlcache env1)) env1)
  end.

(** [db.QueryRow(stmt_select_urlcache, requestURL).Scan(&body, &timestamp)] *)
Definition QueryRow_urlcache (requestURL : string) (env : World)
  : (string * Z * option error) * World :=
  let env1 := record (SQLQuery stmt_select_urlcache [requestURL]) env in
  match driver env (sql_count env) with
  | Fails m => ((EmptyString, 0%Z, Some (StoreError m)), env1)
  | Executes _ _ =>
      match select_cache requestURL (urlcache env) with
      | None => ((EmptyString, 0%Z, Some sql_ErrNoRows), env1)
      | Some r => ((body r, timestamp r, None), env1)
      end
  end.

(** [db.QueryRow(stmt_select_cookie, url).Scan(&c)] *)
Definition QueryRow_cookie (key : string) (env : World)
  : (string * option error) * World :=
  let env1 := record (SQLQuery stmt_select_cookie [key]) env in
  match driver env (sql_count env) with
  | Fails m => ((EmptyString, Some (StoreError m)), env1)
  | Executes _ _ =>
      match select_cookie key (cookies env) with
      | None => ((EmptyString, Some sql_ErrNoRows), env1)
      | Some r => ((cookie r, None), env1)
      end
  end.

(** [db.Exec(stmt_replace_cookies, url, c)] *)
Definition Exec_replace_cookies (key c : string) (env : World)
  : option error * World :=
  let env1 := record (SQLExec stmt_replace_cookies [key; c]) env in
  match driver env (sql_count env) with
  | Fails m => (Some (StoreError m), env1)
  | Executes _ _ =>
      (None, with_cookies (replace_cookie_row {| url := key; cookie := c |} (cookies env1)) env1)
  end.

(** ** Methods of [*ClientStruct]

    A method is a state transformer over the client value and the
    world; it returns what the Go method returns. *)

Definition State : Type := (ClientStruct * World)%type.

Definition M (A : Type) : Type := State -> A * State.

Definition ret {A : Type} (a : A) : M A := fun s => (a, s).

Definition bind {A B : Type} (m : M A) (k : A -> M B) : M B :=
  fun s => let (a, s') := m s in k a s'.

Declare Scope go_scope.
Delimit Scope go_scope with go.

Notation "x <- m ;; k" := (bind m (fun x => k))
  (at level 61, m at next level, right associativity) : go_scope.
Notation "' p <- m ;; k" := (bind m (fun x => let 'p := x in k))
  (at level 61, p pattern, m at next level, right associativity) : go_scope.
Notation "m ;;; k" := (bind m (fun _ => k))
  (at level 61, right associativity) : go_scope.

(** The receiver [*w]. *)
Definition this : M ClientStruct := fun s => (fst s, s).

Definition assign (f : ClientStruct -> ClientStruct) : M unit :=
  fun s => (tt, (f (fst s), snd s)).

(** An operation of the world. *)
Definition perform {A : Type} (f : World -> A * World) : M A :=
  fun s => let (a, env) := f (snd s) in (a, (fst s, env)).

Definition emit (e : Event) : M unit :=
  perform (fun env => (tt, record e env)).

(** [if err != nil { return ... }] *)
Definition or_return {A : Type} (err : option error) (r : error -> M A)
    (k : M A) : M A :=
  match err with
  | Some e => r e
  | None => k
  end.

Notation "'check' err 'else' r ;; k" := (or_return err r k)
  (at level 61, err at next level, r at next level, right associativity) : go_scope.

(** [return err] in a method whose only result is the [error]. *)
Definition leave : error -> M (option error) := fun e => ret (Some e).

Definition set_session (l : bool) (a p : string) (w : ClientStruct) : ClientStruct :=
  {| baseURL := baseURL w; userAgent := userAgent w;
     authkey := a; passkey := p; loggedIn := l;
     db := db w; cacheFor := cacheFor w |}.

Definition set_loggedIn (l : bool) (w : ClientStruct) : ClientStruct :=
  set_session l (authkey w) (passkey w) w.

Definition set_keys (a p : string) (w : ClientStruct) : ClientStruct :=
  set_session (loggedIn w) a p w.

Definition set_db_loggedIn (d : option sql_DB) (l : bool) (w : ClientStruct)
  : ClientStruct :=
  {| baseURL := baseURL w; userAgent := userAgent w;
     authkey := authkey w; passkey := passkey w; loggedIn := l;
     db := d; cacheFor := cacheFor w |}.

(** [%d] of an integer. *)
Definition decimal (z : Z) : string := NilZero.string_of_int (Z.to_int z).

(** The two fragments that servers are known to send malformed, and
    what they are rewritten to. *)
Definition extendedArtists_false : string :=
  Bytes.quoted "extendedArtists" ++ ":false".
Definition extendedArtists_object : string :=
  Bytes.quoted "extendedArtists" ++ ":{}".
Definition artist_false : string :=
  Bytes.quoted "artist" ++ ":false".
Definition artist_empty : string :=
  Bytes.quoted "artist" ++ ":" ++ Bytes.quoted EmptyString.

Definition GET (u : string) : Request :=
  {| Method := "GET"; URL := u; Header := []; Form := [] |}.

Definition is_nil (d : option sql_DB) : bool :=
  match d with None => true | Some _ => false end.

Section Client.

Context (X : Externals).

Local Open Scope go_scope.

(** [func (w *ClientStruct) doRequest] *)
Definition doRequest (req : Request) : M (string * option error) :=
  w <- this ;;
  let req := set_header "User-Agent" (userAgent w) req in
  out <- perform (client_Do req) ;;
  match out with
  | Failed m => ret (EmptyString, Some (TransportError m))
  | Answered resp =>
      if negb (StatusCode resp =? 200)%Z
      then ret (EmptyString,
                Some (errRequestFailedReason ("Status Code " ++ StatusText resp)))
      else
        let '(data, err) := ReadAll resp in
        check option_map ReadError err
          else (fun e => ret (EmptyString, Some e)) ;;
        ret (data, None)
  end.

(** [func (w *ClientStruct) updateCache] *)
Definition updateCache (requestURL data : string) : M (option error) :=
  w <- this ;;
  if is_nil (db w) then ret None
  else
    '(res, err) <- perform (Exec_replace_urlcache requestURL data) ;;
    check err else leave ;;
    let '(rows, err) := (res : sql_Result) in
    check option_map StoreError err else leave ;;
    if negb (rows =? 1)%Z
    then ret (Some (fmt_Errorf ("INSERT affected " ++ decimal rows
                                  ++ " rows, expected 1")))
    else ret None.

(** [func (w *ClientStruct) cachedResponse] *)
Definition cachedResponse (requestURL : string) : M (string * option error) :=
  w <- this ;;
  if is_nil (db w) then ret (EmptyString, None)
  else
    '(data, timestamp, err) <- perform (QueryRow_urlcache requestURL) ;;
    check err else (fun e => ret (EmptyString, Some e)) ;;
    env <- perform (fun env => (env, env)) ;;
    if Bytes.is_empty data || (time_Since timestamp env >? cacheFor w)%Z
    then ret (EmptyString, Some sql_ErrNoRows)
    else ret (data, None).

(** [GetJSON], lines 339-356: the body comes from the cache, or from
    the network and is then written to the cache.  An error here is what
    [GetJSON] returns. *)
Definition GetJSON_body (requestURL : string) : M (string * option error) :=
  '(data, err) <- cachedResponse requestURL ;;
  w <- this ;;
  if is_nil (db w) || is_ErrNoRows err then
    check http_NewRequest X "GET" requestURL
      else (fun e => ret (EmptyString, Some e)) ;;
    '(data, err) <- doRequest (GET requestURL) ;;
    check err else (fun e => ret (EmptyString, Some e)) ;;
    err <- updateCache requestURL data ;;
    check err else (fun e => ret (EmptyString, Some e)) ;;
    ret (data, None)
  else
    check err else (fun e => ret (EmptyString, Some e)) ;;
    ret (data, None).

(** [GetJSON], lines 366-384: the type switch.  For the two shapes it
    names, a first decode is tried and the body is rewritten when it
    fails. *)
Definition GetJSON_quirks (data : string) (shape : Shape)
    (responseObj : Payload X) : M (Payload X * string) :=
  match shape with
  | ArtistResponse =>
      emit (Unmarshal (TResponse shape) data) ;;;
      let '(ro, err) := json_Unmarshal X shape data responseObj in
      match err with
      | Some _ =>
          ret (ro, Bytes.ReplaceAll data extendedArtists_false extendedArtists_object)
      | None => ret (ro, data)
      end
  | TopTenTorrentsResponse =>
      emit (Unmarshal (TResponse shape) data) ;;;
      let '(ro, err) := json_Unmarshal X shape data responseObj in
      match err with
      | Some _ => ret (ro, Bytes.ReplaceAll data artist_false artist_empty)
      | None => ret (ro, data)
      end
  | _ => ret (responseObj, data)
  end.

(** [GetJSON], lines 358-385: the envelope is decoded and checked, then
    the body is decoded into [responseObj]. *)
Definition GetJSON_decode (data : string) (shape : Shape)
    (responseObj : Payload X) : M (Payload X * option error) :=
  emit (Unmarshal TGenericResponse data) ;;;
  let '(st, err) := Envelope.Unmarshal data in
  check err else (fun e => ret (responseObj, Some e)) ;;
  check checkResponseStatus (Status st) (Error st)
    else (fun e => ret (responseObj, Some e)) ;;
  '(ro, data) <- GetJSON_quirks data shape responseObj ;;
  emit (Unmarshal (TResponse shape) data) ;;;
  ret (json_Unmarshal X shape data ro).

(** [func (w *ClientStruct) GetJSON] *)
Definition GetJSON (requestURL : string) (shape : Shape)
    (responseObj : Payload X) : M (Payload X * option error) :=
  w <- this ;;
  if negb (loggedIn w) then ret (responseObj, Some errRequestFailedLogin)
  else
    '(data, err) <- GetJSON_body requestURL ;;
    check err else (fun e => ret (responseObj, Some e)) ;;
    GetJSON_decode data shape responseObj.

(** [func (w *ClientStruct) saveCookies] *)
Definition saveCookies : M (option error) :=
  w <- this ;;
  if is_nil (db w) then ret None
  else
    cs <- perform (fun env => (Jar env, env)) ;;
    let '(c, err) := json_Marshal_cookies X cs in
    check err else leave ;;
    perform (Exec_replace_cookies (baseURL w) c).

(** [func (w *ClientStruct) getCookies] *)
Definition getCookies : M (option error) :=
  w <- this ;;
  if is_nil (db w) then ret None
  else
    '(c, err) <- perform (QueryRow_cookie (baseURL w)) ;;
    if is_ErrNoRows err then ret None
    else
      check err else leave ;;
      emit (Unmarshal TCookies c) ;;;
      let '(cs, err) := json_Unmarshal_cookies X c in
      match err with
      | None =>
          perform (fun env => (tt, with_Jar (SetCookies (Jar env) cs) env)) ;;;
          ret err
      | Some _ => ret err
      end.

(** [func (w *ClientStruct) clearCookies]; [cookiejar.New(nil)] returns
    an empty jar and never an error. *)
Definition clearCookies : M (option error) :=
  perform (fun env => (tt, with_Jar [] env)) ;;;
  saveCookies.

(** [func (w *ClientStruct) GetAccount] *)
Definition GetAccount : M (option error) :=
  w <- this ;;
  let account := zero_value X AccountResponse in
  let '(requestURL, err) := buildURL X (baseURL w) "ajax.php" "index" [] in
  check err else leave ;;
  let db0 := db w in
  let loggedIn0 := loggedIn w in
  assign (set_db_loggedIn None true) ;;;
  '(account, err) <- GetJSON requestURL AccountResponse account ;;
  assign (set_db_loggedIn db0 loggedIn0) ;;;
  check err else leave ;;
  let a := account_fields X account in
  check checkResponseStatus (acc_Status a) (acc_Error a) else leave ;;
  assign (set_keys (acc_AuthKey a) (acc_PassKey a)) ;;;
  ret None.

Definition login_request (w : ClientStruct) (username password : string)
  : Request :=
  {| Method := "POST";
     URL := baseURL w ++ "login.php";
     Header := [("Content-Type", "application/x-www-form-urlencoded");
                ("User-Agent", userAgent w)];
     Form := [("username", username); ("password", password)] |}.

(** [Login], lines 497-520: the credentials are posted.  The error of
    [http.NewRequest] is not tested before the request is used; with a
    nil request the method panics, which is reported here as
    [PanicNilRequest]. *)
Definition Login_credentials (username password : string) : M (option error) :=
  w <- this ;;
  match http_NewRequest X "POST" (baseURL w ++ "login.php") with
  | Some _ => ret (Some PanicNilRequest)
  | None =>
      out <- perform (client_Do (login_request w username password)) ;;
      match out with
      | Failed m => ret (Some (TransportError m))
      | Answered resp =>
          if negb (Bytes.Contains (RequestURL resp) "index")
          then ret (Some errLoginFailed)
          else
            assign (set_loggedIn true) ;;;
            err <- GetAccount ;;
            check err else leave ;;
            saveCookies
      end
  end.

(** [func (w *ClientStruct) Login] *)
Definition Login (username password : string) : M (option error) :=
  w <- this ;;
  if negb (is_nil (db w)) then
    err <- getCookies ;;
    check err else leave ;;
    err <- GetAccount ;;
    match err with
    | None => assign (set_loggedIn true) ;;; ret None
    | Some _ =>
        err <- clearCookies ;;
        check err else leave ;;
        Login_credentials username password
    end
  else Login_credentials username password.

(** [http.Client.Get]: the request is built, then sent. *)
Definition client_Get (u : string) : M (option error) :=
  check http_NewRequest X "GET" u else leave ;;
  out <- perform (client_Do (GET u)) ;;
  match out with
  | Failed m => ret (Some (TransportError m))
  | Answered _ => ret None
  end.

(** [func (w *ClientStruct) Logout] *)
Definition Logout : M (option error) :=
  w <- this ;;
  let params : Values := [("auth", [authkey w])] in
  let '(requestURL, err) := buildURL X (baseURL w) "logout.php" EmptyString params in
  check err else leave ;;
  err <- client_Get requestURL ;;
  check err else leave ;;
  assign (set_session false EmptyString EmptyString) ;;;
  ret None.

End Client.

(** ** A concrete setting

    One instance of the collaborators and a small tracker, on which the
    methods can be run.  Decoded payloads are JSON trees. *)

Module Sample.

Import Bytes.

Definition member (key : string) (v : JSON.value) : JSON.value :=
  match v with
  | JSON.JObject ms =>
      match find (fun m => String.eqb (fst m) key) ms with
      | Some (_, x) => x
      | None => JSON.JNull
      end
  | _ => JSON.JNull
  end.

Definition text (v : JSON.value) : string :=
  match v with JSON.JString s => s | _ => EmptyString end.

Definition is_bool (v : JSON.value) : bool :=
  match v with JSON.JBool _ => true | _ => false end.

Definition items (v : JSON.value) : list JSON.value :=
  match v with JSON.JArray l => l | _ => [] end.

(** Where the response structs want an object or a string and the body
    has a boolean, the decode fails. *)
Definition ill_typed (shape : Shape) (v : JSON.value) : option string :=
  match shape with
  | ArtistResponse =>
      if is_bool (member "extendedArtists" (member "response" v))
      then Some "response.extendedArtists" else None
  | TopTenTorrentsResponse =>
      if existsb
           (fun cat => existsb (fun r => is_bool (member "artist" r))
                         (items (member "results" cat)))
           (items (member "response" v))
      then Some "response.results.artist" else None
  | _ => None
  end.

Definition decode (shape : Shape) (data : string) (obj : JSON.value)
  : JSON.value * option error :=
  match JSON.parse data with
  | None => (obj, Some json_SyntaxError)
  | Some v =>
      match ill_typed shape v with
      | Some field => (v, Some (json_UnmarshalTypeError "bool" field))
      | None => (v, None)
      end
  end.

Definition account (v : JSON.value) : AccountFields :=
  {| acc_Status := text (member "status" v);
     acc_Error := text (member "error" v);
     acc_AuthKey := text (member "authkey" (member "response" v));
     acc_PassKey := text (member "passkey" (member "response" v)) |}.

Definition pair_text (k v : string) : string := quoted k ++ ":" ++ quoted v.

Definition query (action : string) (params : Values) : list string :=
  (if is_empty action then [] else ["action=" ++ action])
  ++ map (fun kv => fst kv ++ "=" ++ last (snd kv) EmptyString) params.

Definition build (base path action : string) (params : Values)
  : string * option error :=
  match query action params with
  | [] => (base ++ path, None)
  | q => (base ++ path ++ "?" ++ String.concat "&" q, None)
  end.

Fixpoint has_control (s : string) : bool :=
  match s with
  | EmptyString => false
  | String c t =>
      (byte_val c <? 32)%N || (byte_val c =? 127)%N || has_control t
  end.

Definition new_request (method u : string) : option error :=
  if has_control u
  then Some (URLError "net/url: invalid control character in URL")
  else None.

Definition marshal_cookies (cs : list Cookie) : string * option error :=
  match cs with
  | [] => ("null", None)
  | _ =>
      ("[" ++ String.concat ","
                (map (fun c => "{" ++ pair_text "Name" (Name c) ++ ","
                                   ++ pair_text "Value" (Value c) ++ "}") cs)
           ++ "]", None)
  end.

Definition unmarshal_cookies (c : string) : list Cookie * option error :=
  match JSON.parse c with
  | None => ([], Some json_SyntaxError)
  | Some JSON.JNull => ([], None)
  | Some (JSON.JArray l) =>
      (map (fun o => {| Name := text (member "Name" o);
                        Value := text (member "Value" o) |}) l, None)
  | Some v => ([], Some (json_UnmarshalTypeError (Envelope.kind v) EmptyString))
  end.

Definition X : Externals :=
  {| Payload := JSON.value;
     zero_value := fun _ => JSON.JNull;
     json_Unmarshal := decode;
     account_fields := account;
     buildURL := build;
     http_NewRequest := new_request;
     json_Marshal_cookies := marshal_cookies;
     json_Unmarshal_cookies := unmarshal_cookies |}.

(** *** The tracker *)

Definition site : string := "https://tracker.example/".

Definition ok (data final : string) (cs : list Cookie) : RoundTrip :=
  Answered {| StatusCode := 200; StatusText := "200 OK";
              ReadAll := (data, None); RequestURL := final;
              SetCookie := cs |}.

Definition session (v : string) : Cookie := {| Name := "session"; Value := v |}.

Definition has_session (jar : list Cookie) : bool :=
  existsb (fun c => String.eqb (Name c) "session"
                    && (String.eqb (Value c) "s1" || String.eqb (Value c) "s2")) jar.

Definition index_body : string :=
  "{" ++ pair_text "status" "success" ++ ","
      ++ quoted "response" ++ ":{" ++ pair_text "username" "alice" ++ ","
      ++ pair_text "authkey" "ak" ++ "," ++ pair_text "passkey" "pk" ++ "}}".

Definition bad_id_body : string :=
  "{" ++ pair_text "status" "failure" ++ ","
      ++ pair_text "error" "bad id parameter" ++ "}".

Definition artist_body : string :=
  "{" ++ pair_text "status" "success" ++ ","
      ++ quoted "response" ++ ":{" ++ quoted "id" ++ ":7,"
      ++ pair_text "name" "Someone" ++ ","
      ++ extendedArtists_false ++ "}}".

Definition artist_body_fixed : string :=
  "{" ++ pair_text "status" "success" ++ ","
      ++ quoted "response" ++ ":{" ++ quoted "id" ++ ":7,"
      ++ pair_text "name" "Someone" ++ ","
      ++ extendedArtists_object ++ "}}".

Definition has_form (k v : string) (req : Request) : bool :=
  existsb (fun kv => String.eqb (fst kv) k && String.eqb (snd kv) v) (Form req).

(** The tracker: the login form sets a session cookie and redirects to
    the index page; the account page needs the cookie and renews it;
    unknown ids are refused in the envelope. *)
Definition tracker (n : nat) (req : Request) (jar : list Cookie) : RoundTrip :=
  if String.eqb (Method req) "POST" then
    if has_form "username" "alice" req && has_form "password" "secret" req
    then ok "<html>" (site ++ "index.php") [session "s1"]
    else ok "<html>" (site ++ "login.php") []
  else if Contains (URL req) "logout.php" then ok "<html>" (URL req) []
  else if negb (has_session jar) then ok "<html>" (site ++ "login.php") []
  else if Contains (URL req) "action=index" then ok index_body (URL req) [session "s2"]
  else if Contains (URL req) "action=artist" then ok artist_body (URL req) []
  else if Contains (URL req) "action=inbox" then ok EmptyString (URL req) []
  else ok bad_id_body (URL req) [].

Definition unreachable (n : nat) (req : Request) (jar : list Cookie) : RoundTrip :=
  Failed "dial tcp: connection refused".

Definition sqlite (n : nat) : Verdict := Executes 1 None.

(** One millisecond per event, starting at a whole second. *)
Definition start : Z := 1700000000 * second.
Definition wallclock (n : nat) : Z := Z.of_nat n * 1000000 + start.

Definition world (srv : nat -> Request -> list Cookie -> RoundTrip)
    (cache : list CacheRow) (saved : list CookieRow) (jar : list Cookie) : World :=
  {| urlcache := cache; cookies := saved; Jar := jar; trace := [];
     server := srv; driver := sqlite; clock := wallclock |}.

Definition hour : Z := 3600 * second.

(** [NewClient] then [Cache]: an anonymous client, with or without a
    database. *)
Definition anonymous (d : option sql_DB) : ClientStruct :=
  {| baseURL := site; userAgent := "whatapi-test"; authkey := EmptyString;
     passkey := EmptyString; loggedIn := false; db := d; cacheFor := hour |}.

Definition alice (d : option sql_DB) : ClientStruct :=
  {| baseURL := site; userAgent := "whatapi-test"; authkey := "ak";
     passkey := "pk"; loggedIn := true; db := d; cacheFor := hour |}.

Definition artist_url : string := site ++ "ajax.php?action=artist&id=7".

(** Rows of the cache: one just written, one two hours old, one just
    written with nothing in it. *)
Definition fresh_row : CacheRow :=
  {| requesturl := artist_url; body := artist_body_fixed; timestamp := start |}.
Definition stale_row : CacheRow :=
  {| requesturl := artist_url; body := artist_body_fixed;
     timestamp := start - 2 * hour |}.
Definition empty_row : CacheRow :=
  {| requesturl := site ++ "ajax.php?action=inbox"; body := EmptyString;
     timestamp := start |}.
Definition inbox_url : string := site ++ "ajax.php?action=inbox".
Definition request_url : string := site ++ "ajax.php?action=request&id=0".

End Sample.

(** ** Vocabulary of the statements *)

(** Methods that leave the client value as it is. *)
Definition keeps_client {A : Type} (m : M A) : Prop :=
  forall s, fst (snd (m s)) = fst s.

(** The request [doRequest] sends for a URL. *)
Definition sent (w : ClientStruct) (u : string) : Request :=
  set_header "User-Agent" (userAgent w) (GET u).

(** The URL of the probe, and the client as the probe's dispatch sees
    it: no database, gate open. *)
Definition probe_url (X : Externals) (w : ClientStruct) : string * option error :=
  buildURL X (baseURL w) "ajax.php" "index" [].

Definition probing (w : ClientStruct) : ClientStruct :=
  set_db_loggedIn None true w.

(** The fragment after its opening quote. *)
Definition fragment_tail : string := Bytes.drop 1 extendedArtists_false.

(** [adds P m]: running [m] only appends events, and each satisfies
    [P]. *)
Definition adds {A : Type} (P : Event -> Prop) (m : M A) : Prop :=
  forall s, exists l,
    trace (snd (snd (m s))) = (trace (snd s) ++ l)%list /\ Forall P l.

(** No credentials leave: every request is a [GET] without form. *)
Definition no_post (e : Event) : Prop :=
  match e with
  | HTTP r => Method r = "GET"%string /\ Form r = []
  | _ => True
  end.

(** Nothing goes to the network. *)
Definition off_line (e : Event) : Prop := is_http e = false.

Definition key_is (u : string) (r : CacheRow) : bool :=
  String.eqb (requesturl r) u.

(** The rows stored under a key. *)
Definition rows_for (u : string) (t : list CacheRow) : list CacheRow :=
  filter (key_is u) t.

(** A write that the driver carries out, whatever it reports. *)
Definition written (u data : string) (env : World) : World :=
  with_urlcache
    (replace_cache_row {| requesturl := u; body := data;
                          timestamp := datetime_now env |} (urlcache env))
    (record (SQLExec stmt_replace_urlcache [u; data]) env).

(** The world after the cookie record has been written. *)
Definition saved (w : ClientStruct) (c : string) (env : World) : World :=
  with_cookies
    (replace_cookie_row {| url := baseURL w; cookie := c |} (cookies env))
    (record (SQLExec stmt_replace_cookies [baseURL w; c]) env).

(** The world after the cookie record has been read and decoded. *)
Definition loaded (w : ClientStruct) (c : string) (cs : list Cookie)
    (env : World) : World :=
  with_Jar (SetCookies (Jar env) cs)
    (record (Unmarshal TCookies c)
       (record (SQLQuery stmt_select_cookie [baseURL w]) env)).

(** ** More of [whatapi.go] *)

(** [url.Values.Set] on a map that is not nil; the list stands for the
    map, one entry per key. *)
Fixpoint Values_Set (v : Values) (key value : string) : Values :=
  match v with
  | [] => [(key, [value])]
  | (k, vs) :: rest =>
      if String.eqb k key then (key, [value]) :: rest
      else (k, vs) :: Values_Set rest key value
  end.

(** [strconv.Itoa] *)
Definition Itoa (i : Z) : string := decimal i.

(** [func (w ClientStruct) CreateDownloadURL] *)
Definition CreateDownloadURL (X : Externals) (w : ClientStruct) (id : Z)
  : string * option error :=
  if negb (loggedIn w) then (EmptyString, Some errRequestFailedLogin)
  else
    let params : Values := [] in
    let params := Values_Set params "action" "download" in
    let params := Values_Set params "id" (Itoa id) in
    let params := Values_Set params "authkey" (authkey w) in
    let params := Values_Set params "torrent_pass" (passkey w) in
    let '(downloadURL, err) :=
      buildURL X (baseURL w) "torrents.php" EmptyString params in
    match err with
    | Some e => (EmptyString, Some e)
    | None => (downloadURL, None)
    end.

(** [func (w ClientStruct) Do]: the receiver is a value, so [GetJSON]
    runs on a copy of the client and the caller's client stays as it
    is. *)
Definition Do (X : Externals) (action : string) (params : Values)
    (shape : Shape) (result : Payload X) : M (Payload X * option error) :=
  fun s =>
    let w := fst s in
    let '(requestURL, err) := buildURL X (baseURL w) "ajax.php" action params in
    match err with
    | Some e => ((result, Some e), s)
    | None =>
        let '(r, (_, env)) := GetJSON X requestURL shape result (w, snd s) in
        (r, (fst s, env))
    end.




(** [func oneOrTwoMusicInfos], on the [Name]s of the entries. *)
Definition oneOrTwoMusicInfos (mi : list string) : string :=
  match mi with
  | [a] => a
  | [a; b] => a ++ " & " ++ b
  | _ => EmptyString
  end.

(** The [MusicInfo] of a [GroupStruct], by the names of its entries. *)
Record MusicInfo : Type := {
  Composers : list string;
  Artists : list string;
  Conductor : list string
}.

(** A [Group] as [GroupString] sees it: what its methods return, the
    values of [Tags()] in the order the [range] visits them, and the
    [MusicInfo] when the dynamic type is [GroupStruct]. *)
Record Group : Type := {
  group_Name : string;
  group_Artist : string;
  group_Year : Z;
  group_Tags : list string;
  group_MusicInfo : option MusicInfo
}.

Fixpoint spaces (n : nat) : string :=
  match n with
  | O => EmptyString
  | S k => String " " (spaces k)
  end.

(** [%4d]: the decimal form, padded on the left to four bytes. *)
Definition Sprintf_4d (z : Z) : string :=
  let d := decimal z in spaces (4 - String.length d) ++ d.

Definition plain_string (g : Group) : string :=
  group_Artist g ++ " - " ++ group_Name g ++ " (" ++ Sprintf_4d (group_Year g) ++ ")".

(** [s = append(s, more...)], done only when [i] is not empty. *)
Definition append_unless_empty (s : list string) (i : string)
    (more : list string) : list string :=
  if Bytes.is_empty i then s else (s ++ more)%list.

Definition classical_string (g : Group) (mi : MusicInfo) : string :=
  let s : list string := [] in
  let i := oneOrTwoMusicInfos (Composers mi) in
  let s := append_unless_empty s i [i; "-"] in
  let s := (s ++ [group_Name g; "-"])%list in
  let i := oneOrTwoMusicInfos (Artists mi) in
  let s := append_unless_empty s i [i] in
  let i := oneOrTwoMusicInfos (Conductor mi) in
  let s := append_unless_empty s i [i] in
  let s := (s ++ [String.append "(" (String.append (Sprintf_4d (group_Year g)) ")")])%list in
  String.concat " " s.

(** The loop of [GroupString] over the tags still to be visited. *)
Fixpoint GroupString_loop (g : Group) (tags : list string) : string :=
  match tags with
  | [] => plain_string g
  | t :: rest =>
      if negb (String.eqb t "classical") then GroupString_loop g rest
      else
        match group_MusicInfo g with
        | None => plain_string g
        | Some mi => classical_string g mi
        end
  end.

(** [func GroupString] *)
Definition GroupString (g : Group) : string :=
  GroupString_loop g (group_Tags g).

Definition with_Tags (tags : list string) (g : Group) : Group :=
  {| group_Name := group_Name g; group_Artist := group_Artist g;
     group_Year := group_Year g; group_Tags := tags;
     group_MusicInfo := group_MusicInfo g |}.

(** ** Vocabulary of the frame statements *)

(** The store and the surroundings are as they were: the jar and the
    trace may differ, but no statement was run. *)
Definition off_store (env env' : World) : Prop :=
  urlcache env' = urlcache env /\ cookies env' = cookies env /\
  sql_count env' = sql_count env /\
  server env' = server env /\ driver env' = driver env /\
  clock env' = clock env.

(** Moreover the jar is as it was and nothing was sent. *)
Definition quiet (env env' : World) : Prop :=
  off_store env env' /\ Jar env' = Jar env /\
  http_count env' = http_count env.

(** [steps R m]: the worlds before and after [m] are related by [R]. *)
Definition steps {A : Type} (R : World -> World -> Prop) (m : M A) : Prop :=
  forall s, R (snd s) (snd (snd (m s))).

Definition is_exec (e : Event) : bool :=
  match e with SQLExec _ _ => true | _ => false end.

Definition cache_key (u : string) (r : CacheRow) : bool :=
  String.eqb (requesturl r) u.

(** ** More concrete settings *)

Module Scenario.

Definition with_driver (d : nat -> Verdict) (env : World) : World :=
  {| urlcache := urlcache env; cookies := cookies env; Jar := Jar env;
     trace := trace env;
     server := server env; driver := d; clock := clock env |}.

(** A store that fails every statement. *)
Definition broken (n : nat) : Verdict := Fails "database is locked".

(** A store that answers the first statement and fails the later ones. *)
Definition disk_full (n : nat) : Verdict :=
  match n with
  | O => Executes 1 None
  | S _ => Fails "database or disk is full"
  end.

(** A driver that counts the deleted row of a [REPLACE] as well. *)
Definition counts_two (n : nat) : Verdict := Executes 2 None.

(** A tracker whose account page is out of order: the form is accepted
    but the probe gets a page that is no JSON. *)
Definition half_up (n : nat) (req : Request) (jar : list Cookie) : RoundTrip :=
  if String.eqb (Method req) "POST"
  then Sample.ok "<html>" (Sample.site ++ "index.php") [Sample.session "s1"]
  else Sample.ok "<html>maintenance" (URL req) [].

(** An artist page with the malformed field, written with a space
    after the colon. *)
Definition spaced_artist_body : string :=
  "{" ++ Sample.pair_text "status" "success" ++ ","
      ++ Bytes.quoted "response" ++ ":{"
      ++ Bytes.quoted "extendedArtists" ++ ": false}}".

Definition spaced_row : CacheRow :=
  {| requesturl := Sample.artist_url; body := spaced_artist_body;
     timestamp := Sample.start |}.

Definition classical_group : Group :=
  {| group_Name := "Symphony No. 5"; group_Artist := "Various Artists";
     group_Year := 1990; group_Tags := ["orchestral"; "classical"; "1990s"];
     group_MusicInfo :=
       Some {| Composers := ["Beethoven"]; Artists := ["A"; "B"];
               Conductor := ["C"] |} |}.

End Scenario.

(** * Properties *)

(** ** Running the methods *)

Arguments doRequest : simpl never.
Arguments updateCache : simpl never.
Arguments cachedResponse : simpl never.
Arguments GetJSON_body : simpl never.
Arguments GetJSON_quirks : simpl never.
Arguments GetJSON_decode : simpl never.
Arguments GetJSON : simpl never.
Arguments saveCookies : simpl never.
Arguments getCookies : simpl never.
Arguments clearCookies : simpl never.
Arguments GetAccount : simpl never.
Arguments Login_credentials : simpl never.
Arguments Login : simpl never.
Arguments client_Get : simpl never.
Arguments Logout : simpl never.
Arguments client_Do : simpl never.
Arguments Exec_replace_urlcache : simpl never.
Arguments Exec_replace_cookies : simpl never.
Arguments QueryRow_urlcache : simpl never.
Arguments QueryRow_cookie : simpl never.
Arguments String.append : simpl never.
Arguments time_Since : simpl never.
Arguments decimal : simpl never.

Ltac unfold_go :=
  unfold bind, ret, this, assign, perform, emit, or_return, leave in *;
  cbn [fst snd] in *.

Lemma keeps_ret {A : Type} (a : A) : keeps_client (ret a).
Proof. intros s. reflexivity. Qed.

Lemma keeps_bind {A B : Type} (m : M A) (k : A -> M B) :
  keeps_client m -> (forall a, keeps_client (k a)) -> keeps_client (bind m k).
Proof.
  intros Hm Hk s. unfold bind.
  specialize (Hm s). destruct (m s) as [a s1]. cbn [fst snd] in Hm.
  rewrite Hk. exact Hm.
Qed.

Lemma keeps_this : keeps_client this.
Proof. intros s. reflexivity. Qed.

Lemma keeps_perform {A : Type} (f : World -> A * World) :
  keeps_client (perform f).
Proof. intros [w env]. unfold perform. cbn. destruct (f env). reflexivity. Qed.

Lemma keeps_emit (e : Event) : keeps_client (emit e).
Proof. apply keeps_perform. Qed.

Lemma keeps_or_return {A : Type} (err : option error) (r : error -> M A)
    (k : M A) :
  (forall e, keeps_client (r e)) -> keeps_client k ->
  keeps_client (or_return err r k).
Proof. intros Hr Hk. destruct err; cbn; auto. Qed.

Lemma keeps_leave (e : error) : keeps_client (leave e).
Proof. apply keeps_ret. Qed.

Create HintDb keeps discriminated.
#[local] Hint Resolve keeps_ret keeps_this keeps_perform keeps_emit
  keeps_leave : keeps.

Ltac keeps_tac :=
  repeat first
    [ progress intros
    | solve [ auto with keeps ]
    | apply keeps_bind
    | apply keeps_or_return
    | match goal with
      | |- keeps_client (let '(_, _) := ?p in _) => destruct p
      | |- keeps_client (if ?b then _ else _) => destruct b
      | |- keeps_client (match ?x with _ => _ end) => destruct x
      end ].

Section Frames.

Context (X : Externals).

Lemma keeps_doRequest req : keeps_client (doRequest req).
Proof. unfold doRequest. keeps_tac. Qed.

Lemma keeps_updateCache u data : keeps_client (updateCache u data).
Proof. unfold updateCache. keeps_tac. Qed.

Lemma keeps_cachedResponse u : keeps_client (cachedResponse u).
Proof. unfold cachedResponse. keeps_tac. Qed.

#[local] Hint Resolve keeps_doRequest keeps_updateCache keeps_cachedResponse
  : keeps.

Lemma keeps_GetJSON_body u : keeps_client (GetJSON_body X u).
Proof. unfold GetJSON_body. keeps_tac. Qed.

Lemma keeps_GetJSON_quirks data shape obj :
  keeps_client (GetJSON_quirks X data shape obj).
Proof. unfold GetJSON_quirks. keeps_tac. Qed.

#[local] Hint Resolve keeps_GetJSON_body keeps_GetJSON_quirks : keeps.

Lemma keeps_GetJSON_decode data shape obj :
  keeps_client (GetJSON_decode X data shape obj).
Proof. unfold GetJSON_decode. keeps_tac. Qed.

#[local] Hint Resolve keeps_GetJSON_decode : keeps.

Lemma keeps_GetJSON u shape obj : keeps_client (GetJSON X u shape obj).
Proof. unfold GetJSON. keeps_tac. Qed.

Lemma keeps_saveCookies : keeps_client (saveCookies X).
Proof. unfold saveCookies. keeps_tac. Qed.

#[local] Hint Resolve keeps_saveCookies : keeps.

Lemma keeps_getCookies : keeps_client (getCookies X).
Proof. unfold getCookies. keeps_tac. Qed.

Lemma keeps_clearCookies : keeps_client (clearCookies X).
Proof. unfold clearCookies. keeps_tac. Qed.

Lemma keeps_client_Get u : keeps_client (client_Get X u).
Proof. unfold client_Get. keeps_tac. Qed.

End Frames.

(** ** The trace *)

Open Scope list_scope.

Lemma trace_record e env : trace (record e env) = trace env ++ [e].
Proof. reflexivity. Qed.

Lemma http_count_record e env :
  http_count (record e env) =
  (http_count env + if is_http e then 1 else 0)%nat.
Proof.
  unfold http_count. rewrite trace_record, filter_app, length_app.
  cbn [filter]. destruct (is_http e); reflexivity.
Qed.

Lemma sql_count_record e env :
  sql_count (record e env) =
  (sql_count env + if is_sql e then 1 else 0)%nat.
Proof.
  unfold sql_count. rewrite trace_record, filter_app, length_app.
  cbn [filter]. destruct (is_sql e); reflexivity.
Qed.

(** What [client.Do] leaves behind: one more event, and nothing else
    but the jar changed. *)
Lemma client_Do_trace req env :
  trace (snd (client_Do req env)) = trace env ++ [HTTP req].
Proof.
  unfold client_Do. destruct (server env (http_count env) req (Jar env));
    reflexivity.
Qed.

(** ** The dispatcher without a database *)

Section Dispatch.

Context (X : Externals).

Lemma doRequest_trace req w env :
  trace (snd (snd (doRequest req (w, env)))) =
  trace env ++ [HTTP (set_header "User-Agent" (userAgent w) req)].
Proof.
  unfold doRequest. unfold_go.
  pose proof (client_Do_trace (set_header "User-Agent" (userAgent w) req) env) as H.
  destruct (client_Do (set_header "User-Agent" (userAgent w) req) env) as [out env1].
  cbn [snd] in H.
  destruct out as [m | resp]; cbn; auto.
  destruct (negb (StatusCode resp =? 200)%Z); cbn; auto.
  destruct (ReadAll resp) as [data [e | ]]; cbn; auto.
Qed.

Lemma doRequest_client req w env :
  fst (snd (doRequest req (w, env))) = w.
Proof. apply (keeps_doRequest req (w, env)). Qed.

(** With no database the body always comes from the network. *)
Lemma GetJSON_body_uncached u w env :
  db w = None ->
  GetJSON_body X u (w, env) =
  match http_NewRequest X "GET" u with
  | Some e => ((EmptyString, Some e), (w, env))
  | None =>
      match doRequest (GET u) (w, env) with
      | ((data, Some e), s1) => ((EmptyString, Some e), s1)
      | ((data, None), s1) => ((data, None), s1)
      end
  end.
Proof.
  intros Hdb. unfold GetJSON_body, cachedResponse. unfold_go.
  rewrite Hdb. cbn. rewrite Hdb. cbn.
  destruct (http_NewRequest X "GET" u); cbn; [reflexivity | ].
  destruct (doRequest (GET u) (w, env)) as [[data err] [w1 env1]] eqn:E.
  pose proof (doRequest_client (GET u) w env) as Hw. rewrite E in Hw.
  cbn in Hw. subst w1.
  destruct err; cbn; [reflexivity | ].
  unfold updateCache. unfold_go. rewrite Hdb. reflexivity.
Qed.

(** Whatever happens, a dispatch that passes the gate and can build its
    request, on a client without a database, begins by sending it. *)
Lemma GetJSON_uncached_sends u shape obj w env :
  db w = None -> loggedIn w = true ->
  http_NewRequest X "GET" u = None ->
  exists rest,
    trace (snd (snd (GetJSON X u shape obj (w, env)))) =
    trace env ++ HTTP (sent w u) :: rest.
Proof.
  intros Hdb Hin Hreq. unfold GetJSON. unfold_go. rewrite Hin. cbn.
  rewrite (GetJSON_body_uncached u w env Hdb), Hreq.
  pose proof (doRequest_trace (GET u) w env) as Ht.
  destruct (doRequest (GET u) (w, env)) as [[data err] [w1 env1]].
  cbn [fst snd] in Ht.
  destruct err; cbn.
  - exists []. exact Ht.
  - unfold GetJSON_decode, GetJSON_quirks. unfold_go.
    destruct (Envelope.Unmarshal data) as [st [e | ]]; cbn.
    { eexists. rewrite Ht, <- app_assoc. reflexivity. }
    destruct (checkResponseStatus (Status st) (Error st)); cbn.
    { eexists. rewrite Ht, <- app_assoc. reflexivity. }
    destruct shape; cbn;
      repeat match goal with
      | |- context [json_Unmarshal X ?a ?b ?c] =>
          destruct (json_Unmarshal X a b c) as [? [? | ]]; cbn
      end;
      eexists; rewrite ?trace_record; cbn; rewrite Ht, <- ?app_assoc; reflexivity.
Qed.

End Dispatch.

(** ** The account probe *)

Section Probe.

Context (X : Externals).

Lemma set_db_loggedIn_restore w d l :
  set_db_loggedIn (db w) (loggedIn w) (set_db_loggedIn d l w) = w.
Proof. destruct w; reflexivity. Qed.

(** [GetAccount] in one piece: the dispatch runs on [probing w], and
    the client that comes back is [w], with new keys on success. *)
Lemma GetAccount_run w env :
  GetAccount X (w, env) =
  match probe_url X w with
  | (_, Some e) => (Some e, (w, env))
  | (u, None) =>
      match GetJSON X u AccountResponse (zero_value X AccountResponse)
              (probing w, env) with
      | ((_, Some e), (_, env1)) => (Some e, (w, env1))
      | ((ro, None), (_, env1)) =>
          let a := account_fields X ro in
          match checkResponseStatus (acc_Status a) (acc_Error a) with
          | Some e => (Some e, (w, env1))
          | None => (None, (set_keys (acc_AuthKey a) (acc_PassKey a) w, env1))
          end
      end
  end.
Proof.
  unfold GetAccount, probe_url, probing. unfold_go.
  destruct (buildURL X (baseURL w) "ajax.php" "index" []) as [u [e | ]];
    cbn; [reflexivity | ].
  pose proof (keeps_GetJSON X u AccountResponse (zero_value X AccountResponse)
                (set_db_loggedIn None true w, env)) as Hk.
  destruct (GetJSON X u AccountResponse (zero_value X AccountResponse)
              (set_db_loggedIn None true w, env)) as [[ro err] [w1 env1]].
  cbn in Hk. subst w1. cbn.
  rewrite set_db_loggedIn_restore.
  destruct err; cbn; [reflexivity | ].
  destruct (checkResponseStatus _ _); reflexivity.
Qed.

End Probe.

(** ** Session operations *)

(** C9. Whatever [GetAccount] returns, the client's [db] handle and
    [loggedIn] flag are what they were before the call; on an error the
    whole client value, [authkey] and [passkey] included, is unchanged;
    on success only [authkey] and [passkey] change, to the keys of the
    account the probe decoded. *)
Theorem GetAccount_restores_db_and_gate :
  forall (X : Externals) w env err w' env',
    GetAccount X (w, env) = (err, (w', env')) ->
    db w' = db w /\ loggedIn w' = loggedIn w /\
    (err <> None -> w' = w) /\
    (err = None ->
     exists u ro w1,
       probe_url X w = (u, None) /\
       GetJSON X u AccountResponse (zero_value X AccountResponse)
         (probing w, env) = ((ro, None), (w1, env')) /\
       w' = set_keys (acc_AuthKey (account_fields X ro))
                     (acc_PassKey (account_fields X ro)) w).
Proof.
  intros X w env err w' env' H. rewrite GetAccount_run in H.
  destruct (probe_url X w) as [u [e | ]].
  { inversion H; subst. repeat split; auto. discriminate. }
  destruct (GetJSON X u AccountResponse (zero_value X AccountResponse)
              (probing w, env)) as [[ro [e | ]] [w1 env1]] eqn:E.
  { inversion H; subst. repeat split; auto. discriminate. }
  cbv zeta in H.
  destruct (checkResponseStatus _ _).
  { inversion H; subst. repeat split; auto. discriminate. }
  inversion H; subst. repeat split; auto.
  - intros C. contradiction.
  - intros _. exists u, ro, w1. repeat split; auto.
Qed.

Lemma GetAccount_restores_db_and_gate_witness :
  let s := (Sample.anonymous (Some Database),
            Sample.world Sample.tracker [] [] [Sample.session "s1"]) in
  let r := GetAccount Sample.X s in
  GetAccount Sample.X s = (fst r, (fst (snd r), snd (snd r))) /\
  db (fst (snd r)) = Some Database /\ loggedIn (fst (snd r)) = false.
Proof.
  intros s r. split; [reflexivity | ].
  destruct (GetAccount_restores_db_and_gate Sample.X (fst s) (snd s)
              (fst r) (fst (snd r)) (snd (snd r)) eq_refl) as (Hd & Hl & _).
  split; [exact Hd | exact Hl].
Defined.

(** C4. A dispatch on a client that is not logged in returns
    [errRequestFailedLogin] and leaves the world as it was: no request
    is sent, no table is read or written, nothing is decoded.  The
    account probe is exempt: called on such a client, [GetAccount]
    sends its request as soon as its URL and request can be built. *)
Theorem GetJSON_requires_login :
  forall (X : Externals) requestURL shape responseObj w env,
    loggedIn w = false ->
    GetJSON X requestURL shape responseObj (w, env) =
      ((responseObj, Some errRequestFailedLogin), (w, env))
    /\
    (forall u,
       probe_url X w = (u, None) ->
       http_NewRequest X "GET" u = None ->
       exists rest,
         trace (snd (snd (GetAccount X (w, env)))) =
         trace env ++ HTTP (sent w u) :: rest).
Proof.
  intros X requestURL shape responseObj w env Hout. split.
  - unfold GetJSON. unfold_go. rewrite Hout. reflexivity.
  - intros u Hu Hreq. rewrite GetAccount_run, Hu.
    destruct (GetJSON_uncached_sends X u AccountResponse
                (zero_value X AccountResponse) (probing w) env)
      as [rest Hrest]; try reflexivity; try assumption.
    destruct (GetJSON X u AccountResponse (zero_value X AccountResponse)
                (probing w, env)) as [[ro [e | ]] [w1 env1]];
      cbn [fst snd] in Hrest.
    + exists rest. exact Hrest.
    + cbv zeta. destruct (checkResponseStatus _ _); exists rest; exact Hrest.
Qed.

Lemma GetJSON_requires_login_witness :
  let w := Sample.anonymous (Some Database) in
  let env := Sample.world Sample.tracker [] [] [Sample.session "s1"] in
  let u := String.append Sample.site "ajax.php?action=index" in
  loggedIn w = false /\
  GetJSON Sample.X Sample.artist_url ArtistResponse JSON.JNull (w, env) =
    ((JSON.JNull, Some errRequestFailedLogin), (w, env)) /\
  exists rest,
    trace (snd (snd (GetAccount Sample.X (w, env)))) =
    trace env ++ HTTP (sent w u) :: rest.
Proof.
  intros w env u. split; [reflexivity | ].
  destruct (GetJSON_requires_login Sample.X Sample.artist_url
              ArtistResponse JSON.JNull w env eq_refl) as [Hgate Hprobe].
  split; [exact Hgate | ].
  exact (Hprobe u eq_refl eq_refl).
Defined.

(** [Logout] in one piece. *)
Lemma Logout_run (X : Externals) w env :
  Logout X (w, env) =
  match buildURL X (baseURL w) "logout.php" EmptyString [("auth", [authkey w])] with
  | (_, Some e) => (Some e, (w, env))
  | (u, None) =>
      match http_NewRequest X "GET" u with
      | Some e => (Some e, (w, env))
      | None =>
          match client_Do (GET u) env with
          | (Failed m, env1) => (Some (TransportError m), (w, env1))
          | (Answered _, env1) => (None, (set_session false EmptyString EmptyString w, env1))
          end
      end
  end.
Proof.
  unfold Logout, client_Get. unfold_go.
  destruct (buildURL X (baseURL w) "logout.php" EmptyString [("auth", [authkey w])])
    as [u [e | ]]; cbn; [reflexivity | ].
  destruct (http_NewRequest X "GET" u); cbn; [reflexivity | ].
  destruct (client_Do (GET u) env) as [[m | resp] env1]; reflexivity.
Qed.

(** C1, as the code has it. [Logout] clears the session exactly when it
    returns nil.
    - If the logout URL cannot be built, [Logout] returns the error of
      [buildURL]; if the request cannot be built, the error of
      [http.NewRequest]; in both cases nothing is sent.
    - If the request is sent and the transport fails, [Logout] returns
      the transport error.
    - If the server gives any answer, whatever its status, [Logout]
      returns nil.
    When it returns nil, [loggedIn] is false and [authkey] and
    [passkey] are empty; when it returns an error, the client value is
    unchanged. *)
Theorem Logout_invalidates_when_answered :
  forall (X : Externals) w env err w' env',
    Logout X (w, env) = (err, (w', env')) ->
    let built :=
      buildURL X (baseURL w) "logout.php" EmptyString [("auth", [authkey w])] in
    (err = None ->
     loggedIn w' = false /\ authkey w' = EmptyString /\ passkey w' = EmptyString)
    /\ (err <> None -> w' = w)
    /\ (forall u e,
          built = (u, Some e) -> err = Some e /\ w' = w /\ env' = env)
    /\ (forall u e,
          built = (u, None) ->
          http_NewRequest X "GET" u = Some e ->
          err = Some e /\ w' = w /\ env' = env)
    /\ (forall u m,
          built = (u, None) ->
          http_NewRequest X "GET" u = None ->
          server env (http_count env) (GET u) (Jar env) = Failed m ->
          err = Some (TransportError m) /\ w' = w /\
          env' = record (HTTP (GET u)) env)
    /\ (forall u resp,
          built = (u, None) ->
          http_NewRequest X "GET" u = None ->
          server env (http_count env) (GET u) (Jar env) = Answered resp ->
          err = None /\ w' = set_session false EmptyString EmptyString w /\
          trace env' = trace env ++ [HTTP (GET u)]).
Proof.
  intros X w env err w' env' H built. subst built.
  rewrite Logout_run in H.
  destruct (buildURL X (baseURL w) "logout.php" EmptyString
              [("auth", [authkey w])]) as [u [e | ]] eqn:Hb.
  { injection H as <- <- <-.
    repeat split; try discriminate; auto; intros; congruence. }
  destruct (http_NewRequest X "GET" u) eqn:Hreq.
  { injection H as <- <- <-.
    repeat split; try discriminate; auto; intros; congruence. }
  pose proof (client_Do_trace (GET u) env) as Ht.
  unfold client_Do in H, Ht.
  destruct (server env (http_count env) (GET u) (Jar env)) eqn:Hs;
    cbn [snd] in Ht.
  - injection H as <- <- <-.
    repeat split; try discriminate; auto; intros;
      match goal with
      | K : (_, None) = (_, None) |- _ => injection K as <-
      end; congruence.
  - injection H as <- <- <-.
    split; [intros _; repeat split | ].
    split; [intros C; contradiction | ].
    split; [intros u' e' K; discriminate K | ].
    split; [intros u' e' K; injection K as <-; congruence | ].
    split; [intros u' m K; injection K as <-; congruence | ].
    intros u' resp' K _ _. injection K as <-.
    repeat split; exact Ht.
Qed.

Lemma Logout_invalidates_when_answered_witness :
  let s := (Sample.alice None,
            Sample.world Sample.tracker [] [] [Sample.session "s1"]) in
  let r := Logout Sample.X s in
  Logout Sample.X s = (fst r, (fst (snd r), snd (snd r))) /\
  fst r = None /\
  loggedIn (fst (snd r)) = false /\
  authkey (fst (snd r)) = EmptyString /\ passkey (fst (snd r)) = EmptyString.
Proof.
  intros s r.
  assert (H : Logout Sample.X s = (fst r, (fst (snd r), snd (snd r))))
    by (lazy; reflexivity).
  split; [exact H | ]. split; [lazy; reflexivity | ].
  destruct (Logout_invalidates_when_answered Sample.X (fst s) (snd s)
              (fst r) (fst (snd r)) (snd (snd r)) H) as [Hclear _].
  apply Hclear. lazy. reflexivity.
Defined.

(** C1, as the claim has it, fails: with the server unreachable,
    [Logout] returns the transport error and the session is still
    logged in, with its keys. *)
Lemma Logout_transport_failure_keeps_session :
  let s := (Sample.alice None,
            Sample.world Sample.unreachable [] [] [Sample.session "s1"]) in
  let r := Logout Sample.X s in
  fst r = Some (TransportError "dial tcp: connection refused") /\
  loggedIn (fst (snd r)) = true /\
  authkey (fst (snd r)) = "ak"%string /\ passkey (fst (snd r)) = "pk"%string.
Proof. vm_compute. repeat split. Qed.

(** ** Decoding *)

Section Decoding.

Context (X : Externals).

(** Past the gate, [GetJSON] is its two blocks in sequence. *)
Lemma GetJSON_run u shape obj w env :
  loggedIn w = true ->
  GetJSON X u shape obj (w, env) =
  match GetJSON_body X u (w, env) with
  | ((_, Some e), s1) => ((obj, Some e), s1)
  | ((data, None), s1) => GetJSON_decode X data shape obj s1
  end.
Proof.
  intros Hin. unfold GetJSON. unfold_go. rewrite Hin. cbn.
  destruct (GetJSON_body X u (w, env)) as [[data [e | ]] s1]; reflexivity.
Qed.

(** A failing envelope ends the decode before [responseObj] is touched. *)
Lemma GetJSON_decode_refused data shape obj w env st e :
  Envelope.Unmarshal data = (st, None) ->
  checkResponseStatus (Status st) (Error st) = Some e ->
  GetJSON_decode X data shape obj (w, env) =
  ((obj, Some e), (w, record (Unmarshal TGenericResponse data) env)).
Proof.
  intros Hst Hc. unfold GetJSON_decode. unfold_go.
  rewrite Hst. cbn. rewrite Hc. reflexivity.
Qed.

(** The decode of a body whose envelope passes. *)
Lemma GetJSON_decode_accepted data shape obj w env st :
  Envelope.Unmarshal data = (st, None) ->
  checkResponseStatus (Status st) (Error st) = None ->
  GetJSON_decode X data shape obj (w, env) =
  match GetJSON_quirks X data shape obj
          (w, record (Unmarshal TGenericResponse data) env) with
  | ((ro, data'), (w1, env1)) =>
      (json_Unmarshal X shape data' ro,
       (w1, record (Unmarshal (TResponse shape) data') env1))
  end.
Proof.
  intros Hst Hc. unfold GetJSON_decode. unfold_go.
  rewrite Hst. cbn. rewrite Hc. cbn.
  destruct (GetJSON_quirks X data shape obj
              (w, record (Unmarshal TGenericResponse data) env))
    as [[ro data'] [w1 env1]].
  reflexivity.
Qed.

End Decoding.

(** C3. Once [GetJSON] has its body, from the cache or from the
    network, and the body's envelope has status [failure], the result
    is [APIError] with the envelope's message; [responseObj] comes back
    as it went in and the only decode performed is that of the
    envelope.  This holds for every target shape and every decoder of
    it.  The body [{"status":"failure","error":"bad id parameter"}]
    is such a body, with message [bad id parameter]. *)
Theorem GetJSON_failure_envelope :
  forall (X : Externals) u shape obj w env data w1 env1,
    loggedIn w = true ->
    GetJSON_body X u (w, env) = ((data, None), (w1, env1)) ->
    (forall st,
       Envelope.Unmarshal data = (st, None) ->
       Status st = "failure"%string ->
       GetJSON X u shape obj (w, env) =
       ((obj, Some (APIError (Error st))),
        (w1, record (Unmarshal TGenericResponse data) env1)))
    /\
    (data = Sample.bad_id_body ->
     GetJSON X u shape obj (w, env) =
     ((obj, Some (APIError "bad id parameter")),
      (w1, record (Unmarshal TGenericResponse data) env1))).
Proof.
  intros X u shape obj w env data w1 env1 Hin Hbody.
  assert (G : forall st,
             Envelope.Unmarshal data = (st, None) ->
             Status st = "failure"%string ->
             GetJSON X u shape obj (w, env) =
             ((obj, Some (APIError (Error st))),
              (w1, record (Unmarshal TGenericResponse data) env1))).
  { intros st Hst Hfail.
    rewrite (GetJSON_run X u shape obj w env Hin), Hbody.
    apply GetJSON_decode_refused with (st := st); [exact Hst | ].
    unfold checkResponseStatus. rewrite Hfail. reflexivity. }
  split; [exact G | ].
  intros ->.
  apply (G {| Status := "failure"; Error := "bad id parameter" |});
    reflexivity.
Qed.

Lemma GetJSON_failure_envelope_witness :
  let w := Sample.alice None in
  let env := Sample.world Sample.tracker [] [] [Sample.session "s1"] in
  let r := GetJSON_body Sample.X Sample.request_url (w, env) in
  loggedIn w = true /\
  r = ((Sample.bad_id_body, None), snd r) /\
  GetJSON Sample.X Sample.request_url (OtherResponse "RequestResponse")
    JSON.JNull (w, env) =
  ((JSON.JNull, Some (APIError "bad id parameter")),
   (fst (snd r),
    record (Unmarshal TGenericResponse Sample.bad_id_body) (snd (snd r)))).
Proof.
  intros w env r. split; [reflexivity | ]. split; [reflexivity | ].
  exact (proj2 (GetJSON_failure_envelope Sample.X Sample.request_url
                  (OtherResponse "RequestResponse") JSON.JNull w env
                  Sample.bad_id_body (fst (snd r)) (snd (snd r))
                  eq_refl eq_refl) eq_refl).
Defined.

(** ** The rewriting of the body *)

Section Rewriting.

Import Bytes.

Lemma rewritten_block_clean T :
  Contains T extendedArtists_false = false ->
  Contains (String.append extendedArtists_object T) extendedArtists_false = false.
Proof. intros H. vm_compute in H |- *. exact H. Qed.

Lemma drop_step j s a p : drop j s = String a p -> drop (S j) s = p.
Proof.
  revert s. induction j as [| j IH]; intros s H.
  - cbn in H. subst s. reflexivity.
  - destruct s as [| c t]; [discriminate H | ]. cbn in H |- *.
    apply IH in H. destruct t; exact H.
Qed.

(** Where the rewritten text continues the fragment, so did the
    original: a replacement block never does. *)
Lemma prefix_through_rewrite t : forall j,
  String.prefix (drop j fragment_tail)
    (replace_from extendedArtists_false extendedArtists_object t 0) = true ->
  String.prefix (drop j fragment_tail) t = true.
Proof.
  induction t as [| c t IH]; intros j H.
  - exact H.
  - cbn [replace_from] in H.
    destruct (String.prefix extendedArtists_false (String c t)) eqn:P.
    + do 22 (destruct j as [| j]; [vm_compute in H; discriminate H | ]).
      replace (drop _ fragment_tail) with EmptyString
        by (destruct j; reflexivity).
      reflexivity.
    + destruct (drop j fragment_tail) as [| a p] eqn:E; [reflexivity | ].
      cbn [String.prefix] in H |- *.
      destruct (ascii_dec a c); [ | discriminate H].
      apply drop_step in E. rewrite <- E in H |- *. apply IH. exact H.
Qed.

Lemma Contains_cons c s sub :
  Contains (String c s) sub = String.prefix sub (String c s) || Contains s sub.
Proof. reflexivity. Qed.

Lemma replace_leaves_none s : forall k,
  Contains (replace_from extendedArtists_false extendedArtists_object s k)
    extendedArtists_false = false.
Proof.
  induction s as [| c t IH]; intros k.
  - reflexivity.
  - destruct k as [| k]; cbn [replace_from]; [ | apply IH].
    destruct (String.prefix extendedArtists_false (String c t)) eqn:P.
    + apply rewritten_block_clean, IH.
    + rewrite Contains_cons, IH, orb_false_r.
      destruct (String.prefix extendedArtists_false
                  (String c (replace_from extendedArtists_false
                               extendedArtists_object t 0))) eqn:Q;
        [ | reflexivity].
      change extendedArtists_false with (String "034" fragment_tail) in P, Q.
      cbn [String.prefix] in P, Q.
      destruct (ascii_dec "034" c); [ | discriminate Q].
      apply (prefix_through_rewrite t 0) in Q. cbn [drop] in Q.
      congruence.
Qed.

(** After the rewriting no occurrence of the fragment is left. *)
Lemma ReplaceAll_extendedArtists_clean data :
  Contains (ReplaceAll data extendedArtists_false extendedArtists_object)
    extendedArtists_false = false.
Proof. apply replace_leaves_none. Qed.

End Rewriting.

Section Quirks.

Context (X : Externals).

Lemma GetJSON_quirks_artist data obj w env :
  GetJSON_quirks X data ArtistResponse obj (w, env) =
  let '(ro, err) := json_Unmarshal X ArtistResponse data obj in
  ((ro, match err with
        | Some _ => Bytes.ReplaceAll data extendedArtists_false
                      extendedArtists_object
        | None => data
        end),
   (w, record (Unmarshal (TResponse ArtistResponse) data) env)).
Proof.
  unfold GetJSON_quirks. unfold_go.
  destruct (json_Unmarshal X ArtistResponse data obj) as [ro [e | ]];
    reflexivity.
Qed.

Lemma GetJSON_quirks_topten data obj w env :
  GetJSON_quirks X data TopTenTorrentsResponse obj (w, env) =
  let '(ro, err) := json_Unmarshal X TopTenTorrentsResponse data obj in
  ((ro, match err with
        | Some _ => Bytes.ReplaceAll data artist_false artist_empty
        | None => data
        end),
   (w, record (Unmarshal (TResponse TopTenTorrentsResponse) data) env)).
Proof.
  unfold GetJSON_quirks. unfold_go.
  destruct (json_Unmarshal X TopTenTorrentsResponse data obj) as [ro [e | ]];
    reflexivity.
Qed.

Lemma GetJSON_quirks_other data shape obj s :
  shape <> ArtistResponse -> shape <> TopTenTorrentsResponse ->
  GetJSON_quirks X data shape obj s = ((obj, data), s).
Proof. intros H1 H2. destruct shape; try contradiction; reflexivity. Qed.

End Quirks.

(** C5. Let [GetJSON] have its body, with an envelope that passes.
    - Target [ArtistResponse], first decode failing: every occurrence
      of the fragment ["extendedArtists":false] in the body is replaced
      by ["extendedArtists":{}] (none is left), and the body so
      rewritten is decoded once more, into the same object; what that
      decode returns is what [GetJSON] returns, so when it succeeds
      the caller has its artist.  Three decodes are performed in all:
      envelope, first attempt, retry.
    - Target [TopTenTorrentsResponse], first decode failing: the same,
      with its own fragment.
    - Any other target: the body is decoded once, as it is, even when
      that decode fails. *)
Theorem GetJSON_quirk_correction :
  forall (X : Externals) u obj w env data w1 env1 st,
    loggedIn w = true ->
    GetJSON_body X u (w, env) = ((data, None), (w1, env1)) ->
    Envelope.Unmarshal data = (st, None) ->
    checkResponseStatus (Status st) (Error st) = None ->
    let env2 := record (Unmarshal TGenericResponse data) env1 in
    (forall ro1 e1,
       json_Unmarshal X ArtistResponse data obj = (ro1, Some e1) ->
       let data' := Bytes.ReplaceAll data extendedArtists_false
                      extendedArtists_object in
       Bytes.Contains data' extendedArtists_false = false /\
       GetJSON X u ArtistResponse obj (w, env) =
       (json_Unmarshal X ArtistResponse data' ro1,
        (w1, record (Unmarshal (TResponse ArtistResponse) data')
               (record (Unmarshal (TResponse ArtistResponse) data) env2))) /\
       (forall ro2,
          json_Unmarshal X ArtistResponse data' ro1 = (ro2, None) ->
          fst (GetJSON X u ArtistResponse obj (w, env)) = (ro2, None)))
    /\
    (forall ro1 e1,
       json_Unmarshal X TopTenTorrentsResponse data obj = (ro1, Some e1) ->
       let data' := Bytes.ReplaceAll data artist_false artist_empty in
       GetJSON X u TopTenTorrentsResponse obj (w, env) =
       (json_Unmarshal X TopTenTorrentsResponse data' ro1,
        (w1, record (Unmarshal (TResponse TopTenTorrentsResponse) data')
               (record (Unmarshal (TResponse TopTenTorrentsResponse) data)
                  env2))))
    /\
    (forall shape,
       shape <> ArtistResponse -> shape <> TopTenTorrentsResponse ->
       GetJSON X u shape obj (w, env) =
       (json_Unmarshal X shape data obj,
        (w1, record (Unmarshal (TResponse shape) data) env2))).
Proof.
  intros X u obj w env data w1 env1 st Hin Hbody Hst Hok env2.
  assert (R : forall shape,
             GetJSON X u shape obj (w, env) =
             match GetJSON_quirks X data shape obj (w1, env2) with
             | ((ro, data'), (w2, env3)) =>
                 (json_Unmarshal X shape data' ro,
                  (w2, record (Unmarshal (TResponse shape) data') env3))
             end).
  { intros shape. rewrite (GetJSON_run X u shape obj w env Hin), Hbody.
    apply GetJSON_decode_accepted with (st := st); assumption. }
  split; [ | split].
  - intros ro1 e1 H1 data'.
    assert (G : GetJSON X u ArtistResponse obj (w, env) =
                (json_Unmarshal X ArtistResponse data' ro1,
                 (w1, record (Unmarshal (TResponse ArtistResponse) data')
                        (record (Unmarshal (TResponse ArtistResponse) data)
                           env2)))).
    { rewrite R, GetJSON_quirks_artist, H1. reflexivity. }
    split; [apply ReplaceAll_extendedArtists_clean | ].
    split; [exact G | ].
    intros ro2 H2. rewrite G, H2. reflexivity.
  - intros ro1 e1 H1 data'.
    rewrite R, GetJSON_quirks_topten, H1. reflexivity.
  - intros shape Ha Ht.
    rewrite R, (GetJSON_quirks_other X data shape obj _ Ha Ht). reflexivity.
Qed.

Lemma GetJSON_quirk_correction_witness :
  let w := Sample.alice None in
  let env := Sample.world Sample.tracker [] [] [Sample.session "s1"] in
  let r := GetJSON_body Sample.X Sample.artist_url (w, env) in
  loggedIn w = true /\
  r = ((Sample.artist_body, None), snd r) /\
  snd (Envelope.Unmarshal Sample.artist_body) = None /\
  snd (json_Unmarshal Sample.X ArtistResponse Sample.artist_body JSON.JNull)
    = Some (json_UnmarshalTypeError "bool" "response.extendedArtists") /\
  Bytes.ReplaceAll Sample.artist_body extendedArtists_false
    extendedArtists_object = Sample.artist_body_fixed /\
  snd (fst (GetJSON Sample.X Sample.artist_url ArtistResponse JSON.JNull
              (w, env))) = None.
Proof.
  intros w env r.
  repeat (split; [reflexivity | ]).
  destruct (GetJSON_quirk_correction Sample.X Sample.artist_url JSON.JNull
              w env Sample.artist_body (fst (snd r)) (snd (snd r))
              (fst (Envelope.Unmarshal Sample.artist_body))
              eq_refl eq_refl eq_refl eq_refl) as [Hartist _].
  destruct (Hartist
              (fst (json_Unmarshal Sample.X ArtistResponse
                      Sample.artist_body JSON.JNull))
              (json_UnmarshalTypeError "bool" "response.extendedArtists")
              eq_refl) as (_ & _ & Hok).
  rewrite (Hok (fst (json_Unmarshal Sample.X ArtistResponse
                       Sample.artist_body_fixed
                       (fst (json_Unmarshal Sample.X ArtistResponse
                               Sample.artist_body JSON.JNull))))
             eq_refl).
  reflexivity.
Defined.

(** ** What a method adds to the trace *)

Section Adds.

Context (P : Event -> Prop).

Lemma adds_ret {A : Type} (a : A) : adds P (ret a).
Proof. intros s. exists []. cbn. rewrite app_nil_r. auto. Qed.

Lemma adds_bind {A B : Type} (m : M A) (k : A -> M B) :
  adds P m -> (forall a, adds P (k a)) -> adds P (bind m k).
Proof.
  intros Hm Hk s. unfold bind.
  destruct (Hm s) as (l1 & E1 & F1). destruct (m s) as [a s1].
  destruct (Hk a s1) as (l2 & E2 & F2).
  exists (l1 ++ l2). cbn [fst snd] in *. rewrite E2, E1, app_assoc.
  split; [reflexivity | apply Forall_app; auto].
Qed.

Lemma adds_this : adds P this.
Proof. intros s. exists []. cbn. rewrite app_nil_r. auto. Qed.

Lemma adds_assign f : adds P (assign f).
Proof. intros s. exists []. cbn. rewrite app_nil_r. auto. Qed.

Lemma adds_perform {A : Type} (f : World -> A * World) :
  (forall env, exists l, trace (snd (f env)) = trace env ++ l /\ Forall P l) ->
  adds P (perform f).
Proof.
  intros Hf [w env]. unfold perform. cbn [fst snd].
  destruct (Hf env) as (l & E & F). destruct (f env) as [a env1].
  exists l. auto.
Qed.

Lemma adds_emit e : P e -> adds P (emit e).
Proof.
  intros He. apply adds_perform. intros env. exists [e]. cbn. auto.
Qed.

Lemma adds_or_return {A : Type} (err : option error) (r : error -> M A)
    (k : M A) :
  (forall e, adds P (r e)) -> adds P k -> adds P (or_return err r k).
Proof. intros Hr Hk. destruct err; cbn; auto. Qed.

Lemma adds_leave e : adds P (leave e).
Proof. apply adds_ret. Qed.

Lemma adds_read {A : Type} (f : World -> A) :
  adds P (perform (fun env => (f env, env))).
Proof.
  apply adds_perform. intros env. exists []. cbn. rewrite app_nil_r. auto.
Qed.

Lemma adds_with_Jar (f : World -> list Cookie) :
  adds P (perform (fun env => (tt, with_Jar (f env) env))).
Proof.
  apply adds_perform. intros env. exists []. cbn. rewrite app_nil_r. auto.
Qed.

Lemma adds_client_Do req : P (HTTP req) -> adds P (perform (client_Do req)).
Proof.
  intros Hp. apply adds_perform. intros env. exists [HTTP req].
  rewrite client_Do_trace. auto.
Qed.

Lemma adds_Exec_replace_urlcache u data :
  (forall stmt args, P (SQLExec stmt args)) ->
  adds P (perform (Exec_replace_urlcache u data)).
Proof.
  intros Hp. apply adds_perform. intros env. eexists.
  unfold Exec_replace_urlcache.
  destruct (driver env (sql_count env)); cbn; split; try reflexivity; auto.
Qed.

Lemma adds_Exec_replace_cookies u c :
  (forall stmt args, P (SQLExec stmt args)) ->
  adds P (perform (Exec_replace_cookies u c)).
Proof.
  intros Hp. apply adds_perform. intros env. eexists.
  unfold Exec_replace_cookies.
  destruct (driver env (sql_count env)); cbn; split; try reflexivity; auto.
Qed.

Lemma adds_QueryRow_urlcache u :
  (forall stmt args, P (SQLQuery stmt args)) ->
  adds P (perform (QueryRow_urlcache u)).
Proof.
  intros Hp. apply adds_perform. intros env. eexists.
  unfold QueryRow_urlcache.
  destruct (driver env (sql_count env));
    [ | destruct (select_cache u (urlcache env))];
    cbn; split; try reflexivity; auto.
Qed.

Lemma adds_QueryRow_cookie u :
  (forall stmt args, P (SQLQuery stmt args)) ->
  adds P (perform (QueryRow_cookie u)).
Proof.
  intros Hp. apply adds_perform. intros env. eexists.
  unfold QueryRow_cookie.
  destruct (driver env (sql_count env));
    [ | destruct (select_cookie u (cookies env))];
    cbn; split; try reflexivity; auto.
Qed.

End Adds.

Lemma adds_weaken {A : Type} (P Q : Event -> Prop) (m : M A) :
  (forall e, P e -> Q e) -> adds P m -> adds Q m.
Proof.
  intros H Hm s. destruct (Hm s) as (l & E & F). exists l.
  split; [exact E | ]. eapply Forall_impl; eauto.
Qed.

Create HintDb adds discriminated.
#[global] Hint Resolve adds_ret adds_this adds_assign adds_leave adds_read
  adds_with_Jar : adds.

Ltac adds_tac :=
  repeat first
    [ progress intros
    | solve [ auto with adds ]
    | apply adds_bind
    | apply adds_or_return
    | apply adds_emit; solve [ hnf; cbn; auto ]
    | apply adds_client_Do; solve [ hnf; cbn; auto ]
    | apply adds_Exec_replace_urlcache; solve [ hnf; cbn; auto ]
    | apply adds_Exec_replace_cookies; solve [ hnf; cbn; auto ]
    | apply adds_QueryRow_urlcache; solve [ hnf; cbn; auto ]
    | apply adds_QueryRow_cookie; solve [ hnf; cbn; auto ]
    | match goal with
      | |- adds _ (let '(_, _) := ?p in _) => destruct p
      | |- adds _ (if ?b then _ else _) => destruct b
      | |- adds _ (match ?x with _ => _ end) => destruct x
      end ].

Section NoPost.

Context (X : Externals).

Lemma no_post_doRequest_GET u : adds no_post (doRequest (GET u)).
Proof.
  intros [w env]. exists [HTTP (sent w u)]. split.
  - apply doRequest_trace.
  - repeat constructor.
Qed.

Lemma no_post_updateCache u data : adds no_post (updateCache u data).
Proof. unfold updateCache. adds_tac. Qed.

Lemma no_post_cachedResponse u : adds no_post (cachedResponse u).
Proof. unfold cachedResponse. adds_tac. Qed.

#[local] Hint Resolve no_post_doRequest_GET no_post_updateCache
  no_post_cachedResponse : adds.

Lemma no_post_GetJSON_body u : adds no_post (GetJSON_body X u).
Proof. unfold GetJSON_body. adds_tac. Qed.

Lemma off_line_GetJSON_quirks data shape obj :
  adds off_line (GetJSON_quirks X data shape obj).
Proof. unfold GetJSON_quirks. adds_tac. Qed.

#[local] Hint Resolve off_line_GetJSON_quirks : adds.

Lemma off_line_GetJSON_decode data shape obj :
  adds off_line (GetJSON_decode X data shape obj).
Proof. unfold GetJSON_decode. adds_tac. Qed.

Lemma off_line_no_post e : off_line e -> no_post e.
Proof. destruct e; cbn; auto. discriminate. Qed.

Lemma no_post_GetJSON_decode data shape obj :
  adds no_post (GetJSON_decode X data shape obj).
Proof.
  apply adds_weaken with (P := off_line);
    [apply off_line_no_post | apply off_line_GetJSON_decode].
Qed.

#[local] Hint Resolve no_post_GetJSON_body no_post_GetJSON_decode : adds.

Lemma no_post_GetJSON u shape obj : adds no_post (GetJSON X u shape obj).
Proof. unfold GetJSON. adds_tac. Qed.

#[local] Hint Resolve no_post_GetJSON : adds.

Lemma no_post_GetAccount : adds no_post (GetAccount X).
Proof. unfold GetAccount. adds_tac. Qed.

Lemma no_post_saveCookies : adds no_post (saveCookies X).
Proof. unfold saveCookies. adds_tac. Qed.

End NoPost.

(** ** The cache *)

Lemma rows_for_replace r t :
  rows_for (requesturl r) (replace_cache_row r t) = [r].
Proof.
  unfold rows_for, replace_cache_row, key_is. rewrite filter_app. cbn.
  rewrite String.eqb_refl.
  replace (filter _ (filter _ t)) with (@nil CacheRow); [reflexivity | ].
  induction t as [| x t IH]; cbn; [reflexivity | ].
  destruct (String.eqb (requesturl x) (requesturl r)) eqn:E; cbn;
    [exact IH | rewrite E; exact IH].
Qed.

Lemma rows_for_replace_other u r t :
  requesturl r <> u ->
  rows_for u (replace_cache_row r t) = rows_for u t.
Proof.
  intros Hne. unfold rows_for, replace_cache_row, key_is.
  rewrite filter_app. cbn.
  apply String.eqb_neq in Hne. rewrite Hne, app_nil_r.
  induction t as [| x t IH]; cbn; [reflexivity | ].
  destruct (String.eqb (requesturl x) (requesturl r)) eqn:E; cbn.
  - apply String.eqb_eq in E. rewrite E, Hne. exact IH.
  - rewrite IH. reflexivity.
Qed.

Section Cache.

(** [cachedResponse] on a client with a database. *)
Lemma cachedResponse_run u w env h :
  db w = Some h ->
  cachedResponse u (w, env) =
  let env1 := record (SQLQuery stmt_select_urlcache [u]) env in
  match driver env (sql_count env) with
  | Fails m => ((EmptyString, Some (StoreError m)), (w, env1))
  | Executes _ _ =>
      match select_cache u (urlcache env) with
      | None => ((EmptyString, Some sql_ErrNoRows), (w, env1))
      | Some r =>
          if Bytes.is_empty (body r)
             || (time_Since (timestamp r) env1 >? cacheFor w)%Z
          then ((EmptyString, Some sql_ErrNoRows), (w, env1))
          else ((body r, None), (w, env1))
      end
  end.
Proof.
  intros Hdb. unfold cachedResponse, QueryRow_urlcache. unfold_go.
  rewrite Hdb. cbn.
  destruct (driver env (sql_count env)); cbn; [reflexivity | ].
  destruct (select_cache u (urlcache env)); cbn; [ | reflexivity].
  destruct (Bytes.is_empty (body c) || _); reflexivity.
Qed.

(** [updateCache] on a client with a database. *)
Lemma updateCache_run u data w env h :
  db w = Some h ->
  updateCache u data (w, env) =
  let env1 := record (SQLExec stmt_replace_urlcache [u; data]) env in
  match driver env (sql_count env) with
  | Fails m => (Some (StoreError m), (w, env1))
  | Executes rows rowsErr =>
      let r := {| requesturl := u; body := data;
                  timestamp := datetime_now env |} in
      let env2 := with_urlcache (replace_cache_row r (urlcache env)) env1 in
      match rowsErr with
      | Some m => (Some (StoreError m), (w, env2))
      | None =>
          if (rows =? 1)%Z then (None, (w, env2))
          else (Some (fmt_Errorf
                        (String.append "INSERT affected "
                           (String.append (decimal rows) " rows, expected 1"))),
                (w, env2))
      end
  end.
Proof.
  intros Hdb. unfold updateCache, Exec_replace_urlcache. unfold_go.
  rewrite Hdb. cbn.
  destruct (driver env (sql_count env)) as [m | rows [m | ]]; cbn;
    try reflexivity.
  destruct (rows =? 1)%Z; reflexivity.
Qed.

Lemma updateCache_executed u data w env h n e :
  db w = Some h ->
  driver env (sql_count env) = Executes n e ->
  snd (updateCache u data (w, env)) = (w, written u data env).
Proof.
  intros Hdb Hd. rewrite (updateCache_run u data w env h Hdb), Hd.
  cbv zeta. destruct e; [reflexivity | ].
  destruct (n =? 1)%Z; reflexivity.
Qed.

Lemma written_next u data env :
  driver (written u data env) (sql_count (written u data env)) =
  driver env (S (sql_count env)).
Proof.
  unfold written.
  change (sql_count (with_urlcache ?t ?e)) with (sql_count e).
  rewrite sql_count_record. cbn. f_equal. lia.
Qed.

End Cache.

(** C7. On a client with a database, two writes in a row to the same
    key, both carried out by the driver, leave exactly one row under
    that key, and its body is the second one; the rows under other keys
    are those that were there.  A write for which the driver reports a
    number of affected rows other than 1 returns an error; a write
    returns nil only if the driver ran it and reported exactly one
    row. *)
Theorem updateCache_replaces :
  forall u b1 b2 w env h,
    db w = Some h ->
    let r1 := updateCache u b1 (w, env) in
    let r2 := updateCache u b2 (snd r1) in
    (forall n1 e1 n2 e2,
       driver env (sql_count env) = Executes n1 e1 ->
       driver env (S (sql_count env)) = Executes n2 e2 ->
       (exists ts,
          rows_for u (urlcache (snd (snd r2))) =
          [{| requesturl := u; body := b2; timestamp := ts |}]) /\
       (forall u', u <> u' ->
          rows_for u' (urlcache (snd (snd r2))) = rows_for u' (urlcache env)))
    /\ (forall rows rowsErr,
          driver env (sql_count env) = Executes rows rowsErr ->
          rows <> 1%Z -> fst r1 <> None)
    /\ (fst r1 = None -> driver env (sql_count env) = Executes 1 None).
Proof.
  intros u b1 b2 w env h Hdb r1 r2. subst r1 r2.
  rewrite (updateCache_run u b1 w env h Hdb). cbv zeta.
  split; [ | split].
  - intros n1 e1 n2 e2 H1 H2.
    pose proof (updateCache_executed u b1 w env h n1 e1 Hdb H1) as E1.
    rewrite (updateCache_run u b1 w env h Hdb) in E1. cbv zeta in E1.
    rewrite E1.
    rewrite <- written_next with (u := u) (data := b1) in H2.
    rewrite (updateCache_executed u b2 w _ h n2 e2 Hdb H2).
    cbn [snd]. unfold written at 1 3. cbn [urlcache with_urlcache].
    split.
    + eexists. apply (rows_for_replace
                        {| requesturl := u; body := b2;
                           timestamp := datetime_now (written u b1 env) |}).
    + intros u' Hne.
      rewrite rows_for_replace_other by (cbn; exact Hne).
      unfold written. cbn [urlcache with_urlcache record with_trace].
      apply rows_for_replace_other. cbn. exact Hne.
  - intros rows rowsErr H Hne. rewrite H.
    destruct rowsErr; cbn; [discriminate | ].
    destruct (Z.eqb_spec rows 1); [contradiction | cbn; discriminate].
  - destruct (driver env (sql_count env)) as [m | rows [m | ]]; cbn;
      try discriminate.
    destruct (Z.eqb_spec rows 1); cbn; [ | discriminate].
    subst. reflexivity.
Qed.

Lemma updateCache_replaces_witness :
  let w := Sample.alice (Some Database) in
  let env := Sample.world Sample.tracker [] [] [] in
  let u := Sample.artist_url in
  let r1 := updateCache u "first" (w, env) in
  let r2 := updateCache u "second" (snd r1) in
  db w = Some Database /\
  driver env (sql_count env) = Executes 1 None /\
  driver env (S (sql_count env)) = Executes 1 None /\
  exists ts,
    rows_for u (urlcache (snd (snd r2))) =
    [{| requesturl := u; body := "second"; timestamp := ts |}].
Proof.
  intros w env u r1 r2. repeat (split; [reflexivity | ]).
  destruct (updateCache_replaces u "first" "second" w env Database eq_refl)
    as [Hrows _].
  exact (proj1 (Hrows 1%Z None 1%Z None eq_refl eq_refl)).
Defined.

(** ** Cache misses and hits *)

Section Lookup.

Context (X : Externals).

(** After a miss the body is fetched, and written back. *)
Lemma GetJSON_body_miss u w env d env1 :
  cachedResponse u (w, env) = ((d, Some sql_ErrNoRows), (w, env1)) ->
  GetJSON_body X u (w, env) =
  match http_NewRequest X "GET" u with
  | Some e => ((EmptyString, Some e), (w, env1))
  | None =>
      match doRequest (GET u) (w, env1) with
      | ((_, Some e), s1) => ((EmptyString, Some e), s1)
      | ((data, None), s1) =>
          match updateCache u data s1 with
          | (Some e, s2) => ((EmptyString, Some e), s2)
          | (None, s2) => ((data, None), s2)
          end
      end
  end.
Proof.
  intros Hc. unfold GetJSON_body. unfold_go. rewrite Hc. cbn.
  rewrite orb_true_r.
  destruct (http_NewRequest X "GET" u); cbn; [reflexivity | ].
  destruct (doRequest (GET u) (w, env1)) as [[data [e | ]] s1]; cbn;
    [reflexivity | ].
  destruct (updateCache u data s1) as [[e | ] s2]; reflexivity.
Qed.

(** After a hit nothing is fetched. *)
Lemma GetJSON_body_hit u w env h data env1 :
  db w = Some h ->
  cachedResponse u (w, env) = ((data, None), (w, env1)) ->
  GetJSON_body X u (w, env) = ((data, None), (w, env1)).
Proof.
  intros Hdb Hc. unfold GetJSON_body. unfold_go. rewrite Hc. cbn.
  rewrite Hdb. reflexivity.
Qed.

(** A dispatch past the gate whose lookup misses sends its request
    right after the lookup. *)
Lemma GetJSON_miss_sends u shape obj w env d env1 :
  loggedIn w = true ->
  cachedResponse u (w, env) = ((d, Some sql_ErrNoRows), (w, env1)) ->
  http_NewRequest X "GET" u = None ->
  exists rest,
    trace (snd (snd (GetJSON X u shape obj (w, env)))) =
    trace env1 ++ HTTP (sent w u) :: rest.
Proof.
  intros Hin Hc Hreq.
  rewrite (GetJSON_run X u shape obj w env Hin).
  rewrite (GetJSON_body_miss u w env d env1 Hc), Hreq.
  pose proof (doRequest_trace (GET u) w env1) as Ht.
  destruct (doRequest (GET u) (w, env1)) as [[data [e | ]] [w1 env2]];
    cbn [fst snd] in Ht.
  { exists []. exact Ht. }
  destruct (no_post_updateCache u data (w1, env2)) as (l1 & E1 & _).
  destruct (updateCache u data (w1, env2)) as [[e | ] [w2 env3]];
    cbn [fst snd] in E1.
  { exists l1. cbn [snd]. rewrite E1, Ht, <- app_assoc. reflexivity. }
  destruct (no_post_GetJSON_decode X data shape obj (w2, env3))
    as (l2 & E2 & _).
  cbn [snd] in E2.
  exists (l1 ++ l2). rewrite E2, E1, Ht, <- !app_assoc. reflexivity.
Qed.

End Lookup.

(** C10. A row with an empty body is a miss whatever its age: the
    lookup returns [sql.ErrNoRows], and a dispatch past the gate that
    can build its request sends it right after the lookup. *)
Theorem cachedResponse_empty_body_is_miss :
  forall (X : Externals) u shape obj w env h n e row,
    db w = Some h ->
    driver env (sql_count env) = Executes n e ->
    select_cache u (urlcache env) = Some row ->
    body row = EmptyString ->
    let env1 := record (SQLQuery stmt_select_urlcache [u]) env in
    cachedResponse u (w, env) = ((EmptyString, Some sql_ErrNoRows), (w, env1))
    /\ (loggedIn w = true ->
        http_NewRequest X "GET" u = None ->
        exists rest,
          trace (snd (snd (GetJSON X u shape obj (w, env)))) =
          trace env ++ SQLQuery stmt_select_urlcache [u]
                    :: HTTP (sent w u) :: rest).
Proof.
  intros X u shape obj w env h n e row Hdb Hd Hrow Hbody env1.
  assert (Hc : cachedResponse u (w, env) =
               ((EmptyString, Some sql_ErrNoRows), (w, env1))).
  { rewrite (cachedResponse_run u w env h Hdb), Hd, Hrow, Hbody.
    reflexivity. }
  split; [exact Hc | ].
  intros Hin Hreq.
  destruct (GetJSON_miss_sends X u shape obj w env _ env1 Hin Hc Hreq)
    as [rest Hrest].
  exists rest. rewrite Hrest. unfold env1. rewrite trace_record.
  rewrite <- app_assoc. reflexivity.
Qed.

Lemma cachedResponse_empty_body_is_miss_witness :
  let w := Sample.alice (Some Database) in
  let env := Sample.world Sample.tracker [Sample.empty_row] []
               [Sample.session "s1"] in
  let u := Sample.inbox_url in
  let env1 := record (SQLQuery stmt_select_urlcache [u]) env in
  select_cache u (urlcache env) = Some Sample.empty_row /\
  (time_Since (timestamp Sample.empty_row) env1 <= cacheFor w)%Z /\
  cachedResponse u (w, env) = ((EmptyString, Some sql_ErrNoRows), (w, env1)) /\
  exists rest,
    trace (snd (snd (GetJSON Sample.X u (OtherResponse "MailboxResponse")
                       JSON.JNull (w, env)))) =
    trace env ++ SQLQuery stmt_select_urlcache [u] :: HTTP (sent w u) :: rest.
Proof.
  intros w env u env1.
  split; [reflexivity | ]. split; [vm_compute; discriminate | ].
  destruct (cachedResponse_empty_body_is_miss Sample.X u
              (OtherResponse "MailboxResponse") JSON.JNull w env Database
              1%Z None Sample.empty_row eq_refl eq_refl eq_refl eq_refl)
    as [Hmiss Hfetch].
  split; [exact Hmiss | exact (Hfetch eq_refl eq_refl)].
Defined.

Lemma off_line_http_count l :
  Forall off_line l -> filter is_http l = [].
Proof.
  induction 1 as [| e l He _ IH]; cbn; [reflexivity | ].
  unfold off_line in He. rewrite He. exact IH.
Qed.

(** C6, as the code has it.  On a client with a database whose driver
    runs the query:
    - no row under the URL: the lookup returns [sql.ErrNoRows];
    - a row older than [cacheFor]: the same;
    - in both cases a dispatch past the gate that can build its request
      sends it right after the lookup;
    - a row with a non-empty body, not older than [cacheFor]: the
      lookup returns its body, and a dispatch past the gate decodes
      that body and sends no request. *)
Theorem cachedResponse_miss_and_hit :
  forall (X : Externals) u shape obj w env h n e,
    db w = Some h ->
    driver env (sql_count env) = Executes n e ->
    let env1 := record (SQLQuery stmt_select_urlcache [u]) env in
    let miss :=
      cachedResponse u (w, env) = ((EmptyString, Some sql_ErrNoRows), (w, env1))
      /\ (loggedIn w = true ->
          http_NewRequest X "GET" u = None ->
          exists rest,
            trace (snd (snd (GetJSON X u shape obj (w, env)))) =
            trace env ++ SQLQuery stmt_select_urlcache [u]
                      :: HTTP (sent w u) :: rest) in
    (select_cache u (urlcache env) = None -> miss)
    /\ (forall row,
          select_cache u (urlcache env) = Some row ->
          (time_Since (timestamp row) env1 > cacheFor w)%Z -> miss)
    /\ (forall row,
          select_cache u (urlcache env) = Some row ->
          body row <> EmptyString ->
          (time_Since (timestamp row) env1 <= cacheFor w)%Z ->
          cachedResponse u (w, env) = ((body row, None), (w, env1))
          /\ (loggedIn w = true ->
              GetJSON X u shape obj (w, env) =
                GetJSON_decode X (body row) shape obj (w, env1)
              /\ http_count (snd (snd (GetJSON X u shape obj (w, env)))) =
                 http_count env)).
Proof.
  intros X u shape obj w env h n e Hdb Hd env1 miss.
  assert (M : cachedResponse u (w, env) =
              ((EmptyString, Some sql_ErrNoRows), (w, env1)) -> miss).
  { intros Hc. split; [exact Hc | ]. intros Hin Hreq.
    destruct (GetJSON_miss_sends X u shape obj w env _ env1 Hin Hc Hreq)
      as [rest Hrest].
    exists rest. rewrite Hrest. unfold env1. rewrite trace_record.
    rewrite <- app_assoc. reflexivity. }
  split; [ | split].
  - intros Hnone. apply M.
    rewrite (cachedResponse_run u w env h Hdb), Hd, Hnone. reflexivity.
  - intros row Hrow Hold. apply M.
    rewrite (cachedResponse_run u w env h Hdb), Hd, Hrow. cbv zeta.
    fold env1.
    assert (Hgt : (time_Since (timestamp row) env1 >? cacheFor w)%Z = true)
      by (apply Z.gtb_lt; lia).
    rewrite Hgt, orb_true_r. reflexivity.
  - intros row Hrow Hbody Hfresh.
    assert (Hc : cachedResponse u (w, env) = ((body row, None), (w, env1))).
    { rewrite (cachedResponse_run u w env h Hdb), Hd, Hrow. cbv zeta.
      fold env1.
      assert (Hne : Bytes.is_empty (body row) = false)
        by (destruct (body row); [contradiction | reflexivity]).
      assert (Hle : (time_Since (timestamp row) env1 >? cacheFor w)%Z = false)
        by (rewrite Z.gtb_ltb; apply Z.ltb_ge; lia).
      rewrite Hne, Hle. reflexivity. }
    split; [exact Hc | ]. intros Hin.
    assert (G : GetJSON X u shape obj (w, env) =
                GetJSON_decode X (body row) shape obj (w, env1)).
    { rewrite (GetJSON_run X u shape obj w env Hin).
      rewrite (GetJSON_body_hit X u w env h (body row) env1 Hdb Hc).
      reflexivity. }
    split; [exact G | ]. rewrite G.
    destruct (off_line_GetJSON_decode X (body row) shape obj (w, env1))
      as (l & E & F).
    cbn [snd] in E. unfold http_count at 1. rewrite E, filter_app.
    rewrite (off_line_http_count l F), app_nil_r.
    unfold env1. rewrite trace_record, filter_app. cbn.
    rewrite app_nil_r. reflexivity.
Qed.

Lemma cachedResponse_miss_and_hit_witness :
  let w := Sample.alice (Some Database) in
  let env := Sample.world Sample.tracker [Sample.fresh_row] []
               [Sample.session "s1"] in
  let old := Sample.world Sample.tracker [Sample.stale_row] []
               [Sample.session "s1"] in
  let u := Sample.artist_url in
  db w = Some Database /\
  driver env (sql_count env) = Executes 1 None /\
  fst (cachedResponse u (w, env)) = (Sample.artist_body_fixed, None) /\
  http_count (snd (snd (GetJSON Sample.X u ArtistResponse JSON.JNull (w, env))))
    = 0%nat /\
  fst (cachedResponse u (w, old)) = (EmptyString, Some sql_ErrNoRows) /\
  http_count (snd (snd (GetJSON Sample.X u ArtistResponse JSON.JNull (w, old))))
    = 1%nat.
Proof.
  intros w env old u. split; [reflexivity | ]. split; [reflexivity | ].
  destruct (cachedResponse_miss_and_hit Sample.X u ArtistResponse JSON.JNull
              w env Database 1%Z None eq_refl eq_refl) as (_ & _ & Hhit).
  destruct (Hhit Sample.fresh_row eq_refl) as [Hc Hd].
  { discriminate. }
  { vm_compute. discriminate. }
  split; [rewrite Hc; reflexivity | ].
  split; [exact (proj2 (Hd eq_refl)) | ].
  destruct (cachedResponse_miss_and_hit Sample.X u ArtistResponse JSON.JNull
              w old Database 1%Z None eq_refl eq_refl) as (_ & Hstale & _).
  destruct (Hstale Sample.stale_row eq_refl) as [Hm _].
  { vm_compute. reflexivity. }
  split; [rewrite Hm; reflexivity | vm_compute; reflexivity].
Defined.

(** C6, as the claim has it, fails: a row written a millisecond ago,
    well within the hour the cache is kept for, but with an empty body,
    is not returned; the lookup reports [sql.ErrNoRows] and the dispatch
    goes to the network. *)
Lemma cachedResponse_fresh_empty_row_refetched :
  let w := Sample.alice (Some Database) in
  let env := Sample.world Sample.tracker [Sample.empty_row] []
               [Sample.session "s1"] in
  let u := Sample.inbox_url in
  let env1 := record (SQLQuery stmt_select_urlcache [u]) env in
  select_cache u (urlcache env) = Some Sample.empty_row /\
  time_Since (timestamp Sample.empty_row) env1 = 1000000%Z /\
  cacheFor w = (3600 * second)%Z /\
  fst (cachedResponse u (w, env)) = (EmptyString, Some sql_ErrNoRows) /\
  http_count (snd (snd (GetJSON Sample.X u (OtherResponse "MailboxResponse")
                          JSON.JNull (w, env)))) = 1%nat.
Proof. vm_compute. repeat split. Qed.

(** ** Cookies *)

Lemma select_cookie_replace r t :
  select_cookie (url r) (replace_cookie_row r t) = Some r.
Proof.
  unfold select_cookie, replace_cookie_row.
  induction t as [| x t IH]; cbn.
  - rewrite String.eqb_refl. reflexivity.
  - destruct (String.eqb (url x) (url r)) eqn:E; cbn; [exact IH | ].
    rewrite E. exact IH.
Qed.

Section Cookies.

Context (X : Externals).

Lemma saveCookies_run w env h :
  db w = Some h ->
  saveCookies X (w, env) =
  match json_Marshal_cookies X (Jar env) with
  | (_, Some e) => (Some e, (w, env))
  | (c, None) =>
      match driver env (sql_count env) with
      | Fails m =>
          (Some (StoreError m),
           (w, record (SQLExec stmt_replace_cookies [baseURL w; c]) env))
      | Executes _ _ => (None, (w, saved w c env))
      end
  end.
Proof.
  intros Hdb. unfold saveCookies, Exec_replace_cookies. unfold_go.
  rewrite Hdb. cbn.
  destruct (json_Marshal_cookies X (Jar env)) as [c [e | ]]; cbn;
    [reflexivity | ].
  destruct (driver env (sql_count env)); reflexivity.
Qed.

Lemma saveCookies_nil_db w env :
  db w = None -> saveCookies X (w, env) = (None, (w, env)).
Proof.
  intros Hdb. unfold saveCookies. unfold_go. rewrite Hdb. reflexivity.
Qed.

(** A save that returns nil, with a database, has written the jar. *)
Lemma saveCookies_ok w env h w' env' :
  db w = Some h ->
  saveCookies X (w, env) = (None, (w', env')) ->
  w' = w /\ Jar env' = Jar env /\
  exists c,
    json_Marshal_cookies X (Jar env') = (c, None) /\
    select_cookie (baseURL w) (cookies env') =
      Some {| url := baseURL w; cookie := c |}.
Proof.
  intros Hdb H. rewrite (saveCookies_run w env h Hdb) in H.
  destruct (json_Marshal_cookies X (Jar env)) as [c [e | ]] eqn:Hm;
    [discriminate H | ].
  destruct (driver env (sql_count env)); [discriminate H | ].
  injection H as Hw He. subst w' env'.
  repeat split. exists c. split; [exact Hm | ].
  unfold saved. cbn [cookies with_cookies].
  apply (select_cookie_replace {| url := baseURL w; cookie := c |}).
Qed.

Lemma getCookies_run w env h :
  db w = Some h ->
  getCookies X (w, env) =
  let env1 := record (SQLQuery stmt_select_cookie [baseURL w]) env in
  match driver env (sql_count env) with
  | Fails m => (Some (StoreError m), (w, env1))
  | Executes _ _ =>
      match select_cookie (baseURL w) (cookies env) with
      | None => (None, (w, env1))
      | Some r =>
          match json_Unmarshal_cookies X (cookie r) with
          | (_, Some e) =>
              (Some e, (w, record (Unmarshal TCookies (cookie r)) env1))
          | (cs, None) => (None, (w, loaded w (cookie r) cs env))
          end
      end
  end.
Proof.
  intros Hdb. unfold getCookies, QueryRow_cookie. unfold_go.
  rewrite Hdb. cbn.
  destruct (driver env (sql_count env)); cbn; [reflexivity | ].
  destruct (select_cookie (baseURL w) (cookies env)); cbn; [ | reflexivity].
  destruct (json_Unmarshal_cookies X (cookie c)) as [cs [e | ]]; reflexivity.
Qed.

Lemma clearCookies_run w env :
  clearCookies X (w, env) = saveCookies X (w, with_Jar [] env).
Proof. reflexivity. Qed.

(** The client [GetAccount] hands back. *)
Lemma GetAccount_client w env err w' env' :
  GetAccount X (w, env) = (err, (w', env')) ->
  match err with
  | Some _ => w' = w
  | None => exists a p, w' = set_keys a p w
  end.
Proof.
  intros H. rewrite GetAccount_run in H.
  destruct (probe_url X w) as [u [e | ]]; [inversion H; reflexivity | ].
  destruct (GetJSON X u AccountResponse (zero_value X AccountResponse)
              (probing w, env)) as [[ro [e | ]] [w1 env1]];
    [inversion H; reflexivity | ].
  cbv zeta in H. destruct (checkResponseStatus _ _); inversion H; subst.
  - reflexivity.
  - eexists. eexists. reflexivity.
Qed.

(** [Login] on a client with a database. *)
Lemma Login_run_db username password w env h :
  db w = Some h ->
  Login X username password (w, env) =
  match getCookies X (w, env) with
  | (Some e, s1) => (Some e, s1)
  | (None, s1) =>
      match GetAccount X s1 with
      | (None, (w2, env2)) => (None, (set_loggedIn true w2, env2))
      | (Some _, s2) =>
          match clearCookies X s2 with
          | (Some e, s3) => (Some e, s3)
          | (None, s3) => Login_credentials X username password s3
          end
      end
  end.
Proof.
  intros Hdb. unfold Login. unfold_go. rewrite Hdb. cbn.
  destruct (getCookies X (w, env)) as [[e | ] s1]; cbn; [reflexivity | ].
  destruct (GetAccount X s1) as [[e | ] [w2 env2]]; cbn; [ | reflexivity].
  destruct (clearCookies X (w2, env2)) as [[e' | ] s3]; reflexivity.
Qed.

Lemma Login_run_nil_db username password w env :
  db w = None ->
  Login X username password (w, env) =
  Login_credentials X username password (w, env).
Proof. intros Hdb. unfold Login. unfold_go. rewrite Hdb. reflexivity. Qed.

(** The posting of the credentials, when the request can be built. *)
Lemma Login_credentials_run username password w env :
  http_NewRequest X "POST" (String.append (baseURL w) "login.php") = None ->
  Login_credentials X username password (w, env) =
  match client_Do (login_request w username password) env with
  | (Failed m, env1) => (Some (TransportError m), (w, env1))
  | (Answered resp, env1) =>
      if negb (Bytes.Contains (RequestURL resp) "index")
      then (Some errLoginFailed, (w, env1))
      else
        match GetAccount X (set_loggedIn true w, env1) with
        | (Some e, s2) => (Some e, s2)
        | (None, s2) => saveCookies X s2
        end
  end.
Proof.
  intros Hreq. unfold Login_credentials. unfold_go. rewrite Hreq. cbn.
  destruct (client_Do (login_request w username password) env)
    as [[m | resp] env1]; cbn; [reflexivity | ].
  destruct (negb (Bytes.Contains (RequestURL resp) "index")); cbn;
    [reflexivity | ].
  destruct (GetAccount X (set_loggedIn true w, env1)) as [[e | ] s2];
    reflexivity.
Qed.

(** A posting of the credentials that returns nil: the request went
    out, the probe succeeded on the client marked as logged in, and the
    jar was saved. *)
Lemma Login_credentials_ok username password w env w' env' :
  Login_credentials X username password (w, env) = (None, (w', env')) ->
  exists envp wb envb,
    trace envp = trace env ++ [HTTP (login_request w username password)] /\
    GetAccount X (set_loggedIn true w, envp) = (None, (wb, envb)) /\
    saveCookies X (wb, envb) = (None, (w', env')).
Proof.
  intros H.
  destruct (http_NewRequest X "POST" (String.append (baseURL w) "login.php"))
    eqn:Hreq.
  { unfold Login_credentials in H. unfold_go. rewrite Hreq in H.
    discriminate H. }
  rewrite (Login_credentials_run username password w env Hreq) in H.
  pose proof (client_Do_trace (login_request w username password) env) as Ht.
  destruct (client_Do (login_request w username password) env)
    as [[m | resp] envp]; [discriminate H | ].
  cbn [snd] in Ht.
  destruct (negb (Bytes.Contains (RequestURL resp) "index"));
    [discriminate H | ].
  destruct (GetAccount X (set_loggedIn true w, envp)) as [[e | ] [wb envb]]
    eqn:Hacc; [discriminate H | ].
  exists envp, wb, envb. auto.
Qed.

End Cookies.

(** ** Frames on the world *)

Lemma off_store_refl env : off_store env env.
Proof. repeat split. Qed.

Lemma off_store_trans a b c : off_store a b -> off_store b c -> off_store a c.
Proof.
  intros (H1 & H2 & H3 & H4 & H5 & H6) (K1 & K2 & K3 & K4 & K5 & K6).
  repeat split; congruence.
Qed.

Lemma quiet_refl env : quiet env env.
Proof. repeat split. Qed.

Lemma quiet_trans a b c : quiet a b -> quiet b c -> quiet a c.
Proof.
  intros (H1 & H2 & H3) (K1 & K2 & K3).
  split; [eapply off_store_trans; eauto | split; congruence].
Qed.

Lemma quiet_off_store a b : quiet a b -> off_store a b.
Proof. intros H. apply H. Qed.

Lemma quiet_record_Unmarshal t d env : quiet env (record (Unmarshal t d) env).
Proof.
  unfold quiet, off_store.
  rewrite sql_count_record, http_count_record. cbn.
  rewrite !Nat.add_0_r. repeat split.
Qed.

Lemma off_store_client_Do req env : off_store env (snd (client_Do req env)).
Proof.
  unfold client_Do, off_store.
  destruct (server env (http_count env) req (Jar env)); cbn [snd];
    change (sql_count (with_Jar ?j ?e)) with (sql_count e);
    rewrite sql_count_record; cbn; rewrite Nat.add_0_r; repeat split.
Qed.

Section Steps.

Context (R : World -> World -> Prop).
Hypothesis R_refl : forall env, R env env.
Hypothesis R_trans : forall a b c, R a b -> R b c -> R a c.

Lemma steps_ret {A : Type} (a : A) : steps R (ret a).
Proof. intros s. apply R_refl. Qed.

Lemma steps_bind {A B : Type} (m : M A) (k : A -> M B) :
  steps R m -> (forall a, steps R (k a)) -> steps R (bind m k).
Proof.
  intros Hm Hk s. unfold bind. specialize (Hm s).
  destruct (m s) as [a s1]. cbn [snd] in Hm.
  eapply R_trans; [exact Hm | apply (Hk a s1)].
Qed.

Lemma steps_this : steps R this.
Proof. intros s. apply R_refl. Qed.

Lemma steps_assign f : steps R (assign f).
Proof. intros s. apply R_refl. Qed.

Lemma steps_perform {A : Type} (f : World -> A * World) :
  (forall env, R env (snd (f env))) -> steps R (perform f).
Proof.
  intros Hf [w env]. unfold perform. cbn [fst snd].
  specialize (Hf env). destruct (f env). exact Hf.
Qed.

Lemma steps_or_return {A : Type} (err : option error) (r : error -> M A)
    (k : M A) :
  (forall e, steps R (r e)) -> steps R k -> steps R (or_return err r k).
Proof. intros Hr Hk. destruct err; cbn; auto. Qed.

End Steps.

Ltac steps_tac refl trans :=
  repeat first
    [ progress intros
    | solve [ auto ]
    | apply (steps_ret _ refl)
    | apply (steps_this _ refl)
    | apply (steps_assign _ refl)
    | apply (steps_bind _ trans)
    | apply steps_or_return
    | match goal with
      | |- steps _ (let '(_, _) := ?p in _) => destruct p
      | |- steps _ (if ?b then _ else _) => destruct b
      | |- steps _ (match ?x with _ => _ end) => destruct x
      end ].

Section WorldFrames.

Context (X : Externals).

Lemma quiet_emit_Unmarshal t d : steps quiet (emit (Unmarshal t d)).
Proof. apply steps_perform. intros env. apply quiet_record_Unmarshal. Qed.

Lemma quiet_GetJSON_quirks data shape obj :
  steps quiet (GetJSON_quirks X data shape obj).
Proof.
  pose proof quiet_emit_Unmarshal.
  unfold GetJSON_quirks. steps_tac quiet_refl quiet_trans.
Qed.

Lemma quiet_GetJSON_decode data shape obj :
  steps quiet (GetJSON_decode X data shape obj).
Proof.
  pose proof quiet_emit_Unmarshal. pose proof quiet_GetJSON_quirks.
  unfold GetJSON_decode. steps_tac quiet_refl quiet_trans.
Qed.

Lemma off_store_doRequest req : steps off_store (doRequest req).
Proof.
  assert (H : forall r, steps off_store (perform (client_Do r))).
  { intros r. apply steps_perform. intros env. apply off_store_client_Do. }
  unfold doRequest. steps_tac off_store_refl off_store_trans.
Qed.

(** The value a decode returns does not depend on the state it runs
    in. *)
Lemma GetJSON_decode_value data shape obj s s' :
  fst (GetJSON_decode X data shape obj s) =
  fst (GetJSON_decode X data shape obj s').
Proof.
  unfold GetJSON_decode, GetJSON_quirks. unfold_go.
  destruct (Envelope.Unmarshal data) as [st [e | ]]; cbn; [reflexivity | ].
  destruct (checkResponseStatus (Status st) (Error st)); cbn;
    [reflexivity | ].
  destruct shape; cbn;
    repeat match goal with
    | |- context [json_Unmarshal X ?a ?b ?c] =>
        destruct (json_Unmarshal X a b c) as [? [? | ]]; cbn
    end; reflexivity.
Qed.

Lemma GetJSON_off_store u shape obj w env :
  db w = None ->
  off_store env (snd (snd (GetJSON X u shape obj (w, env)))).
Proof.
  intros Hdb. destruct (loggedIn w) eqn:Hin.
  - rewrite (GetJSON_run X u shape obj w env Hin).
    rewrite (GetJSON_body_uncached X u w env Hdb).
    destruct (http_NewRequest X "GET" u); [apply off_store_refl | ].
    pose proof (off_store_doRequest (GET u) (w, env)) as Hd.
    destruct (doRequest (GET u) (w, env)) as [[data [e | ]] [w1 env1]];
      cbn [snd] in Hd; [exact Hd | ].
    eapply off_store_trans; [exact Hd | ].
    apply quiet_off_store.
    apply (quiet_GetJSON_decode data shape obj (w1, env1)).
  - unfold GetJSON. unfold_go. rewrite Hin. apply off_store_refl.
Qed.

Lemma GetAccount_off_store w env :
  off_store env (snd (snd (GetAccount X (w, env)))).
Proof.
  rewrite GetAccount_run.
  destruct (probe_url X w) as [u [e | ]]; [apply off_store_refl | ].
  pose proof (GetJSON_off_store u AccountResponse
                (zero_value X AccountResponse) (probing w) env eq_refl) as H.
  destruct (GetJSON X u AccountResponse (zero_value X AccountResponse)
              (probing w, env)) as [[ro [e | ]] [w1 env1]];
    cbn [snd] in H; [exact H | ].
  cbv zeta. destruct (checkResponseStatus _ _); exact H.
Qed.

End WorldFrames.

(** ** What loading the cookies and probing leave in the store *)

Section ResumedPath.

Context (X : Externals).

Lemma getCookies_keeps_cookies s :
  cookies (snd (snd (getCookies X s))) = cookies (snd s).
Proof.
  assert (Hr : forall env : World, cookies env = cookies env)
    by reflexivity.
  assert (Ht : forall a b c : World,
             cookies b = cookies a -> cookies c = cookies b ->
             cookies c = cookies a) by (intros; congruence).
  assert (Hq : forall u,
             steps (fun a b => cookies b = cookies a)
               (perform (QueryRow_cookie u))).
  { intros u. apply steps_perform. intros env. unfold QueryRow_cookie.
    destruct (driver env (sql_count env));
      [ | destruct (select_cookie u (cookies env))]; reflexivity. }
  assert (He : forall t d,
             steps (fun a b => cookies b = cookies a) (emit (Unmarshal t d))).
  { intros t d. apply steps_perform. intros env. reflexivity. }
  assert (Hj : forall f : World -> list Cookie,
             steps (fun a b => cookies b = cookies a)
               (perform (fun env => (tt, with_Jar (f env) env)))).
  { intros f. apply steps_perform. intros env. reflexivity. }
  revert s.
  change (steps (fun a b => cookies b = cookies a) (getCookies X)).
  unfold getCookies. steps_tac Hr Ht.
Qed.

Lemma no_exec_getCookies :
  adds (fun e => is_exec e = false) (getCookies X).
Proof. unfold getCookies. adds_tac. Qed.

(** Events appended without any statement being run. *)
Lemma no_sql_added env env' l :
  trace env' = trace env ++ l ->
  sql_count env' = sql_count env ->
  Forall (fun e => is_exec e = false) l.
Proof.
  intros Ht Hc. unfold sql_count in Hc.
  rewrite Ht, filter_app, length_app in Hc.
  assert (Hn : filter is_sql l = []).
  { destruct (filter is_sql l); [reflexivity | cbn in Hc; lia]. }
  clear Ht Hc. induction l as [| e l IH]; constructor.
  - cbn in Hn. destruct e; cbn in *; try reflexivity; discriminate Hn.
  - apply IH. cbn in Hn. destruct (is_sql e); [discriminate Hn | exact Hn].
Qed.

End ResumedPath.

Section LoginPaths.

Context (X : Externals).

Lemma no_post_getCookies : adds no_post (getCookies X).
Proof. unfold getCookies. adds_tac. Qed.

Lemma set_keys_fields a p w :
  baseURL (set_keys a p w) = baseURL w /\
  db (set_keys a p w) = db w /\
  loggedIn (set_keys a p w) = loggedIn w.
Proof. repeat split. Qed.

(** What a successful posting of the credentials leaves. *)
Lemma Login_credentials_success username password w env w' env' :
  Login_credentials X username password (w, env) = (None, (w', env')) ->
  loggedIn w' = true /\
  exists envp envb,
    GetAccount X (set_loggedIn true w, envp) = (None, (w', envb)) /\
    saveCookies X (w', envb) = (None, (w', env')) /\
    In (HTTP (login_request w username password)) (trace env') /\
    (forall h,
       db w = Some h ->
       exists c,
         json_Marshal_cookies X (Jar env') = (c, None) /\
         select_cookie (baseURL w) (cookies env') =
           Some {| url := baseURL w; cookie := c |}).
Proof.
  intros H.
  destruct (Login_credentials_ok X username password w env w' env' H)
    as (envp & wb & envb & Hp & Hacc & Hsave).
  pose proof (GetAccount_client X _ _ _ _ _ Hacc) as (a & p & Hwb).
  pose proof (keeps_saveCookies X (wb, envb)) as Hk.
  rewrite Hsave in Hk. cbn in Hk. subst w'.
  split; [rewrite Hwb; reflexivity | ].
  exists envp, envb. split; [exact Hacc | ]. split; [exact Hsave | ].
  split.
  - destruct (no_post_GetAccount X (set_loggedIn true w, envp))
      as (l1 & E1 & _).
    destruct (no_post_saveCookies X (wb, envb)) as (l2 & E2 & _).
    rewrite Hacc in E1. rewrite Hsave in E2. cbn [fst snd] in E1, E2.
    rewrite E2, E1, Hp. apply in_or_app. left. apply in_or_app. left.
    apply in_or_app. right. left. reflexivity.
  - intros h Hdb.
    assert (Hdb' : db wb = Some h) by (rewrite Hwb; exact Hdb).
    destruct (saveCookies_ok X wb envb h wb env' Hdb' Hsave)
      as (_ & _ & c & Hm & Hsel).
    exists c. split; [exact Hm | ].
    rewrite Hwb in Hsel. exact Hsel.
Qed.

(** The posting of the credentials sends its request first. *)
Lemma Login_credentials_sends username password w env :
  http_NewRequest X "POST" (String.append (baseURL w) "login.php") = None ->
  exists rest,
    trace (snd (snd (Login_credentials X username password (w, env)))) =
    trace env ++ HTTP (login_request w username password) :: rest.
Proof.
  intros Hreq. rewrite (Login_credentials_run X username password w env Hreq).
  pose proof (client_Do_trace (login_request w username password) env) as Ht.
  destruct (client_Do (login_request w username password) env)
    as [[m | resp] env1]; cbn [snd] in Ht.
  { exists []. exact Ht. }
  destruct (negb (Bytes.Contains (RequestURL resp) "index")).
  { exists []. exact Ht. }
  destruct (no_post_GetAccount X (set_loggedIn true w, env1))
    as (l1 & E1 & _).
  destruct (GetAccount X (set_loggedIn true w, env1)) as [[e | ] [w2 env2]];
    cbn [fst snd] in E1.
  { exists l1. cbn [snd]. rewrite E1, Ht, <- app_assoc. reflexivity. }
  destruct (no_post_saveCookies X (w2, env2)) as (l2 & E2 & _).
  cbn [snd] in E2.
  exists (l1 ++ l2). rewrite E2, E1, Ht, <- !app_assoc. reflexivity.
Qed.

End LoginPaths.

(** C2, as the code has it.  When [Login] returns nil, the client is
    logged in and [authkey] and [passkey] are those a successful run of
    [GetAccount] has set.  Either the session was resumed from the
    stored cookies: then that run's world is the final one, the cookie
    table is what it was before the call, no [Exec] statement was run,
    and nothing but [GET] requests without form went out; or the
    credentials were posted: then [saveCookies] ran after the probe and
    returned nil, and on a client with a database the record stored
    under the base URL is the JSON form of the jar as [Login] leaves
    it. *)
Theorem Login_success_probes_and_saves :
  forall (X : Externals) username password w env w' env',
    Login X username password (w, env) = (None, (w', env')) ->
    loggedIn w' = true /\
    exists wa enva wb envb,
      GetAccount X (wa, enva) = (None, (wb, envb)) /\
      baseURL wa = baseURL w /\
      authkey w' = authkey wb /\ passkey w' = passkey wb /\
      ((db w <> None /\ envb = env' /\
        cookies env' = cookies env /\
        exists l,
          trace env' = trace env ++ l /\ Forall no_post l /\
          Forall (fun e => is_exec e = false) l)
       \/
       (In (HTTP (login_request w username password)) (trace env') /\
        saveCookies X (wb, envb) = (None, (w', env')) /\
        forall h,
          db w = Some h ->
          exists c,
            json_Marshal_cookies X (Jar env') = (c, None) /\
            select_cookie (baseURL w) (cookies env') =
              Some {| url := baseURL w; cookie := c |})).
Proof.
  intros X username password w env w' env' H.
  destruct (db w) as [h | ] eqn:Hdb.
  - rewrite (Login_run_db X username password w env h Hdb) in H.
    pose proof (keeps_getCookies X (w, env)) as Hk1.
    pose proof (getCookies_keeps_cookies X (w, env)) as Hck.
    destruct (no_post_getCookies X (w, env)) as (l1 & E1 & F1).
    destruct (no_exec_getCookies X (w, env)) as (l1' & E1' & F1').
    destruct (getCookies X (w, env)) as [[e | ] [w1 env1]];
      [discriminate H | ].
    cbn [fst snd] in Hk1, Hck, E1, E1'. subst w1.
    rewrite E1 in E1'. apply app_inv_head in E1'. subst l1'.
    destruct (no_post_GetAccount X (w, env1)) as (l2 & E2 & F2).
    pose proof (GetAccount_off_store X w env1) as Hoff.
    destruct (GetAccount X (w, env1)) as [[e | ] [w2 env2]] eqn:Hacc;
      cbn [fst snd] in E2, Hoff.
    + pose proof (GetAccount_client X _ _ _ _ _ Hacc) as Hw2.
      cbn in Hw2. subst w2.
      pose proof (keeps_clearCookies X (w, env2)) as Hk3.
      destruct (clearCookies X (w, env2)) as [[e' | ] [w3 env3]];
        [discriminate H | ].
      cbn in Hk3. subst w3.
      destruct (Login_credentials_success X username password w env3 w' env' H)
        as (Hin & envp & envb & Hacc' & Hsave & Hsent & Hstored).
      split; [exact Hin | ].
      exists (set_loggedIn true w), envp, w', envb.
      split; [exact Hacc' | ]. repeat split.
      right. split; [exact Hsent | ]. split; [exact Hsave | ].
      intros h' Hh'. apply (Hstored h'). congruence.
    + injection H as Hw He. subst w' env'.
      destruct (GetAccount_client X _ _ _ _ _ Hacc) as (a & p & Hw2).
      split; [rewrite Hw2; reflexivity | ].
      exists w, env1, w2, env2.
      split; [exact Hacc | ]. repeat split.
      left. split; [discriminate | ]. split; [reflexivity | ].
      destruct Hoff as (_ & Hc2 & Hs2 & _).
      split; [rewrite Hc2; exact Hck | ].
      exists (l1 ++ l2). rewrite E2, E1, app_assoc.
      split; [reflexivity | ].
      split; apply Forall_app; split; auto.
      apply (no_sql_added env1 env2 l2 E2 Hs2).
  - rewrite (Login_run_nil_db X username password w env Hdb) in H.
    destruct (Login_credentials_success X username password w env w' env' H)
      as (Hin & envp & envb & Hacc' & Hsave & Hsent & Hstored).
    split; [exact Hin | ].
    exists (set_loggedIn true w), envp, w', envb.
    split; [exact Hacc' | ]. repeat split.
    right. split; [exact Hsent | ]. split; [exact Hsave | ].
    intros h' Hh'. apply (Hstored h'). congruence.
Qed.

Lemma Login_success_probes_and_saves_witness :
  let w := Sample.anonymous (Some Database) in
  let env := Sample.world Sample.tracker [] [] [] in
  let r := Login Sample.X "alice" "secret" (w, env) in
  Login Sample.X "alice" "secret" (w, env) = (None, snd r) /\
  loggedIn (fst (snd r)) = true /\
  authkey (fst (snd r)) = "ak"%string /\
  passkey (fst (snd r)) = "pk"%string /\
  Jar (snd (snd r)) = [Sample.session "s2"] /\
  option_map cookie (select_cookie Sample.site (cookies (snd (snd r)))) =
    Some (fst (Sample.marshal_cookies [Sample.session "s2"])).
Proof.
  intros w env r.
  assert (H : Login Sample.X "alice" "secret" (w, env) =
              (None, (fst (snd r), snd (snd r)))) by (lazy; reflexivity).
  split; [lazy; reflexivity | ].
  destruct (Login_success_probes_and_saves Sample.X "alice" "secret" w env
              (fst (snd r)) (snd (snd r)) H) as [Hin _].
  split; [exact Hin | ]. repeat split; lazy; reflexivity.
Defined.

(** C2, as the claim has it, fails on the resumed path.  The store
    holds the cookie of an earlier session; [Login] loads it, the probe
    succeeds and the tracker renews the cookie; [Login] returns nil
    without a single write: the record is still the old cookie, not the
    jar. *)
Lemma Login_resumed_does_not_save :
  let w := Sample.anonymous (Some Database) in
  let record1 := {| url := Sample.site;
                    cookie := fst (Sample.marshal_cookies [Sample.session "s1"]) |} in
  let env := Sample.world Sample.tracker [] [record1] [] in
  let r := Login Sample.X "alice" "secret" (w, env) in
  fst r = None /\
  Jar (snd (snd r)) = [Sample.session "s2"] /\
  cookies (snd (snd r)) = [record1] /\
  fst (Sample.marshal_cookies (Jar (snd (snd r)))) <> cookie record1 /\
  filter is_sql (trace (snd (snd r))) =
    [SQLQuery stmt_select_cookie [Sample.site]].
Proof. vm_compute. repeat split. discriminate. Qed.

(** C8. On a client with a database whose store holds a cookie record
    for the base URL that the driver returns and that decodes, [Login]
    puts the cookies in the jar and runs the probe.
    - If the probe succeeds, [Login] returns nil on the probe's client,
      now logged in, in the probe's world: since the call began nothing
      but [GET] requests without form has gone out.
    - If the probe fails and the driver then runs the write of the
      empty jar, the jar is empty, the record under the base URL is the
      JSON form of the empty jar, and [Login] goes on as
      [Login_credentials] from there: when the request can be built,
      the next event is the [POST] of the user name and password. *)
Theorem Login_resumes_from_saved_cookies :
  forall (X : Externals) username password w env h row cs n e,
    db w = Some h ->
    select_cookie (baseURL w) (cookies env) = Some row ->
    driver env (sql_count env) = Executes n e ->
    json_Unmarshal_cookies X (cookie row) = (cs, None) ->
    let env1 := loaded w (cookie row) cs env in
    (forall w2 env2,
       GetAccount X (w, env1) = (None, (w2, env2)) ->
       Login X username password (w, env) =
         (None, (set_loggedIn true w2, env2)) /\
       exists l, trace env2 = trace env ++ l /\ Forall no_post l)
    /\
    (forall e2 w2 env2 c0 n' e',
       GetAccount X (w, env1) = (Some e2, (w2, env2)) ->
       json_Marshal_cookies X [] = (c0, None) ->
       driver env2 (sql_count env2) = Executes n' e' ->
       let env3 := saved w c0 (with_Jar [] env2) in
       Jar env3 = [] /\
       select_cookie (baseURL w) (cookies env3) =
         Some {| url := baseURL w; cookie := c0 |} /\
       Login X username password (w, env) =
         Login_credentials X username password (w, env3) /\
       (http_NewRequest X "POST" (String.append (baseURL w) "login.php")
          = None ->
        exists rest,
          trace (snd (snd (Login X username password (w, env)))) =
          trace env3 ++ HTTP (login_request w username password) :: rest)).
Proof.
  intros X username password w env h row cs n e Hdb Hrow Hd Hcs env1.
  assert (Hget : getCookies X (w, env) = (None, (w, env1))).
  { rewrite (getCookies_run X w env h Hdb), Hd, Hrow, Hcs. reflexivity. }
  split.
  - intros w2 env2 Hacc.
    split.
    + rewrite (Login_run_db X username password w env h Hdb), Hget, Hacc.
      reflexivity.
    + destruct (no_post_getCookies X (w, env)) as (l1 & E1 & F1).
      destruct (no_post_GetAccount X (w, env1)) as (l2 & E2 & F2).
      rewrite Hget in E1. rewrite Hacc in E2. cbn [fst snd] in E1, E2.
      exists (l1 ++ l2). rewrite E2, E1, app_assoc.
      split; [reflexivity | apply Forall_app; auto].
  - intros e2 w2 env2 c0 n' e' Hacc Hm Hd2 env3.
    pose proof (GetAccount_client X _ _ _ _ _ Hacc) as Hw2.
    cbn in Hw2. subst w2.
    assert (Hclear : clearCookies X (w, env2) = (None, (w, env3))).
    { rewrite clearCookies_run, (saveCookies_run X w _ h Hdb).
      cbn [Jar with_Jar]. rewrite Hm.
      change (driver (with_Jar [] env2) (sql_count (with_Jar [] env2)))
        with (driver env2 (sql_count env2)).
      rewrite Hd2. reflexivity. }
    assert (Hlogin : Login X username password (w, env) =
                     Login_credentials X username password (w, env3)).
    { rewrite (Login_run_db X username password w env h Hdb), Hget, Hacc,
        Hclear. reflexivity. }
    split; [reflexivity | ].
    split.
    { unfold env3, saved. cbn [cookies with_cookies].
      apply (select_cookie_replace {| url := baseURL w; cookie := c0 |}). }
    split; [exact Hlogin | ].
    intros Hreq. rewrite Hlogin.
    apply Login_credentials_sends. exact Hreq.
Qed.

Lemma Login_resumes_from_saved_cookies_witness :
  let w := Sample.anonymous (Some Database) in
  let live := {| url := Sample.site;
                 cookie := fst (Sample.marshal_cookies [Sample.session "s1"]) |} in
  let dead := {| url := Sample.site;
                 cookie := fst (Sample.marshal_cookies [Sample.session "gone"]) |} in
  let env := Sample.world Sample.tracker [] [live] [] in
  let env' := Sample.world Sample.tracker [] [dead] [] in
  let r := Login Sample.X "alice" "secret" (w, env) in
  let r' := Login Sample.X "alice" "secret" (w, env') in
  db w = Some Database /\
  select_cookie (baseURL w) (cookies env) = Some live /\
  driver env (sql_count env) = Executes 1 None /\
  fst r = None /\ loggedIn (fst (snd r)) = true /\
  filter is_http (trace (snd (snd r))) =
    [HTTP (sent w (String.append Sample.site "ajax.php?action=index"))] /\
  select_cookie (baseURL w) (cookies env') = Some dead /\
  exists env3 rest,
    Jar env3 = [] /\
    select_cookie (baseURL w) (cookies env3) =
      Some {| url := baseURL w; cookie := "null" |} /\
    trace (snd (snd r')) =
    trace env3 ++ HTTP (login_request w "alice" "secret") :: rest.
Proof.
  intros w live dead env env' r r'.
  pose (p := GetAccount Sample.X
               (w, loaded w (cookie live) [Sample.session "s1"] env)).
  pose (q := GetAccount Sample.X
               (w, loaded w (cookie dead) [Sample.session "gone"] env')).
  assert (Hrow : select_cookie (baseURL w) (cookies env) = Some live)
    by (lazy; reflexivity).
  assert (Hrow' : select_cookie (baseURL w) (cookies env') = Some dead)
    by (lazy; reflexivity).
  assert (Hcs : json_Unmarshal_cookies Sample.X (cookie live) =
                ([Sample.session "s1"], None)) by (lazy; reflexivity).
  assert (Hcs' : json_Unmarshal_cookies Sample.X (cookie dead) =
                 ([Sample.session "gone"], None)) by (lazy; reflexivity).
  assert (Hp : p = (None, (fst (snd p), snd (snd p))))
    by (lazy; reflexivity).
  assert (Hq : q = (Some json_SyntaxError, (fst (snd q), snd (snd q))))
    by (lazy; reflexivity).
  assert (Hd2 : driver (snd (snd q)) (sql_count (snd (snd q))) =
                Executes 1 None) by (lazy; reflexivity).
  assert (Hreq : http_NewRequest Sample.X "POST"
                   (String.append (baseURL w) "login.php") = None)
    by (lazy; reflexivity).
  destruct (Login_resumes_from_saved_cookies Sample.X "alice" "secret" w env
              Database live [Sample.session "s1"] 1%Z None
              eq_refl Hrow eq_refl Hcs) as [Hresume _].
  destruct (Hresume (fst (snd p)) (snd (snd p)) Hp) as [Hlogin _].
  destruct (Login_resumes_from_saved_cookies Sample.X "alice" "secret" w env'
              Database dead [Sample.session "gone"] 1%Z None
              eq_refl Hrow' eq_refl Hcs') as [_ Hfresh].
  destruct (Hfresh json_SyntaxError (fst (snd q)) (snd (snd q)) "null"%string
              1%Z None Hq eq_refl Hd2)
    as (Hjar & Hsel & _ & Hpost).
  destruct (Hpost Hreq) as [rest Hrest].
  split; [reflexivity | ]. split; [exact Hrow | ].
  split; [reflexivity | ].
  split; [unfold r; rewrite Hlogin; reflexivity | ].
  split; [unfold r; rewrite Hlogin; reflexivity | ].
  split; [unfold r; rewrite Hlogin; lazy; reflexivity | ].
  split; [exact Hrow' | ].
  eexists. exists rest. split; [exact Hjar | ]. split; [exact Hsel | ].
  exact Hrest.
Defined.

(** * Further properties *)


(** X1. Without a database a dispatch never reads or writes the store:
    whatever it returns, both tables are as they were and no statement
    was run. *)
Theorem GetJSON_without_database_leaves_store :
  forall (X : Externals) u shape obj w env,
    db w = None ->
    let env' := snd (snd (GetJSON X u shape obj (w, env))) in
    urlcache env' = urlcache env /\ cookies env' = cookies env /\
    sql_count env' = sql_count env.
Proof.
  intros X u shape obj w env Hdb env'.
  destruct (GetJSON_off_store X u shape obj w env Hdb) as (H1 & H2 & H3 & _).
  auto.
Qed.

Lemma GetJSON_without_database_leaves_store_witness :
  let w := Sample.alice None in
  let env := Sample.world Sample.tracker [Sample.stale_row] []
               [Sample.session "s1"] in
  let env' := snd (snd (GetJSON Sample.X Sample.artist_url ArtistResponse
                          JSON.JNull (w, env))) in
  db w = None /\
  http_count env' = 1%nat /\
  urlcache env' = [Sample.stale_row] /\ sql_count env' = 0%nat.
Proof.
  intros w env env'. split; [reflexivity | ].
  split; [lazy; reflexivity | ].
  destruct (GetJSON_without_database_leaves_store Sample.X Sample.artist_url
              ArtistResponse JSON.JNull w env eq_refl) as (H1 & _ & H3).
  split; [exact H1 | exact H3].
Defined.

(** X2. The account probe never uses the store, database or not: after
    [GetAccount], whatever it returns, both tables are as they were and
    no statement was run (the source: don't cache login results). *)
Theorem GetAccount_bypasses_store :
  forall (X : Externals) w env,
    let env' := snd (snd (GetAccount X (w, env))) in
    urlcache env' = urlcache env /\ cookies env' = cookies env /\
    sql_count env' = sql_count env.
Proof.
  intros X w env env'.
  destruct (GetAccount_off_store X w env) as (H1 & H2 & H3 & _). auto.
Qed.

(** ** Fetching *)

Section Fetching.

Context (X : Externals).

Lemma doRequest_run req w env :
  doRequest req (w, env) =
  match client_Do (set_header "User-Agent" (userAgent w) req) env with
  | (Failed m, env1) => ((EmptyString, Some (TransportError m)), (w, env1))
  | (Answered resp, env1) =>
      if negb (StatusCode resp =? 200)%Z
      then ((EmptyString,
             Some (errRequestFailedReason
                     (String.append "Status Code " (StatusText resp)))),
            (w, env1))
      else
        match ReadAll resp with
        | (_, Some m) => ((EmptyString, Some (ReadError m)), (w, env1))
        | (data, None) => ((data, None), (w, env1))
        end
  end.
Proof.
  unfold doRequest. unfold_go.
  destruct (client_Do (set_header "User-Agent" (userAgent w) req) env)
    as [[m | resp] env1]; cbn; [reflexivity | ].
  destruct (negb (StatusCode resp =? 200)%Z); cbn; [reflexivity | ].
  destruct (ReadAll resp) as [data [m | ]]; reflexivity.
Qed.

(** A dispatch past the gate that does not take its body from the
    cache: the request, then the write, then the decode. *)
Lemma GetJSON_fetches u shape obj w env d err env1 :
  loggedIn w = true ->
  cachedResponse u (w, env) = ((d, err), (w, env1)) ->
  is_nil (db w) || is_ErrNoRows err = true ->
  http_NewRequest X "GET" u = None ->
  GetJSON X u shape obj (w, env) =
  match doRequest (GET u) (w, env1) with
  | ((_, Some e), s1) => ((obj, Some e), s1)
  | ((data, None), s1) =>
      match updateCache u data s1 with
      | (Some e, s2) => ((obj, Some e), s2)
      | (None, s2) => GetJSON_decode X data shape obj s2
      end
  end.
Proof.
  intros Hin Hc Hmiss Hreq.
  rewrite (GetJSON_run X u shape obj w env Hin).
  unfold GetJSON_body. unfold_go. rewrite Hc. cbn. rewrite Hmiss, Hreq. cbn.
  destruct (doRequest (GET u) (w, env1)) as [[data [e | ]] s1]; cbn;
    [reflexivity | ].
  destruct (updateCache u data s1) as [[e | ] s2]; reflexivity.
Qed.

(** The lookup changes no table. *)
Lemma cachedResponse_tables u w env :
  urlcache (snd (snd (cachedResponse u (w, env)))) = urlcache env.
Proof.
  unfold cachedResponse, QueryRow_urlcache. unfold_go.
  destruct (is_nil (db w)); cbn; [reflexivity | ].
  destruct (driver env (sql_count env)); cbn; [reflexivity | ].
  destruct (select_cache u (urlcache env)); cbn; [ | reflexivity].
  destruct (Bytes.is_empty (body c) || _); reflexivity.
Qed.

End Fetching.

(** X3. A fetch that fails is reported as such and leaves the cache
    alone.  For a dispatch past the gate that goes to the network (no
    database, or a miss) and can build its request:
    - a transport failure is returned as it is;
    - an answer with a status other than 200 is returned as
      [errRequestFailedReason] with the text [Status Code] and the
      status line;
    - a body that cannot be read is returned as the read error.
    In each case [responseObj] is untouched, nothing is decoded, and
    the [urlcache] table is what it was before the dispatch. *)
Theorem GetJSON_failed_fetch :
  forall (X : Externals) u shape obj w env d err env1,
    loggedIn w = true ->
    cachedResponse u (w, env) = ((d, err), (w, env1)) ->
    is_nil (db w) || is_ErrNoRows err = true ->
    http_NewRequest X "GET" u = None ->
    let out := server env1 (http_count env1) (sent w u) (Jar env1) in
    let env2 := snd (client_Do (sent w u) env1) in
    urlcache env2 = urlcache env /\
    (forall m,
       out = Failed m ->
       GetJSON X u shape obj (w, env) =
       ((obj, Some (TransportError m)), (w, env2))) /\
    (forall resp,
       out = Answered resp -> StatusCode resp <> 200%Z ->
       GetJSON X u shape obj (w, env) =
       ((obj, Some (errRequestFailedReason
                      (String.append "Status Code " (StatusText resp)))),
        (w, env2))) /\
    (forall resp data m,
       out = Answered resp -> StatusCode resp = 200%Z ->
       ReadAll resp = (data, Some m) ->
       GetJSON X u shape obj (w, env) =
       ((obj, Some (ReadError m)), (w, env2))).
Proof.
  intros X u shape obj w env d err env1 Hin Hc Hmiss Hreq out env2.
  pose proof (GetJSON_fetches X u shape obj w env d err env1 Hin Hc Hmiss Hreq)
    as G.
  rewrite doRequest_run in G. fold (sent w u) in G.
  split.
  { unfold env2. destruct (off_store_client_Do (sent w u) env1) as [H _].
    rewrite H. pose proof (cachedResponse_tables u w env) as T.
    rewrite Hc in T. exact T. }
  unfold env2, out. unfold client_Do in *.
  split; [ | split].
  - intros m Hout. rewrite Hout in *. exact G.
  - intros resp Hout Hst. rewrite Hout in *. cbn [snd].
    destruct (Z.eqb_spec (StatusCode resp) 200); [contradiction | ].
    exact G.
  - intros resp data m Hout Hst Hread. rewrite Hout in *. cbn [snd].
    rewrite Hst, Hread in G. exact G.
Qed.

Lemma GetJSON_failed_fetch_witness :
  let w := Sample.alice None in
  let env := Sample.world Sample.unreachable [] [] [] in
  let u := Sample.artist_url in
  loggedIn w = true /\
  cachedResponse u (w, env) = ((EmptyString, None), (w, env)) /\
  fst (GetJSON Sample.X u ArtistResponse JSON.JNull (w, env)) =
  (JSON.JNull, Some (TransportError "dial tcp: connection refused")).
Proof.
  intros w env u.
  assert (Hc : cachedResponse u (w, env) = ((EmptyString, None), (w, env)))
    by (lazy; reflexivity).
  split; [reflexivity | ]. split; [exact Hc | ].
  destruct (GetJSON_failed_fetch Sample.X u ArtistResponse JSON.JNull w env
              EmptyString None env eq_refl Hc eq_refl eq_refl)
    as (_ & Hfail & _).
  rewrite (Hfail "dial tcp: connection refused"%string eq_refl).
  reflexivity.
Defined.

(** X4. A body that was fetched but could not be written to the cache
    is not handed to the caller.  After a successful fetch on a client
    with a database: if the driver fails the [REPLACE], its error is
    returned; if the driver runs it but reports a row count other than
    1, or cannot report one, an error is returned although the row is
    now in the table.  In both cases [responseObj] is untouched and
    nothing is decoded. *)
Theorem GetJSON_cache_write_failure :
  forall (X : Externals) u shape obj w env h d env1 resp data,
    loggedIn w = true ->
    db w = Some h ->
    cachedResponse u (w, env) = ((d, Some sql_ErrNoRows), (w, env1)) ->
    http_NewRequest X "GET" u = None ->
    server env1 (http_count env1) (sent w u) (Jar env1) = Answered resp ->
    StatusCode resp = 200%Z ->
    ReadAll resp = (data, None) ->
    let env2 := snd (client_Do (sent w u) env1) in
    (forall m,
       driver env2 (sql_count env2) = Fails m ->
       GetJSON X u shape obj (w, env) =
       ((obj, Some (StoreError m)),
        (w, record (SQLExec stmt_replace_urlcache [u; data]) env2)))
    /\
    (forall rows rowsErr,
       driver env2 (sql_count env2) = Executes rows rowsErr ->
       rows <> 1%Z \/ rowsErr <> None ->
       exists e,
         GetJSON X u shape obj (w, env) =
         ((obj, Some e), (w, written u data env2))).
Proof.
  intros X u shape obj w env h d env1 resp data Hin Hdb Hc Hreq Hout Hst
    Hread env2.
  assert (Hmiss : is_nil (db w) || is_ErrNoRows (Some sql_ErrNoRows) = true)
    by apply orb_true_r.
  pose proof (GetJSON_fetches X u shape obj w env d _ env1 Hin Hc Hmiss Hreq)
    as G.
  rewrite doRequest_run in G. fold (sent w u) in G.
  assert (E : client_Do (sent w u) env1 = (Answered resp, env2)).
  { unfold env2, client_Do. rewrite Hout. reflexivity. }
  rewrite E, Hst, Hread in G. cbn [negb Z.eqb Pos.eqb] in G.
  rewrite (updateCache_run u data w env2 h Hdb) in G. cbv zeta in G.
  split.
  - intros m Hd. rewrite Hd in G. exact G.
  - intros rows rowsErr Hd Hbad. rewrite Hd in G.
    destruct rowsErr as [m | ].
    + eexists. exact G.
    + destruct Hbad as [Hrows | Hnone]; [ | contradiction].
      destruct (Z.eqb_spec rows 1); [contradiction | ].
      eexists. exact G.
Qed.

(** X5. An error of the store on the lookup is not a miss: when the
    driver fails the [SELECT], a dispatch past the gate returns that
    error and sends nothing. *)
Theorem GetJSON_store_read_error :
  forall (X : Externals) u shape obj w env h m,
    loggedIn w = true ->
    db w = Some h ->
    driver env (sql_count env) = Fails m ->
    GetJSON X u shape obj (w, env) =
    ((obj, Some (StoreError m)),
     (w, record (SQLQuery stmt_select_urlcache [u]) env)).
Proof.
  intros X u shape obj w env h m Hin Hdb Hd.
  rewrite (GetJSON_run X u shape obj w env Hin).
  unfold GetJSON_body. unfold_go.
  rewrite (cachedResponse_run u w env h Hdb), Hd. cbn. rewrite Hdb.
  reflexivity.
Qed.

Lemma GetJSON_cache_write_failure_witness :
  let w := Sample.alice (Some Database) in
  let env := Scenario.with_driver Scenario.disk_full
               (Sample.world Sample.tracker [] [] [Sample.session "s1"]) in
  let u := Sample.artist_url in
  let r := GetJSON Sample.X u ArtistResponse JSON.JNull (w, env) in
  loggedIn w = true /\ db w = Some Database /\
  fst r = (JSON.JNull, Some (StoreError "database or disk is full")) /\
  urlcache (snd (snd r)) = [].
Proof.
  intros w env u r.
  pose (env1 := record (SQLQuery stmt_select_urlcache [u]) env).
  assert (Hc : cachedResponse u (w, env) =
               ((EmptyString, Some sql_ErrNoRows), (w, env1)))
    by (lazy; reflexivity).
  assert (Hout : server env1 (http_count env1) (sent w u) (Jar env1) =
                 Sample.ok Sample.artist_body u []) by (lazy; reflexivity).
  split; [reflexivity | ]. split; [reflexivity | ].
  destruct (GetJSON_cache_write_failure Sample.X u ArtistResponse JSON.JNull
              w env Database EmptyString env1 _ Sample.artist_body
              eq_refl eq_refl Hc eq_refl Hout eq_refl eq_refl) as [Hfail _].
  unfold r. rewrite (Hfail "database or disk is full"%string);
    [ | lazy; reflexivity].
  split; reflexivity.
Defined.

Lemma GetJSON_store_read_error_witness :
  let w := Sample.alice (Some Database) in
  let env := Scenario.with_driver Scenario.broken
               (Sample.world Sample.tracker [Sample.fresh_row] []
                  [Sample.session "s1"]) in
  let r := GetJSON Sample.X Sample.artist_url ArtistResponse JSON.JNull (w, env) in
  loggedIn w = true /\ db w = Some Database /\
  driver env (sql_count env) = Fails "database is locked" /\
  fst r = (JSON.JNull, Some (StoreError "database is locked")) /\
  http_count (snd (snd r)) = 0%nat.
Proof.
  intros w env r. repeat (split; [reflexivity | ]).
  unfold r.
  rewrite (GetJSON_store_read_error Sample.X Sample.artist_url ArtistResponse
             JSON.JNull w env Database "database is locked"
             eq_refl eq_refl eq_refl).
  split; reflexivity.
Defined.

(** ** Writing, then reading *)

Lemma select_cache_replace r t :
  select_cache (requesturl r) (replace_cache_row r t) = Some r.
Proof.
  unfold select_cache, replace_cache_row.
  induction t as [| x t IH]; cbn.
  - rewrite String.eqb_refl. reflexivity.
  - destruct (String.eqb (requesturl x) (requesturl r)) eqn:E; cbn;
      [exact IH | ].
    rewrite E. exact IH.
Qed.

Lemma select_cache_written u data env :
  select_cache u (urlcache (written u data env)) =
  Some {| requesturl := u; body := data; timestamp := datetime_now env |}.
Proof.
  unfold written. cbn [urlcache with_urlcache].
  apply (select_cache_replace
           {| requesturl := u; body := data; timestamp := datetime_now env |}).
Qed.

(** X6. What [updateCache] writes, [cachedResponse] reads back.  On a
    client with a database whose driver runs both statements, after a
    write of [data] under a URL, whatever row count the driver
    reported: the lookup of that URL returns [data] if it is not empty
    and the time since the second of the write is within [cacheFor];
    it reports [sql.ErrNoRows] if [data] is empty, and also if that
    time exceeds [cacheFor]. *)
Theorem cachedResponse_after_updateCache :
  forall u data w env h n e n' e',
    db w = Some h ->
    driver env (sql_count env) = Executes n e ->
    driver env (S (sql_count env)) = Executes n' e' ->
    let env1 := written u data env in
    let env2 := record (SQLQuery stmt_select_urlcache [u]) env1 in
    snd (updateCache u data (w, env)) = (w, env1) /\
    (data <> EmptyString ->
     (time_Since (datetime_now env) env2 <= cacheFor w)%Z ->
     cachedResponse u (w, env1) = ((data, None), (w, env2))) /\
    (data = EmptyString ->
     cachedResponse u (w, env1) =
     ((EmptyString, Some sql_ErrNoRows), (w, env2))) /\
    ((time_Since (datetime_now env) env2 > cacheFor w)%Z ->
     cachedResponse u (w, env1) =
     ((EmptyString, Some sql_ErrNoRows), (w, env2))).
Proof.
  intros u data w env h n e n' e' Hdb Hd Hd' env1 env2.
  split; [apply (updateCache_executed u data w env h n e Hdb Hd) | ].
  assert (R : cachedResponse u (w, env1) =
              if Bytes.is_empty data
                 || (time_Since (datetime_now env) env2 >? cacheFor w)%Z
              then ((EmptyString, Some sql_ErrNoRows), (w, env2))
              else ((data, None), (w, env2))).
  { rewrite (cachedResponse_run u w env1 h Hdb). unfold env1.
    rewrite written_next, Hd'. cbv zeta.
    rewrite select_cache_written. reflexivity. }
  split; [ | split].
  - intros Hne Hfresh. rewrite R.
    assert (H1 : Bytes.is_empty data = false)
      by (destruct data; [contradiction | reflexivity]).
    assert (H2 : (time_Since (datetime_now env) env2 >? cacheFor w)%Z = false)
      by (rewrite Z.gtb_ltb; apply Z.ltb_ge; lia).
    rewrite H1, H2. reflexivity.
  - intros ->. rewrite R. reflexivity.
  - intros Hold. rewrite R.
    assert (H2 : (time_Since (datetime_now env) env2 >? cacheFor w)%Z = true)
      by (apply Z.gtb_lt; lia).
    rewrite H2, orb_true_r. reflexivity.
Qed.

Lemma cachedResponse_after_updateCache_witness :
  let w := Sample.alice (Some Database) in
  let env := Scenario.with_driver Scenario.counts_two
               (Sample.world Sample.tracker [Sample.stale_row] [] []) in
  let u := Sample.artist_url in
  let r := updateCache u "fresh" (w, env) in
  db w = Some Database /\
  driver env (sql_count env) = Executes 2 None /\
  fst r = Some (fmt_Errorf "INSERT affected 2 rows, expected 1") /\
  fst (cachedResponse u (snd r)) = ("fresh"%string, None).
Proof.
  intros w env u r. split; [reflexivity | ]. split; [reflexivity | ].
  split; [lazy; reflexivity | ].
  destruct (cachedResponse_after_updateCache u "fresh" w env Database
              2%Z None 2%Z None eq_refl eq_refl eq_refl)
    as (Hw & Hhit & _).
  unfold r. rewrite Hw, Hhit; [reflexivity | discriminate | ].
  lazy. discriminate.
Defined.

Section Repeat.

Context (X : Externals).

(** When [GetJSON] has its body, on a client with a database, that
    body is what the table holds under the URL. *)
Lemma GetJSON_body_caches u w env h data w1 env1 :
  db w = Some h ->
  GetJSON_body X u (w, env) = ((data, None), (w1, env1)) ->
  w1 = w /\
  exists row, select_cache u (urlcache env1) = Some row /\ body row = data.
Proof.
  intros Hdb H.
  pose proof (keeps_GetJSON_body X u (w, env)) as Hk.
  rewrite H in Hk. cbn in Hk. split; [exact Hk | ]. subst w1.
  pose proof (cachedResponse_run u w env h Hdb) as Hc. cbv zeta in Hc.
  set (envq := record (SQLQuery stmt_select_urlcache [u]) env) in *.
  assert (Miss : cachedResponse u (w, env) =
                 ((EmptyString, Some sql_ErrNoRows), (w, envq)) ->
                 exists row,
                   select_cache u (urlcache env1) = Some row /\
                   body row = data).
  { intros Hm. rewrite (GetJSON_body_miss X u w env _ envq Hm) in H.
    destruct (http_NewRequest X "GET" u); [discriminate H | ].
    pose proof (keeps_doRequest (GET u) (w, envq)) as Hk2.
    destruct (doRequest (GET u) (w, envq)) as [[data' [e | ]] [w2 env2]];
      [discriminate H | ].
    cbn in Hk2. subst w2.
    rewrite (updateCache_run u data' w env2 h Hdb) in H. cbv zeta in H.
    destruct (driver env2 (sql_count env2)) as [m | rows [m | ]];
      try discriminate H.
    destruct (rows =? 1)%Z; [ | discriminate H].
    injection H as Hdata Henv. subst data' env1.
    eexists. split; [apply select_cache_written | reflexivity]. }
  destruct (driver env (sql_count env)) as [m | n e].
  { unfold GetJSON_body in H. unfold_go. rewrite Hc in H. cbn in H.
    rewrite Hdb in H. discriminate H. }
  destruct (select_cache u (urlcache env)) as [r | ] eqn:Hsel;
    [ | exact (Miss Hc)].
  destruct (Bytes.is_empty (body r) || _); [exact (Miss Hc) | ].
  rewrite (GetJSON_body_hit X u w env h (body r) envq Hdb Hc) in H.
  injection H as Hdata Henv. subst data env1.
  exists r. split; [exact Hsel | reflexivity].
Qed.

End Repeat.

(** X7. A repeated dispatch is served from the cache as long as the
    row counts as fresh.  Let a dispatch on a logged-in client with a
    database have obtained a non-empty body (from the cache or from the
    network).  Make the same dispatch right after it, and suppose the
    driver runs the query and the time elapsed since the timestamp the
    row carries is at most [cacheFor].  (The timestamp is the whole
    second in which the row was written, so this time can exceed the
    time since the write by up to a second.)  Then the repeat returns
    what the first dispatch returned, be it a decoded value, a decode
    error or an [APIError], sends no request and leaves the table as it
    is. *)
Theorem GetJSON_repeat_served_from_cache :
  forall (X : Externals) u shape obj w env h data s1 n e,
    loggedIn w = true ->
    db w = Some h ->
    GetJSON_body X u (w, env) = ((data, None), s1) ->
    data <> EmptyString ->
    let r1 := GetJSON X u shape obj (w, env) in
    let env2 := snd (snd r1) in
    driver env2 (sql_count env2) = Executes n e ->
    (forall row,
       select_cache u (urlcache env2) = Some row ->
       (time_Since (timestamp row)
          (record (SQLQuery stmt_select_urlcache [u]) env2) <= cacheFor w)%Z) ->
    let r2 := GetJSON X u shape obj (snd r1) in
    fst r2 = fst r1 /\
    http_count (snd (snd r2)) = http_count env2 /\
    urlcache (snd (snd r2)) = urlcache env2.
Proof.
  intros X u shape obj w env h data [w1 env1] n e Hin Hdb Hbody Hne r1 env2
    Hd Hfresh r2.
  destruct (GetJSON_body_caches X u w env h data w1 env1 Hdb Hbody)
    as (-> & row & Hsel & Hrow).
  assert (E1 : r1 = GetJSON_decode X data shape obj (w, env1)).
  { unfold r1. rewrite (GetJSON_run X u shape obj w env Hin), Hbody.
    reflexivity. }
  pose proof (keeps_GetJSON_decode X data shape obj (w, env1)) as Hk.
  pose proof (quiet_GetJSON_decode X data shape obj (w, env1)) as Hq.
  rewrite <- E1 in Hk, Hq. cbn [fst snd] in Hk, Hq. fold env2 in Hq.
  assert (Es : snd r1 = (w, env2)).
  { unfold env2. rewrite <- Hk. destruct (snd r1); reflexivity. }
  destruct Hq as ((Hu & _) & _).
  rewrite <- Hu in Hsel.
  set (envq := record (SQLQuery stmt_select_urlcache [u]) env2) in *.
  assert (Hc : cachedResponse u (w, env2) = ((data, None), (w, envq))).
  { rewrite (cachedResponse_run u w env2 h Hdb), Hd, Hsel. cbv zeta.
    fold envq. rewrite Hrow.
    assert (H1 : Bytes.is_empty data = false)
      by (destruct data; [contradiction | reflexivity]).
    assert (H2 : (time_Since (timestamp row) envq >? cacheFor w)%Z = false)
      by (rewrite Z.gtb_ltb; apply Z.ltb_ge; apply (Hfresh row Hsel)).
    rewrite H1, H2. reflexivity. }
  assert (E2 : r2 = GetJSON_decode X data shape obj (w, envq)).
  { unfold r2. rewrite Es, (GetJSON_run X u shape obj w env2 Hin).
    rewrite (GetJSON_body_hit X u w env2 h data envq Hdb Hc). reflexivity. }
  split.
  { rewrite E1, E2. apply GetJSON_decode_value. }
  pose proof (quiet_GetJSON_decode X data shape obj (w, envq)) as Hq2.
  rewrite <- E2 in Hq2. cbn [snd] in Hq2.
  destruct Hq2 as ((Hu2 & _) & _ & Hh2).
  split.
  - rewrite Hh2. unfold envq. rewrite http_count_record. cbn. lia.
  - rewrite Hu2. reflexivity.
Qed.

Lemma GetJSON_repeat_served_from_cache_witness :
  let w := Sample.alice (Some Database) in
  let env := Sample.world Sample.tracker [] [] [Sample.session "s1"] in
  let u := Sample.request_url in
  let shape := OtherResponse "RequestResponse" in
  let r1 := GetJSON Sample.X u shape JSON.JNull (w, env) in
  let r2 := GetJSON Sample.X u shape JSON.JNull (snd r1) in
  loggedIn w = true /\ db w = Some Database /\
  fst r1 = (JSON.JNull, Some (APIError "bad id parameter")) /\
  http_count (snd (snd r1)) = 1%nat /\
  fst r2 = fst r1 /\
  http_count (snd (snd r2)) = 1%nat.
Proof.
  intros w env u shape r1 r2.
  assert (Hbody : GetJSON_body Sample.X u (w, env) =
                  ((Sample.bad_id_body, None),
                   snd (GetJSON_body Sample.X u (w, env))))
    by (lazy; reflexivity).
  assert (Hcount : http_count (snd (snd r1)) = 1%nat) by (lazy; reflexivity).
  split; [reflexivity | ]. split; [reflexivity | ].
  split; [lazy; reflexivity | ]. split; [exact Hcount | ].
  destruct (GetJSON_repeat_served_from_cache Sample.X u shape JSON.JNull
              w env Database Sample.bad_id_body _ 1%Z None
              eq_refl eq_refl Hbody) as (Hsame & Hnet & _).
  - discriminate.
  - lazy. reflexivity.
  - intros row Hrow. lazy in Hrow. injection Hrow as <-.
    lazy. discriminate.
  - split; [exact Hsame | ]. fold r1 in Hnet. fold r2 in Hnet.
    rewrite Hnet. exact Hcount.
Defined.

(** ** The rewriting, when there is nothing to rewrite *)

Lemma replace_from_absent old new s :
  Bytes.Contains s old = false -> Bytes.replace_from old new s 0 = s.
Proof.
  induction s as [| c t IH]; intros H; [reflexivity | ].
  rewrite Contains_cons in H. apply orb_false_iff in H as [Hp Ht].
  cbn [Bytes.replace_from]. rewrite Hp, (IH Ht). reflexivity.
Qed.

(** X8. The correction is inert on a body without the fragment.  When
    the first decode into [ArtistResponse] (or [TopTenTorrentsResponse])
    fails and the body has no occurrence of that shape's fragment, the
    second decode runs on the very same bytes, and its result is what
    [GetJSON] returns. *)
Theorem GetJSON_correction_inert :
  forall (X : Externals) u obj w env data w1 env1 st,
    loggedIn w = true ->
    GetJSON_body X u (w, env) = ((data, None), (w1, env1)) ->
    Envelope.Unmarshal data = (st, None) ->
    checkResponseStatus (Status st) (Error st) = None ->
    (forall ro1 e1,
       json_Unmarshal X ArtistResponse data obj = (ro1, Some e1) ->
       Bytes.Contains data extendedArtists_false = false ->
       fst (GetJSON X u ArtistResponse obj (w, env)) =
       json_Unmarshal X ArtistResponse data ro1)
    /\
    (forall ro1 e1,
       json_Unmarshal X TopTenTorrentsResponse data obj = (ro1, Some e1) ->
       Bytes.Contains data artist_false = false ->
       fst (GetJSON X u TopTenTorrentsResponse obj (w, env)) =
       json_Unmarshal X TopTenTorrentsResponse data ro1).
Proof.
  intros X u obj w env data w1 env1 st Hin Hbody Hst Hok.
  split; intros ro1 e1 H1 Habs;
    rewrite (GetJSON_run X u _ obj w env Hin), Hbody;
    rewrite (GetJSON_decode_accepted X data _ obj w1 env1 st Hst Hok).
  - rewrite GetJSON_quirks_artist, H1.
    unfold Bytes.ReplaceAll. rewrite (replace_from_absent _ _ _ Habs).
    reflexivity.
  - rewrite GetJSON_quirks_topten, H1.
    unfold Bytes.ReplaceAll. rewrite (replace_from_absent _ _ _ Habs).
    reflexivity.
Qed.

Lemma GetJSON_correction_inert_witness :
  let w := Sample.alice (Some Database) in
  let env := Sample.world Sample.tracker [Scenario.spaced_row] [] [] in
  let u := Sample.artist_url in
  let data := Scenario.spaced_artist_body in
  loggedIn w = true /\
  fst (GetJSON_body Sample.X u (w, env)) = (data, None) /\
  snd (Envelope.Unmarshal data) = None /\
  Bytes.Contains data extendedArtists_false = false /\
  snd (fst (GetJSON Sample.X u ArtistResponse JSON.JNull (w, env))) =
  Some (json_UnmarshalTypeError "bool" "response.extendedArtists").
Proof.
  intros w env u data.
  assert (Hbody : GetJSON_body Sample.X u (w, env) =
                  ((data, None),
                   (fst (snd (GetJSON_body Sample.X u (w, env))),
                    snd (snd (GetJSON_body Sample.X u (w, env))))))
    by (lazy; reflexivity).
  assert (Hst : Envelope.Unmarshal data =
                (fst (Envelope.Unmarshal data), None)) by (lazy; reflexivity).
  assert (Habs : Bytes.Contains data extendedArtists_false = false)
    by (lazy; reflexivity).
  split; [reflexivity | ]. split; [lazy; reflexivity | ].
  split; [lazy; reflexivity | ]. split; [exact Habs | ].
  destruct (GetJSON_correction_inert Sample.X u JSON.JNull w env data _ _ _
              eq_refl Hbody Hst eq_refl) as [Hartist _].
  rewrite (Hartist (fst (json_Unmarshal Sample.X ArtistResponse data JSON.JNull))
             (json_UnmarshalTypeError "bool" "response.extendedArtists"));
    [lazy; reflexivity | lazy; reflexivity | exact Habs].
Defined.

(** ** Logging in, the unhappy ways *)

(** X9. Credentials that the server does not accept.  On a client
    without a database, when the form is answered from a URL that does
    not contain [index], whatever the status of the answer, [Login]
    returns [errLoginFailed]: the client is unchanged, the probe is not
    run, and the only event is the [POST]. *)
Theorem Login_rejected :
  forall (X : Externals) username password w env resp,
    db w = None ->
    http_NewRequest X "POST" (String.append (baseURL w) "login.php") = None ->
    server env (http_count env) (login_request w username password) (Jar env)
      = Answered resp ->
    Bytes.Contains (RequestURL resp) "index" = false ->
    Login X username password (w, env) =
    (Some errLoginFailed,
     (w, with_Jar (SetCookies (Jar env) (SetCookie resp))
           (record (HTTP (login_request w username password)) env))).
Proof.
  intros X username password w env resp Hdb Hreq Hout Hurl.
  rewrite (Login_run_nil_db X username password w env Hdb).
  rewrite (Login_credentials_run X username password w env Hreq).
  unfold client_Do. rewrite Hout, Hurl. reflexivity.
Qed.

Lemma Login_rejected_witness :
  let w := Sample.anonymous None in
  let env := Sample.world Sample.tracker [] [] [] in
  let r := Login Sample.X "alice" "guess" (w, env) in
  db w = None /\
  fst r = Some errLoginFailed /\ fst (snd r) = w /\
  http_count (snd (snd r)) = 1%nat.
Proof.
  intros w env r. split; [reflexivity | ].
  assert (Hout : server env (http_count env) (login_request w "alice" "guess")
                   (Jar env) =
                 Sample.ok "<html>" (String.append Sample.site "login.php") [])
    by (lazy; reflexivity).
  unfold r.
  rewrite (Login_rejected Sample.X "alice" "guess" w env _
             eq_refl eq_refl Hout eq_refl).
  repeat split.
Defined.

(** X10. Credentials accepted, probe failed.  On a client without a
    database, when the form is answered from a URL containing [index]
    and the probe that follows fails, [Login] returns the probe's
    error, but the client is left marked as logged in ([loggedIn] is
    set before the probe), with the keys it had; the cookie table is
    not written. *)
Theorem Login_probe_failure_leaves_logged_in :
  forall (X : Externals) username password w env resp e w2 env2,
    db w = None ->
    http_NewRequest X "POST" (String.append (baseURL w) "login.php") = None ->
    server env (http_count env) (login_request w username password) (Jar env)
      = Answered resp ->
    Bytes.Contains (RequestURL resp) "index" = true ->
    GetAccount X
      (set_loggedIn true w,
       snd (client_Do (login_request w username password) env))
      = (Some e, (w2, env2)) ->
    Login X username password (w, env) =
      (Some e, (set_loggedIn true w, env2))
    /\ cookies env2 = cookies env.
Proof.
  intros X username password w env resp e w2 env2 Hdb Hreq Hout Hurl Hacc.
  pose proof (GetAccount_client X _ _ _ _ _ Hacc) as Hw2. cbn in Hw2.
  subst w2.
  pose proof (off_store_client_Do (login_request w username password) env)
    as (_ & Hc' & _).
  assert (E : client_Do (login_request w username password) env =
              (Answered resp,
               snd (client_Do (login_request w username password) env))).
  { unfold client_Do. rewrite Hout. reflexivity. }
  set (envp := snd (client_Do (login_request w username password) env)) in *.
  split.
  - rewrite (Login_run_nil_db X username password w env Hdb).
    rewrite (Login_credentials_run X username password w env Hreq).
    rewrite E, Hurl. cbn [negb]. rewrite Hacc. reflexivity.
  - pose proof (GetAccount_off_store X (set_loggedIn true w) envp) as Hoff.
    rewrite Hacc in Hoff. cbn [snd] in Hoff.
    destruct Hoff as (_ & Hc & _). rewrite Hc. exact Hc'.
Qed.

Lemma Login_probe_failure_leaves_logged_in_witness :
  let w := Sample.anonymous None in
  let env := Sample.world Scenario.half_up [] [] [] in
  let r := Login Sample.X "alice" "secret" (w, env) in
  db w = None /\ loggedIn w = false /\
  fst r = Some json_SyntaxError /\
  loggedIn (fst (snd r)) = true /\
  authkey (fst (snd r)) = EmptyString.
Proof.
  intros w env r. split; [reflexivity | ]. split; [reflexivity | ].
  assert (Hout : server env (http_count env)
                   (login_request w "alice" "secret") (Jar env) =
                 Sample.ok "<html>" (String.append Sample.site "index.php")
                   [Sample.session "s1"]) by (lazy; reflexivity).
  pose (p := GetAccount Sample.X
               (set_loggedIn true w,
                snd (client_Do (login_request w "alice" "secret") env))).
  assert (Hp : p = (Some json_SyntaxError, (fst (snd p), snd (snd p))))
    by (lazy; reflexivity).
  destruct (Login_probe_failure_leaves_logged_in Sample.X "alice" "secret"
              w env _ json_SyntaxError (fst (snd p)) (snd (snd p))
              eq_refl eq_refl Hout eq_refl Hp) as [Hlogin _].
  unfold r. rewrite Hlogin. repeat split.
Defined.

(** X11. A cookie record that cannot be loaded stops [Login].  On a
    client with a database: if the driver fails the [SELECT], or if the
    record it returns does not decode, [Login] returns that error;
    the client and the jar are unchanged, no request is sent, and the
    user name and password are not used. *)
Theorem Login_stops_on_unreadable_cookies :
  forall (X : Externals) username password w env h,
    db w = Some h ->
    let env1 := record (SQLQuery stmt_select_cookie [baseURL w]) env in
    (forall m,
       driver env (sql_count env) = Fails m ->
       Login X username password (w, env) = (Some (StoreError m), (w, env1)))
    /\
    (forall n e row cs err,
       driver env (sql_count env) = Executes n e ->
       select_cookie (baseURL w) (cookies env) = Some row ->
       json_Unmarshal_cookies X (cookie row) = (cs, Some err) ->
       Login X username password (w, env) =
       (Some err, (w, record (Unmarshal TCookies (cookie row)) env1))).
Proof.
  intros X username password w env h Hdb env1.
  split.
  - intros m Hd.
    rewrite (Login_run_db X username password w env h Hdb).
    rewrite (getCookies_run X w env h Hdb), Hd. reflexivity.
  - intros n e row cs err Hd Hrow Hcs.
    rewrite (Login_run_db X username password w env h Hdb).
    rewrite (getCookies_run X w env h Hdb), Hd, Hrow, Hcs. reflexivity.
Qed.

Lemma Login_stops_on_unreadable_cookies_witness :
  let w := Sample.anonymous (Some Database) in
  let torn := {| url := Sample.site; cookie := "[{" |} in
  let env := Sample.world Sample.tracker [] [torn] [] in
  let r := Login Sample.X "alice" "secret" (w, env) in
  db w = Some Database /\
  fst r = Some json_SyntaxError /\
  http_count (snd (snd r)) = 0%nat /\ Jar (snd (snd r)) = [].
Proof.
  intros w torn env r. split; [reflexivity | ].
  destruct (Login_stops_on_unreadable_cookies Sample.X "alice" "secret"
              w env Database eq_refl) as [_ Htorn].
  unfold r.
  rewrite (Htorn 1%Z None torn [] json_SyntaxError);
    [repeat split | reflexivity | reflexivity | lazy; reflexivity].
Defined.

(** ** After logging out *)

(** X12. Once [Logout] has returned nil, nothing authenticated works
    until the next login: every dispatch returns
    [errRequestFailedLogin] without any event, [CreateDownloadURL]
    returns it too, and so does [Do] whenever the URL can be built. *)
Theorem Logout_then_refused :
  forall (X : Externals) w env w' env',
    Logout X (w, env) = (None, (w', env')) ->
    (forall u shape obj,
       GetJSON X u shape obj (w', env') =
       ((obj, Some errRequestFailedLogin), (w', env')))
    /\ (forall id,
          CreateDownloadURL X w' id = (EmptyString, Some errRequestFailedLogin))
    /\ (forall action params shape obj u,
          buildURL X (baseURL w') "ajax.php" action params = (u, None) ->
          Do X action params shape obj (w', env') =
          ((obj, Some errRequestFailedLogin), (w', env'))).
Proof.
  intros X w env w' env' H. rewrite Logout_run in H.
  assert (Hout : loggedIn w' = false).
  { destruct (buildURL X (baseURL w) "logout.php" EmptyString
                [("auth", [authkey w])]) as [u [e | ]]; [discriminate H | ].
    destruct (http_NewRequest X "GET" u); [discriminate H | ].
    destruct (client_Do (GET u) env) as [[m | resp] env1];
      [discriminate H | ].
    injection H as <- _. reflexivity. }
  assert (G : forall u shape obj,
             GetJSON X u shape obj (w', env') =
             ((obj, Some errRequestFailedLogin), (w', env'))).
  { intros u shape obj. unfold GetJSON. unfold_go. rewrite Hout.
    reflexivity. }
  split; [exact G | ]. split.
  - intros id. unfold CreateDownloadURL. rewrite Hout. reflexivity.
  - intros action params shape obj u Hu. unfold Do. cbn [fst snd].
    rewrite Hu, G. reflexivity.
Qed.

Lemma Logout_then_refused_witness :
  let s := (Sample.alice (Some Database),
            Sample.world Sample.tracker [Sample.fresh_row] []
              [Sample.session "s1"]) in
  let r := Logout Sample.X s in
  Logout Sample.X s = (None, snd r) /\
  fst (GetJSON Sample.X Sample.artist_url ArtistResponse JSON.JNull (snd r)) =
    (JSON.JNull, Some errRequestFailedLogin) /\
  CreateDownloadURL Sample.X (fst (snd r)) 42 =
    (EmptyString, Some errRequestFailedLogin).
Proof.
  intros s r.
  assert (H : Logout Sample.X s = (None, (fst (snd r), snd (snd r))))
    by (lazy; reflexivity).
  split; [lazy; reflexivity | ].
  destruct (Logout_then_refused Sample.X (fst s) (snd s) _ _ H)
    as (Hget & Hurl & _).
  split; [ | apply Hurl].
  replace (snd r) with (fst (snd r), snd (snd r)) by (lazy; reflexivity).
  rewrite Hget. reflexivity.
Defined.

(** ** Saving the jar, and loading it *)

Lemma SetCookie1_new jar c :
  ~ In (Name c) (map Name jar) -> SetCookie1 jar c = jar ++ [c].
Proof.
  induction jar as [| d rest IH]; intros Hnew; [reflexivity | ].
  cbn in Hnew |- *.
  destruct (String.eqb_spec (Name d) (Name c)) as [E | _].
  - exfalso. apply Hnew. left. exact E.
  - rewrite IH; [reflexivity | ]. intros Hin. apply Hnew. right. exact Hin.
Qed.

Lemma SetCookies_new cs : forall jar,
  NoDup (map Name (jar ++ cs)) -> SetCookies jar cs = jar ++ cs.
Proof.
  unfold SetCookies.
  induction cs as [| c cs IH]; intros jar Hnd; cbn.
  - rewrite app_nil_r. reflexivity.
  - rewrite map_app in Hnd. cbn in Hnd.
    pose proof (NoDup_remove_2 _ _ _ Hnd) as Hnew.
    rewrite SetCookie1_new.
    + rewrite IH, <- app_assoc; [reflexivity | ].
      rewrite <- app_assoc, map_app. exact Hnd.
    + intros Hin. apply Hnew. apply in_or_app. left. exact Hin.
Qed.

(** X13. What [saveCookies] stores, [getCookies] restores.  Let
    [saveCookies] return nil on a client with a database, the jar's
    cookies having distinct names and a JSON form that decodes to them
    again.  Then in any later world with the same cookie table, an
    empty jar and a driver that runs the query, [getCookies] returns
    nil and the jar holds exactly the cookies that were saved. *)
Theorem getCookies_after_saveCookies :
  forall (X : Externals) w env h w1 env1 c env2 n e,
    db w = Some h ->
    saveCookies X (w, env) = (None, (w1, env1)) ->
    json_Marshal_cookies X (Jar env) = (c, None) ->
    json_Unmarshal_cookies X c = (Jar env, None) ->
    NoDup (map Name (Jar env)) ->
    cookies env2 = cookies env1 ->
    Jar env2 = [] ->
    driver env2 (sql_count env2) = Executes n e ->
    fst (getCookies X (w, env2)) = None /\
    Jar (snd (snd (getCookies X (w, env2)))) = Jar env.
Proof.
  intros X w env h w1 env1 c env2 n e Hdb Hsave Hm Hu Hnd Hc Hj Hd.
  destruct (saveCookies_ok X w env h w1 env1 Hdb Hsave)
    as (_ & Hjar & c' & Hm' & Hsel).
  rewrite Hjar, Hm in Hm'. injection Hm' as <-.
  rewrite (getCookies_run X w env2 h Hdb), Hd, Hc, Hsel. cbv zeta.
  cbn [cookie]. rewrite Hu. cbn [fst snd loaded Jar with_Jar].
  split; [reflexivity | ].
  rewrite Hj. apply (SetCookies_new (Jar env) []). exact Hnd.
Qed.

Lemma getCookies_after_saveCookies_witness :
  let w := Sample.alice (Some Database) in
  let env := Sample.world Sample.tracker [] []
               [Sample.session "s1"; {| Name := "lang"; Value := "en" |}] in
  let env1 := snd (snd (saveCookies Sample.X (w, env))) in
  let env2 := with_Jar [] env1 in
  db w = Some Database /\
  fst (saveCookies Sample.X (w, env)) = None /\
  Jar env2 = [] /\
  fst (getCookies Sample.X (w, env2)) = None /\
  Jar (snd (snd (getCookies Sample.X (w, env2)))) =
    [Sample.session "s1"; {| Name := "lang"; Value := "en" |}].
Proof.
  intros w env env1 env2.
  assert (Hsave : saveCookies Sample.X (w, env) = (None, (w, env1)))
    by (lazy; reflexivity).
  assert (Hm : json_Marshal_cookies Sample.X (Jar env) =
               (fst (json_Marshal_cookies Sample.X (Jar env)), None))
    by (lazy; reflexivity).
  assert (Hu : json_Unmarshal_cookies Sample.X
                 (fst (json_Marshal_cookies Sample.X (Jar env))) =
               (Jar env, None)) by (lazy; reflexivity).
  assert (Hnd : NoDup (map Name (Jar env))).
  { repeat constructor; cbn; intuition discriminate. }
  assert (Hd : driver env2 (sql_count env2) = Executes 1 None)
    by (lazy; reflexivity).
  split; [reflexivity | ]. split; [lazy; reflexivity | ].
  split; [reflexivity | ].
  exact (getCookies_after_saveCookies Sample.X w env Database w env1 _ env2
           1%Z None eq_refl Hsave Hm Hu Hnd eq_refl eq_refl Hd).
Defined.

(** ** What never changes the client *)

(** X14. Only [GetAccount], [Login] and [Logout] assign to the client:
    a dispatch, through [GetJSON] or [Do], and the cache and cookie
    helpers return the client value they were given, on every path. *)
Theorem dispatch_keeps_client :
  forall (X : Externals) s,
    (forall u shape obj, fst (snd (GetJSON X u shape obj s)) = fst s) /\
    (forall action params shape obj,
       fst (snd (Do X action params shape obj s)) = fst s) /\
    (forall u data, fst (snd (updateCache u data s)) = fst s) /\
    (forall u, fst (snd (cachedResponse u s)) = fst s) /\
    fst (snd (getCookies X s)) = fst s /\
    fst (snd (saveCookies X s)) = fst s /\
    fst (snd (clearCookies X s)) = fst s.
Proof.
  intros X s. repeat split.
  - intros u shape obj. apply keeps_GetJSON.
  - intros action params shape obj. unfold Do.
    destruct (buildURL X (baseURL (fst s)) "ajax.php" action params)
      as [u [e | ]]; [reflexivity | ].
    destruct (GetJSON X u shape obj (fst s, snd s)) as [r [w1 env1]].
    reflexivity.
  - intros u data. apply keeps_updateCache.
  - intros u. apply keeps_cachedResponse.
  - apply keeps_getCookies.
  - apply keeps_saveCookies.
  - apply keeps_clearCookies.
Qed.

(** ** Names of release types *)






(** ** The string of a group *)

Lemma existsb_Permutation {A : Type} (f : A -> bool) l l' :
  Permutation l l' -> existsb f l = existsb f l'.
Proof.
  induction 1 as [| x l l' _ IH | x y l | l l' l'' _ IH1 _ IH2]; cbn.
  - reflexivity.
  - rewrite IH. reflexivity.
  - destruct (f x), (f y); reflexivity.
  - congruence.
Qed.

(** The loop, by what it finds. *)
Lemma GroupString_loop_found g tags :
  GroupString_loop g tags =
  if existsb (fun t => String.eqb t "classical") tags
  then match group_MusicInfo g with
       | Some mi => classical_string g mi
       | None => plain_string g
       end
  else plain_string g.
Proof.
  induction tags as [| t rest IH]; cbn; [reflexivity | ].
  destruct (String.eqb t "classical"); cbn; [reflexivity | exact IH].
Qed.

(** X16. [GroupString] does not depend on the order in which the tags
    are visited (the [range] over the tag map visits them in an
    unspecified order): groups that differ only by a permutation of the
    visited tags have the same string.  The classical form is used
    exactly when some tag is [classical] and the group is a
    [GroupStruct]. *)
Theorem GroupString_tag_order :
  forall g tags',
    Permutation (group_Tags g) tags' ->
    GroupString (with_Tags tags' g) = GroupString g /\
    GroupString g =
      match group_MusicInfo g with
      | Some mi =>
          if existsb (fun t => String.eqb t "classical") (group_Tags g)
          then classical_string g mi else plain_string g
      | None => plain_string g
      end.
Proof.
  intros g tags' Hperm. unfold GroupString.
  rewrite !GroupString_loop_found. cbn [group_Tags with_Tags group_MusicInfo].
  rewrite <- (existsb_Permutation _ _ _ Hperm).
  split.
  - destruct (existsb _ (group_Tags g)); [ | reflexivity].
    destruct (group_MusicInfo g); reflexivity.
  - destruct (group_MusicInfo g);
      destruct (existsb _ (group_Tags g)); reflexivity.
Qed.

Lemma GroupString_tag_order_witness :
  let g := Scenario.classical_group in
  let tags' := ["classical"; "1990s"; "orchestral"]%string in
  Permutation (group_Tags g) tags' /\
  GroupString (with_Tags tags' g) = GroupString g /\
  GroupString g = "Beethoven - Symphony No. 5 - A & B C (1990)"%string.
Proof.
  intros g tags'.
  assert (Hperm : Permutation (group_Tags g) tags').
  { unfold g, tags'. cbn.
    apply Permutation_trans
      with (l' := ["classical"; "orchestral"; "1990s"]%string).
    - apply perm_swap.
    - apply perm_skip. apply perm_swap. }
  split; [exact Hperm | ].
  split; [exact (proj1 (GroupString_tag_order g tags' Hperm)) | ].
  lazy. reflexivity.
Defined.

(** ** An answer with nothing in it *)

(** X17. An empty answer is an error for the caller and is never
    served from the cache.  When a fetch on a client with a database
    succeeds with status 200 and an empty body, and the driver runs the
    write: [GetJSON] returns the syntax error of the envelope's decode,
    with [responseObj] untouched; the table now holds one row under the
    URL, with the empty body; and the next lookup of the URL, whenever
    it is made, reports [sql.ErrNoRows], so the next dispatch goes to
    the network again. *)
Theorem GetJSON_empty_answer :
  forall (X : Externals) u shape obj w env h d env1 resp,
    loggedIn w = true ->
    db w = Some h ->
    cachedResponse u (w, env) = ((d, Some sql_ErrNoRows), (w, env1)) ->
    http_NewRequest X "GET" u = None ->
    server env1 (http_count env1) (sent w u) (Jar env1) = Answered resp ->
    StatusCode resp = 200%Z ->
    ReadAll resp = (EmptyString, None) ->
    let env2 := snd (client_Do (sent w u) env1) in
    driver env2 (sql_count env2) = Executes 1 None ->
    let env3 := record (Unmarshal TGenericResponse EmptyString)
                  (written u EmptyString env2) in
    GetJSON X u shape obj (w, env) =
      ((obj, Some json_SyntaxError), (w, env3))
    /\ rows_for u (urlcache env3) =
       [{| requesturl := u; body := EmptyString;
           timestamp := datetime_now env2 |}]
    /\ (forall n e,
          driver env3 (sql_count env3) = Executes n e ->
          cachedResponse u (w, env3) =
          ((EmptyString, Some sql_ErrNoRows),
           (w, record (SQLQuery stmt_select_urlcache [u]) env3))).
Proof.
  intros X u shape obj w env h d env1 resp Hin Hdb Hc Hreq Hout Hst Hread
    env2 Hd env3.
  assert (Hmiss : is_nil (db w) || is_ErrNoRows (Some sql_ErrNoRows) = true)
    by apply orb_true_r.
  pose proof (GetJSON_fetches X u shape obj w env d _ env1 Hin Hc Hmiss Hreq)
    as G.
  rewrite doRequest_run in G. fold (sent w u) in G.
  assert (E : client_Do (sent w u) env1 = (Answered resp, env2)).
  { unfold env2, client_Do. rewrite Hout. reflexivity. }
  rewrite E, Hst, Hread in G. cbn [negb Z.eqb Pos.eqb] in G.
  rewrite (updateCache_run u EmptyString w env2 h Hdb), Hd in G.
  cbv zeta in G. cbn [Z.eqb Pos.eqb] in G.
  split; [ | split].
  - rewrite G. reflexivity.
  - unfold env3, written. cbn [urlcache record with_trace with_urlcache].
    apply (rows_for_replace
             {| requesturl := u; body := EmptyString;
                timestamp := datetime_now env2 |}).
  - intros n e Hd3.
    rewrite (cachedResponse_run u w env3 h Hdb), Hd3. cbv zeta.
    change (urlcache env3) with (urlcache (written u EmptyString env2)).
    rewrite select_cache_written. reflexivity.
Qed.

Lemma GetJSON_empty_answer_witness :
  let w := Sample.alice (Some Database) in
  let env := Sample.world Sample.tracker [] [] [Sample.session "s1"] in
  let u := Sample.inbox_url in
  let shape := OtherResponse "MailboxResponse" in
  let r1 := GetJSON Sample.X u shape JSON.JNull (w, env) in
  let r2 := GetJSON Sample.X u shape JSON.JNull (snd r1) in
  loggedIn w = true /\ db w = Some Database /\
  fst r1 = (JSON.JNull, Some json_SyntaxError) /\
  http_count (snd (snd r1)) = 1%nat /\
  http_count (snd (snd r2)) = 2%nat.
Proof.
  intros w env u shape r1 r2.
  pose (env1 := record (SQLQuery stmt_select_urlcache [u]) env).
  assert (Hc : cachedResponse u (w, env) =
               ((EmptyString, Some sql_ErrNoRows), (w, env1)))
    by (lazy; reflexivity).
  assert (Hout : server env1 (http_count env1) (sent w u) (Jar env1) =
                 Sample.ok EmptyString u []) by (lazy; reflexivity).
  split; [reflexivity | ]. split; [reflexivity | ].
  destruct (GetJSON_empty_answer Sample.X u shape JSON.JNull w env Database
              EmptyString env1 _ eq_refl eq_refl Hc eq_refl Hout
              eq_refl eq_refl) as (Hget & _ & _).
  { lazy. reflexivity. }
  split; [unfold r1; rewrite Hget; reflexivity | ].
  split; lazy; reflexivity.
Defined.
